(** * The per-user realtime session bridge (websocket-server/src/userSessionManager.ts)

    A shallow embedding of the session manager that bridges a Twilio media
    stream, the OpenAI realtime connection and a frontend observer.  The
    module-level maps, the session objects they point to and the WebSocket
    objects are one explicit [World]; every handler of the source is a
    function on that world.  Closures registered with [ws.on] are
    defunctionalised into [Listener] values that keep what the closure
    captured (the user id, the session object).

    Modelling choices:
    - numbers carried by the media clock are integers ([Z], milliseconds);
    - a message that [parseMessage] accepted is given by the fields the
      handlers read ([TwilioMsg], [ModelEvent], [FrontendMsg]); a message it
      rejected is [None];
    - [jsonSend (ws, obj)] appends [obj] to the [sent] log of the socket;
    - the calls into callHistoryService are fire-and-forget and are logged
      in [history];
    - text is ASCII: [String.length] and [String.substring] count the
      characters of a [string], where the code counts UTF-16 units (the
      two differ on other text, in what is written to the history only). *)

From stdpp Require Import gmap strings list fin_maps.
From Stdlib Require Import Ascii.

Local Open Scope string_scope.
Local Open Scope list_scope.
Set Warnings "-register-all".

(** ** Values and messages *)

(** A JSON-like value, for payloads the bridge only passes around. *)
Inductive Value :=
  | VUndefined
  | VNum (z : Z)
  | VStr (s : string)
  | VList (l : list Value)
  | VObj (fields : list (string * Value)).

Inductive CallType := inbound | outbound.

Inductive OutboundCallStatus := initiating | ringing | connected | disconnected.

(** [msg.start], [msg.media] and the other telephony events. *)
Inductive TwilioMsg :=
  | TwStart (callSid streamSid : string) (from : option string)
  | TwMedia (timestamp : Z) (payload : string)
  | TwClose
  | TwStop
  | TwOther (event : string).

Record ContentPart := { part_type : string; part_text : string }.

Inductive OutputItem :=
  | ItemMessage (content : option (list ContentPart))
  | ItemFunctionCall (name arguments : string) (call_id : option string)
  | ItemOther (type : string).

(** Events of the model link, by their [type]. *)
Inductive ModelEvent :=
  | SpeechStarted
  | TranscriptionCompleted (transcript : option string) (confidence : Value)
  | ResponseAudioDelta (item_id : option string) (delta : string)
  | ResponseAudioTranscriptDelta (delta : option string)
  | ResponseOutputItemDone (item : OutputItem)
  | OtherModelEvent (type : string).

Record FrontendMsg := { msg_type : string; msg_session : option (gmap string Value) }.

(** What [jsonSend] puts on a link. *)
Inductive Frame :=
  | InputAudioBufferAppend (audio : string)
  | ConversationItemTruncate (item_id : string) (content_index audio_end_ms : Z)
  | InputAudioBufferClear
  | ConversationItemCreateMessage (role text : string)
  | ConversationItemCreateFunctionCallOutput (call_id : option string) (output : string)
  | ResponseCreate
  | SessionUpdate (session : gmap string Value)
  | FromFrontend (msg : FrontendMsg)
  | TwilioMedia (streamSid payload : string)
  | TwilioMark (streamSid : string)
  | FromModel (event : ModelEvent).

(** Calls into callHistoryService.ts. *)
Inductive HistoryCall :=
  | StartCallTracking (callSid userId phoneNumber : string) (direction : CallType)
  | UpdateCallStatus (callSid status : string)
  | AddConversationEvent (callSid event_type speaker content : string)
      (metadata : list (string * Value))
  | EndCallTracking (callSid : string).

(** ** Sessions (types.ts, [UserSession])

    Sockets and session objects are referred to by their index in the
    tables of the world. *)

Abbreviation sock := nat.
Abbreviation loc := nat.

Record UserSession := {
  userId : string;
  sessionId : option string;
  twilioConn : option sock;
  frontendConn : option sock;
  modelConn : option sock;
  streamSid : option string;
  saved_config : option (gmap string Value);
  lastAssistantItem : option string;
  responseStartTimestamp : option Z;
  latestMediaTimestamp : option Z;
  openAIApiKey : option string;
  callType : option CallType;
  callSid : option string;
  outboundCallStatus : option OutboundCallStatus
}.

(** The object literal [{ userId }] of [getUserSession]. *)
Definition new_session (u : string) : UserSession :=
  {| userId := u; sessionId := None; twilioConn := None; frontendConn := None;
     modelConn := None; streamSid := None; saved_config := None;
     lastAssistantItem := None; responseStartTimestamp := None;
     latestMediaTimestamp := None; openAIApiKey := None; callType := None;
     callSid := None; outboundCallStatus := None |}.

Definition set_twilioConn (v : option sock) (s : UserSession) : UserSession :=
  {| userId := userId s; sessionId := sessionId s; twilioConn := v;
     frontendConn := frontendConn s; modelConn := modelConn s;
     streamSid := streamSid s; saved_config := saved_config s;
     lastAssistantItem := lastAssistantItem s;
     responseStartTimestamp := responseStartTimestamp s;
     latestMediaTimestamp := latestMediaTimestamp s;
     openAIApiKey := openAIApiKey s; callType := callType s;
     callSid := callSid s; outboundCallStatus := outboundCallStatus s |}.

Definition set_frontendConn (v : option sock) (s : UserSession) : UserSession :=
  {| userId := userId s; sessionId := sessionId s; twilioConn := twilioConn s;
     frontendConn := v; modelConn := modelConn s;
     streamSid := streamSid s; saved_config := saved_config s;
     lastAssistantItem := lastAssistantItem s;
     responseStartTimestamp := responseStartTimestamp s;
     latestMediaTimestamp := latestMediaTimestamp s;
     openAIApiKey := openAIApiKey s; callType := callType s;
     callSid := callSid s; outboundCallStatus := outboundCallStatus s |}.

Definition set_modelConn (v : option sock) (s : UserSession) : UserSession :=
  {| userId := userId s; sessionId := sessionId s; twilioConn := twilioConn s;
     frontendConn := frontendConn s; modelConn := v;
     streamSid := streamSid s; saved_config := saved_config s;
     lastAssistantItem := lastAssistantItem s;
     responseStartTimestamp := responseStartTimestamp s;
     latestMediaTimestamp := latestMediaTimestamp s;
     openAIApiKey := openAIApiKey s; callType := callType s;
     callSid := callSid s; outboundCallStatus := outboundCallStatus s |}.

Definition set_streamSid (v : option string) (s : UserSession) : UserSession :=
  {| userId := userId s; sessionId := sessionId s; twilioConn := twilioConn s;
     frontendConn := frontendConn s; modelConn := modelConn s;
     streamSid := v; saved_config := saved_config s;
     lastAssistantItem := lastAssistantItem s;
     responseStartTimestamp := responseStartTimestamp s;
     latestMediaTimestamp := latestMediaTimestamp s;
     openAIApiKey := openAIApiKey s; callType := callType s;
     callSid := callSid s; outboundCallStatus := outboundCallStatus s |}.

Definition set_saved_config (v : option (gmap string Value)) (s : UserSession) : UserSession :=
  {| userId := userId s; sessionId := sessionId s; twilioConn := twilioConn s;
     frontendConn := frontendConn s; modelConn := modelConn s;
     streamSid := streamSid s; saved_config := v;
     lastAssistantItem := lastAssistantItem s;
     responseStartTimestamp := responseStartTimestamp s;
     latestMediaTimestamp := latestMediaTimestamp s;
     openAIApiKey := openAIApiKey s; callType := callType s;
     callSid := callSid s; outboundCallStatus := outboundCallStatus s |}.

Definition set_lastAssistantItem (v : option string) (s : UserSession) : UserSession :=
  {| userId := userId s; sessionId := sessionId s; twilioConn := twilioConn s;
     frontendConn := frontendConn s; modelConn := modelConn s;
     streamSid := streamSid s; saved_config := saved_config s;
     lastAssistantItem := v;
     responseStartTimestamp := responseStartTimestamp s;
     latestMediaTimestamp := latestMediaTimestamp s;
     openAIApiKey := openAIApiKey s; callType := callType s;
     callSid := callSid s; outboundCallStatus := outboundCallStatus s |}.

Definition set_responseStartTimestamp (v : option Z) (s : UserSession) : UserSession :=
  {| userId := userId s; sessionId := sessionId s; twilioConn := twilioConn s;
     frontendConn := frontendConn s; modelConn := modelConn s;
     streamSid := streamSid s; saved_config := saved_config s;
     lastAssistantItem := lastAssistantItem s;
     responseStartTimestamp := v;
     latestMediaTimestamp := latestMediaTimestamp s;
     openAIApiKey := openAIApiKey s; callType := callType s;
     callSid := callSid s; outboundCallStatus := outboundCallStatus s |}.

Definition set_latestMediaTimestamp (v : option Z) (s : UserSession) : UserSession :=
  {| userId := userId s; sessionId := sessionId s; twilioConn := twilioConn s;
     frontendConn := frontendConn s; modelConn := modelConn s;
     streamSid := streamSid s; saved_config := saved_config s;
     lastAssistantItem := lastAssistantItem s;
     responseStartTimestamp := responseStartTimestamp s;
     latestMediaTimestamp := v;
     openAIApiKey := openAIApiKey s; callType := callType s;
     callSid := callSid s; outboundCallStatus := outboundCallStatus s |}.

Definition set_openAIApiKey (v : option string) (s : UserSession) : UserSession :=
  {| userId := userId s; sessionId := sessionId s; twilioConn := twilioConn s;
     frontendConn := frontendConn s; modelConn := modelConn s;
     streamSid := streamSid s; saved_config := saved_config s;
     lastAssistantItem := lastAssistantItem s;
     responseStartTimestamp := responseStartTimestamp s;
     latestMediaTimestamp := latestMediaTimestamp s;
     openAIApiKey := v; callType := callType s;
     callSid := callSid s; outboundCallStatus := outboundCallStatus s |}.

Definition set_callType (v : option CallType) (s : UserSession) : UserSession :=
  {| userId := userId s; sessionId := sessionId s; twilioConn := twilioConn s;
     frontendConn := frontendConn s; modelConn := modelConn s;
     streamSid := streamSid s; saved_config := saved_config s;
     lastAssistantItem := lastAssistantItem s;
     responseStartTimestamp := responseStartTimestamp s;
     latestMediaTimestamp := latestMediaTimestamp s;
     openAIApiKey := openAIApiKey s; callType := v;
     callSid := callSid s; outboundCallStatus := outboundCallStatus s |}.

Definition set_callSid (v : option string) (s : UserSession) : UserSession :=
  {| userId := userId s; sessionId := sessionId s; twilioConn := twilioConn s;
     frontendConn := frontendConn s; modelConn := modelConn s;
     streamSid := streamSid s; saved_config := saved_config s;
     lastAssistantItem := lastAssistantItem s;
     responseStartTimestamp := responseStartTimestamp s;
     latestMediaTimestamp := latestMediaTimestamp s;
     openAIApiKey := openAIApiKey s; callType := callType s;
     callSid := v; outboundCallStatus := outboundCallStatus s |}.

Definition set_outboundCallStatus (v : option OutboundCallStatus) (s : UserSession) : UserSession :=
  {| userId := userId s; sessionId := sessionId s; twilioConn := twilioConn s;
     frontendConn := frontendConn s; modelConn := modelConn s;
     streamSid := streamSid s; saved_config := saved_config s;
     lastAssistantItem := lastAssistantItem s;
     responseStartTimestamp := responseStartTimestamp s;
     latestMediaTimestamp := latestMediaTimestamp s;
     openAIApiKey := openAIApiKey s; callType := callType s;
     callSid := callSid s; outboundCallStatus := v |}.

(** ** WebSocket objects *)

Inductive ReadyState := CONNECTING | OPEN | CLOSING | CLOSED.

Inductive EventName := EvMessage | EvOpen | EvError | EvClose.

(** The closures handed to [ws.on], with what each one captured. *)
Inductive Listener :=
  | OnTwilioMessage (userId : option string) (openAIApiKey : string)
  | OnFrontendMessage (userId : string)
  | OnModelMessage (userId : string)
  | WsClose
  | AnonymousCallClosed
  | CallClosed (userId : string) (session : loc)
  | FrontendClosed (session : loc)
  | ModelOpened (userId : string) (session : loc)
  | ModelFailed (userId : string)
  | ModelClosed (userId : string).

Record WebSocket := {
  readyState : ReadyState;
  sent : list Frame;
  listeners : list (EventName * Listener)
}.

Definition set_readyState (r : ReadyState) (k : WebSocket) : WebSocket :=
  {| readyState := r; sent := sent k; listeners := listeners k |}.

Definition set_sent (fs : list Frame) (k : WebSocket) : WebSocket :=
  {| readyState := readyState k; sent := fs; listeners := listeners k |}.

Definition set_listeners (ls : list (EventName * Listener)) (k : WebSocket) : WebSocket :=
  {| readyState := readyState k; sent := sent k; listeners := ls |}.

Definition eqb_event (a b : EventName) : bool :=
  match a, b with
  | EvMessage, EvMessage | EvOpen, EvOpen | EvError, EvError | EvClose, EvClose => true
  | _, _ => false
  end.

(** ** Tool calls *)

Inductive Outcome := Fulfilled (output : string) | Rejected (message : string).

Record FunctionHandler := { schema_name : string; handler : Value -> Outcome }.

(** A [handleFunctionCall] promise whose [then]/[catch] has not run yet:
    the item, the captured [userId] and [session], and how it settles. *)
Record PendingCall := {
  pc_name : string;
  pc_call_id : option string;
  pc_userId : string;
  pc_session : loc;
  pc_outcome : Outcome
}.

(** ** The world

    [userSessions] and [callSidToUserId] are the two module-level maps.  The
    registry maps a user id to a session object of [heap]; objects are never
    freed, so a listener that captured one keeps it after
    [deleteUserSession].  [sockets] are the WebSocket objects, [history] the
    calls made into callHistoryService (oldest first), [timers] the pending
    [setTimeout] callbacks (oldest first), each to run [handleTruncation]
    for a user, and [promises] the tool calls that have not settled. *)

Record World := {
  userSessions : gmap string loc;
  callSidToUserId : gmap string string;
  heap : list UserSession;
  sockets : list WebSocket;
  history : list HistoryCall;
  timers : list string;
  promises : list PendingCall
}.

Definition init : World :=
  {| userSessions := ∅; callSidToUserId := ∅; heap := []; sockets := [];
     history := []; timers := []; promises := [] |}.

Definition set_userSessions (v : gmap string loc) (w : World) : World :=
  {| userSessions := v; callSidToUserId := callSidToUserId w; heap := heap w;
     sockets := sockets w; history := history w; timers := timers w;
     promises := promises w |}.

Definition set_callSidToUserId (v : gmap string string) (w : World) : World :=
  {| userSessions := userSessions w; callSidToUserId := v; heap := heap w;
     sockets := sockets w; history := history w; timers := timers w;
     promises := promises w |}.

Definition set_heap (v : list UserSession) (w : World) : World :=
  {| userSessions := userSessions w; callSidToUserId := callSidToUserId w;
     heap := v; sockets := sockets w; history := history w; timers := timers w;
     promises := promises w |}.

Definition set_sockets (v : list WebSocket) (w : World) : World :=
  {| userSessions := userSessions w; callSidToUserId := callSidToUserId w;
     heap := heap w; sockets := v; history := history w; timers := timers w;
     promises := promises w |}.

Definition set_history (v : list HistoryCall) (w : World) : World :=
  {| userSessions := userSessions w; callSidToUserId := callSidToUserId w;
     heap := heap w; sockets := sockets w; history := v; timers := timers w;
     promises := promises w |}.

Definition set_timers (v : list string) (w : World) : World :=
  {| userSessions := userSessions w; callSidToUserId := callSidToUserId w;
     heap := heap w; sockets := sockets w; history := history w; timers := v;
     promises := promises w |}.

Definition set_promises (v : list PendingCall) (w : World) : World :=
  {| userSessions := userSessions w; callSidToUserId := callSidToUserId w;
     heap := heap w; sockets := sockets w; history := history w;
     timers := timers w; promises := v |}.

(** ** JavaScript primitives *)

(** Truthiness of an optional string ([undefined] and the empty string are falsy)
    and of an optional number ([undefined] and [0] are falsy). *)
Definition truthy (s : option string) : bool :=
  match s with
  | Some (String _ _) => true
  | _ => false
  end.

Definition truthy_num (z : option Z) : bool :=
  match z with
  | Some z => negb (z =? 0)%Z
  | None => false
  end.

(** [x || 0] on an optional number. *)
Definition or_zero (z : option Z) : Z :=
  if truthy_num z then default 0%Z z else 0%Z.

(** [x || d] on an optional string. *)
Definition or_else (s : option string) (d : string) : string :=
  if truthy s then default d s else d.

Fixpoint join (sep : string) (l : list string) : string :=
  match l with
  | [] => EmptyString
  | [x] => x
  | x :: rest => x +:+ sep +:+ join sep rest
  end.

(** ** The session heap and the registry *)

(** Reading and writing a field of a session object.  The references that
    [getUserSession] hands out are allocated, so that the default of
    [deref] is never what a handler reads. *)
Definition deref (l : loc) (w : World) : UserSession :=
  default (new_session EmptyString) (heap w !! l).

Definition upd (l : loc) (f : UserSession -> UserSession) (w : World) : World :=
  set_heap (alter f l (heap w)) w.

Definition getUserSession (userId : string) (w : World) : loc * World :=
  match userSessions w !! userId with
  | Some l => (l, w)
  | None =>
      let l := length (heap w) in
      (l, set_userSessions (<[userId := l]> (userSessions w))
            (set_heap (heap w ++ [new_session userId]) w))
  end.

(** The session a user id currently maps to, if any. *)
Definition session_of (userId : string) (w : World) : option UserSession :=
  userSessions w !! userId ≫= fun l => heap w !! l.

(** ** Socket operations

    Each one changes the socket table only. *)

(** [ws.close ()]: a socket that is open or connecting starts closing. *)
Definition ws_close (k : WebSocket) : WebSocket :=
  match readyState k with
  | CLOSED | CLOSING => k
  | CONNECTING | OPEN => set_readyState CLOSING k
  end.

Definition ws_send (obj : Frame) (k : WebSocket) : WebSocket :=
  set_sent (sent k ++ [obj]) k.

Definition state_of (ws : option sock) (ss : list WebSocket) : option ReadyState :=
  ws ≫= fun c => readyState <$> ss !! c.

Definition close_socket (ws : sock) (w : World) : World :=
  set_sockets (alter ws_close ws (sockets w)) w.

Definition cleanupConnection (ws : option sock) (w : World) : World :=
  set_sockets
    (match ws, state_of ws (sockets w) with
     | Some c, Some OPEN | Some c, Some CONNECTING => alter ws_close c (sockets w)
     | _, _ => sockets w
     end) w.

Definition isOpen (ws : option sock) (w : World) : bool :=
  match state_of ws (sockets w) with
  | Some OPEN => true
  | _ => false
  end.

Definition jsonSend (ws : option sock) (obj : Frame) (w : World) : World :=
  set_sockets
    (match ws with
     | Some c => if isOpen ws w then alter (ws_send obj) c (sockets w) else sockets w
     | None => sockets w
     end) w.

(** [ws.on (ev, l)] and [ws.removeAllListeners (ev)]. *)
Definition on (ws : sock) (ev : EventName) (l : Listener) (w : World) : World :=
  set_sockets (alter (fun k => set_listeners (listeners k ++ [(ev, l)]) k) ws (sockets w)) w.

Definition removeAllListeners (ws : sock) (ev : EventName) (w : World) : World :=
  set_sockets
    (alter (fun k => set_listeners (filter (fun p => negb (eqb_event (fst p) ev)) (listeners k)) k)
       ws (sockets w)) w.

(** [new WebSocket (url, options)]: a fresh socket, still connecting. *)
Definition new_WebSocket (w : World) : sock * World :=
  (length (sockets w),
   set_sockets (sockets w ++ [{| readyState := CONNECTING; sent := []; listeners := [] |}]) w).

(** The frames a link has been sent so far. *)
Definition sent_on (ws : option sock) (w : World) : list Frame :=
  default [] (ws ≫= fun c => sent <$> sockets w !! c).

(** ** callHistoryService, seen from the bridge

    Each call is appended to [history]. *)

Definition record (c : HistoryCall) (w : World) : World :=
  set_history (history w ++ [c]) w.

Definition startCallTracking (callSid userId phoneNumber : string) (direction : CallType) :=
  record (StartCallTracking callSid userId phoneNumber direction).

Definition updateCallStatus (callSid status : string) :=
  record (UpdateCallStatus callSid status).

(** The calls made under [if (session.callSid)], with that Call SID. *)
Definition tracked (session : loc) (call : string -> HistoryCall) (w : World) : list HistoryCall :=
  if truthy (callSid (deref session w))
  then [call (default EmptyString (callSid (deref session w)))]
  else [].

Definition with_callSid (session : loc) (call : string -> HistoryCall) (w : World) : World :=
  set_history (history w ++ tracked session call w) w.

(** ** Pending call registrations *)

Definition associateOutboundCall (userId callSid : string) (w : World) : World :=
  let '(session, w) := getUserSession userId w in
  let w := upd session (set_callType (Some outbound)) w in
  let w := upd session (set_outboundCallStatus (Some initiating)) w in
  let w := upd session (set_callSid (Some callSid)) w in
  set_callSidToUserId (<[callSid := userId]> (callSidToUserId w)) w.

Definition associateOutboundCallWithPhoneNumber (userId callSid phoneNumber : string)
    (w : World) : World :=
  let w := associateOutboundCall userId callSid w in
  startCallTracking callSid userId phoneNumber outbound w.

Definition getUserIdByCallSid (callSid : string) (w : World) : option string :=
  callSidToUserId w !! callSid.

Definition deleteUserSession (userId : string) (w : World) : World :=
  match userSessions w !! userId with
  | Some session =>
      let w := cleanupConnection (twilioConn (deref session w)) w in
      let w := cleanupConnection (frontendConn (deref session w)) w in
      let w := cleanupConnection (modelConn (deref session w)) w in
      set_userSessions (delete userId (userSessions w)) w
  | None => w
  end.

Definition closeModel (userId : string) (w : World) : World :=
  let '(session, w) := getUserSession userId w in
  let w := cleanupConnection (modelConn (deref session w)) w in
  upd session (set_modelConn None) w.

(** ** Barge-in *)

Definition interruption_notice : string :=
  "You were just interrupted by the user while speaking. The user is now talking. Listen to what they're saying and respond appropriately.".

Definition handleTruncation (userId : string) (w : World) : World :=
  let '(session, w) := getUserSession userId w in
  if negb (truthy (lastAssistantItem (deref session w))) then w
  else if negb (truthy_num (responseStartTimestamp (deref session w))) then w
  else
    let item := default EmptyString (lastAssistantItem (deref session w)) in
    let elapsedMs :=
      (or_zero (latestMediaTimestamp (deref session w))
       - default 0 (responseStartTimestamp (deref session w)))%Z in
    let w := jsonSend (modelConn (deref session w))
               (ConversationItemTruncate item 0 elapsedMs) w in
    let w := jsonSend (modelConn (deref session w)) InputAudioBufferClear w in
    let w := jsonSend (modelConn (deref session w))
               (ConversationItemCreateMessage "system" interruption_notice) w in
    let w := with_callSid session (fun sid =>
               AddConversationEvent sid "system_event" "system"
                 "Assistant was interrupted by user"
                 [("elapsed_ms", VNum elapsedMs); ("truncated_item_id", VStr item)]) w in
    let w := upd session (set_lastAssistantItem None) w in
    upd session (set_responseStartTimestamp None) w.

(** [setTimeout (() => handleTruncation (userId), 200)] *)
Definition setTimeout (userId : string) (w : World) : World :=
  set_timers (timers w ++ [userId]) w.

(** ** The model link *)

Definition defined {A} (o : option A) : bool :=
  match o with
  | Some _ => true
  | None => false
  end.

Definition tryConnectModel (userId : string) (w : World) : World :=
  let '(session, w) := getUserSession userId w in
  if negb (defined (twilioConn (deref session w)))
     || negb (truthy (streamSid (deref session w)))
     || negb (truthy (openAIApiKey (deref session w)))
  then w
  else if isOpen (modelConn (deref session w)) w then w
  else
    let '(ws, w) := new_WebSocket w in
    let w := upd session (set_modelConn (Some ws)) w in
    let w := on ws EvOpen (ModelOpened userId session) w in
    let w := on ws EvMessage (OnModelMessage userId) w in
    let w := on ws EvError (ModelFailed userId) w in
    on ws EvClose (ModelClosed userId) w.

Definition default_config : gmap string Value :=
  <["modalities" := VList [VStr "text"; VStr "audio"]]>
  (<["turn_detection" := VObj [("type", VStr "server_vad")]]>
  (<["voice" := VStr "ash"]>
  (<["input_audio_transcription" := VObj [("model", VStr "whisper-1")]]>
  (<["input_audio_format" := VStr "g711_ulaw"]>
  (<["output_audio_format" := VStr "g711_ulaw"]> ∅))))).

(** The [open] listener of the model socket: the saved configuration
    overrides the defaults, key by key. *)
Definition modelOpened (session : loc) (w : World) : World :=
  let config := default ∅ (saved_config (deref session w)) in
  jsonSend (modelConn (deref session w)) (SessionUpdate (config ∪ default_config)) w.

(** ** The telephony link *)

(** The [close] listener installed once the connection is identified. *)
Definition callClosed (session : loc) (w : World) : World :=
  let w := with_callSid session EndCallTracking w in
  let w := cleanupConnection (modelConn (deref session w)) w in
  let w := cleanupConnection (twilioConn (deref session w)) w in
  let w := upd session (set_twilioConn None) w in
  let w := upd session (set_modelConn None) w in
  let w := upd session (set_streamSid None) w in
  let w := upd session (set_lastAssistantItem None) w in
  let w := upd session (set_responseStartTimestamp None) w in
  let w := upd session (set_latestMediaTimestamp None) w in
  match callType (deref session w) with
  | Some outbound => upd session (set_outboundCallStatus (Some disconnected)) w
  | _ => w
  end.

(** Either the handler has returned, or it goes on with a user id. *)
Inductive Flow :=
  | Return (w : World)
  | Continue (userId : option string) (w : World).

(** First half of [handleTwilioMessage]: a [start] event on a connection
    that has no user id yet is resolved through its Call SID. *)
Definition identify (msg : TwilioMsg) (userId : option string) (ws : sock)
    (openAIApiKey : string) (w : World) : Flow :=
  match msg with
  | TwStart callSid _ _ =>
      if truthy userId then Continue userId w
      else
        let foundUserId := getUserIdByCallSid callSid w in
        if negb (truthy foundUserId) then Return (close_socket ws w)
        else
          let userId := default EmptyString foundUserId in
          let '(session, w) := getUserSession userId w in
          let w := cleanupConnection (twilioConn (deref session w)) w in
          let w := upd session (set_twilioConn (Some ws)) w in
          let w := upd session (set_openAIApiKey (Some openAIApiKey)) w in
          let w :=
            match callType (deref session w) with
            | Some outbound =>
                let w := upd session (set_outboundCallStatus (Some connected)) w in
                updateCallStatus callSid "connected" w
            | _ => w
            end in
          let w := removeAllListeners ws EvMessage w in
          let w := on ws EvMessage (OnTwilioMessage (Some userId) openAIApiKey) w in
          let w := on ws EvError WsClose w in
          let w := on ws EvClose (CallClosed userId session) w in
          Continue (Some userId) w
  | _ => Continue userId w
  end.

(** Second half: the [switch] over [msg.event]. *)
Definition route (msg : TwilioMsg) (userId : string) (w : World) : World :=
  let '(session, w) := getUserSession userId w in
  match msg with
  | TwStart callSid streamSid from =>
      let w := upd session (set_streamSid (Some streamSid)) w in
      let w := upd session (set_latestMediaTimestamp (Some 0%Z)) w in
      let w := upd session (set_lastAssistantItem None) w in
      let w := upd session (set_responseStartTimestamp None) w in
      let w :=
        match callType (deref session w) with
        | None =>
            let w := upd session (set_callType (Some inbound)) w in
            if truthy (Some callSid) then
              let w := startCallTracking callSid userId (or_else from "unknown") inbound w in
              upd session (set_callSid (Some callSid)) w
            else w
        | Some _ => w
        end in
      tryConnectModel userId w
  | TwMedia timestamp payload =>
      let w := upd session (set_latestMediaTimestamp (Some timestamp)) w in
      if isOpen (modelConn (deref session w)) w
      then jsonSend (modelConn (deref session w)) (InputAudioBufferAppend payload) w
      else w
  | TwClose =>
      let w := with_callSid session EndCallTracking w in
      let w := cleanupConnection (twilioConn (deref session w)) w in
      let w := cleanupConnection (modelConn (deref session w)) w in
      let w := upd session (set_twilioConn None) w in
      let w := upd session (set_modelConn None) w in
      upd session (set_outboundCallStatus (Some disconnected)) w
  | TwStop => with_callSid session EndCallTracking w
  | TwOther _ => w
  end.

Definition handleTwilioMessage (data : option TwilioMsg) (userId : option string)
    (ws : sock) (openAIApiKey : string) (w : World) : World :=
  match data with
  | None => w
  | Some msg =>
      match identify msg userId ws openAIApiKey w with
      | Return w => w
      | Continue userId w =>
          if negb (truthy userId) then w
          else route msg (default EmptyString userId) w
      end
  end.

Definition handleCallConnection (ws : sock) (openAIApiKey : string) (w : World) : World :=
  let w := on ws EvMessage (OnTwilioMessage None openAIApiKey) w in
  let w := on ws EvError WsClose w in
  on ws EvClose AnonymousCallClosed w.

(** ** The observer link *)

Definition handleFrontendMessage (data : option FrontendMsg) (userId : string)
    (w : World) : World :=
  let '(session, w) := getUserSession userId w in
  match data with
  | None => w
  | Some msg =>
      let w :=
        if isOpen (modelConn (deref session w)) w
        then jsonSend (modelConn (deref session w)) (FromFrontend msg) w
        else w in
      if String.eqb (msg_type msg) "session.update"
      then upd session (set_saved_config (msg_session msg)) w
      else w
  end.

Definition frontendClosed (session : loc) (w : World) : World :=
  let w := cleanupConnection (frontendConn (deref session w)) w in
  upd session (set_frontendConn None) w.

(** ** What the module imports

    [functions] is the tool table of functionHandlers.ts, [JSON_parse] and
    [JSON_stringify] are the JavaScript built-ins ([None] when [JSON.parse]
    throws), [jwt_verify token secret] is [jwt.verify] giving the [sub] claim
    of the decoded token ([None] when it throws) and [SUPABASE_JWT_SECRET]
    is the environment variable of that name. *)

Class Imports := {
  functions : list FunctionHandler;
  JSON_parse : string -> option Value;
  JSON_stringify : Value -> string;
  jwt_verify : string -> string -> option (option string);
  SUPABASE_JWT_SECRET : option string
}.

Section Bridge.

Context `{Imports}.

(** authMiddleware.ts *)
Definition extractUserIdFromToken (token : string) : option string :=
  if negb (truthy SUPABASE_JWT_SECRET) then None
  else
    match jwt_verify token (default EmptyString SUPABASE_JWT_SECRET) with
    | Some sub => sub
    | None => None
    end.

Definition handleFrontendConnection (ws : sock) (token : string) (w : World) : World :=
  let userId := extractUserIdFromToken token in
  if negb (truthy userId) then close_socket ws w
  else
    let userId := default EmptyString userId in
    let '(session, w) := getUserSession userId w in
    let w := cleanupConnection (frontendConn (deref session w)) w in
    let w := upd session (set_frontendConn (Some ws)) w in
    let w := on ws EvMessage (OnFrontendMessage userId) w in
    on ws EvClose (FrontendClosed session) w.

(** ** Tool dispatch *)

(** [JSON.stringify ({ error: message })] *)
Definition error_result (message : string) : string :=
  JSON_stringify (VObj [("error", VStr message)]).

(** The promise returned by the async [handleFunctionCall]: a [throw]
    rejects it, a [return] fulfils it. *)
Definition handleFunctionCall (name arguments : string) : Outcome :=
  match List.find (fun f => String.eqb (schema_name f) name) functions with
  | None => Rejected ("No handler found for function: " +:+ name)
  | Some fnDef =>
      match JSON_parse arguments with
      | None => Fulfilled (error_result "Invalid JSON arguments for function call.")
      | Some args =>
          match handler fnDef args with
          | Fulfilled result => Fulfilled result
          | Rejected message =>
              Fulfilled (error_result
                ("Error running function " +:+ name +:+ ": " +:+ message))
          end
      end
  end.

(** The [then] and [catch] callbacks chained on that promise. *)
Definition functionCallSettled (p : PendingCall) (w : World) : World :=
  match pc_outcome p with
  | Fulfilled output =>
      let '(currentSession, w) := getUserSession (pc_userId p) w in
      let w := with_callSid currentSession (fun sid =>
                 AddConversationEvent sid "function_call" "system"
                   ("Result: " +:+ String.substring 0 200 output
                    +:+ (if (200 <? String.length output)%nat then "..." else EmptyString))
                   [("function_name", VStr (pc_name p)); ("function_result", VStr output)]) w in
      if defined (modelConn (deref currentSession w)) then
        let w := jsonSend (modelConn (deref currentSession w))
                   (ConversationItemCreateFunctionCallOutput (pc_call_id p)
                      (JSON_stringify (VStr output))) w in
        jsonSend (modelConn (deref currentSession w)) ResponseCreate w
      else w
  | Rejected message =>
      with_callSid (pc_session p) (fun sid =>
        AddConversationEvent sid "system_event" "system"
          ("Function error: " +:+ message)
          [("function_name", VStr (pc_name p)); ("function_result", VStr message)]) w
  end.

Definition text_of (content : list ContentPart) : string :=
  join " " (part_text <$> filter (fun c => String.eqb (part_type c) "text") content).

Definition handleModelMessage (data : option ModelEvent) (userId : string)
    (w : World) : World :=
  let '(session, w) := getUserSession userId w in
  match data with
  | None => w
  | Some event =>
      let w := jsonSend (frontendConn (deref session w)) (FromModel event) w in
      match event with
      | SpeechStarted =>
          let w := setTimeout userId w in
          with_callSid session (fun sid =>
            AddConversationEvent sid "user_speech" "user" "Speech started" []) w
      | TranscriptionCompleted transcript confidence =>
          if truthy transcript then
            with_callSid session (fun sid =>
              AddConversationEvent sid "user_speech" "user"
                (default EmptyString transcript)
                [("transcription_confidence", confidence)]) w
          else w
      | ResponseAudioDelta item_id delta =>
          if defined (twilioConn (deref session w)) && truthy (streamSid (deref session w))
          then
            let w :=
              match responseStartTimestamp (deref session w) with
              | None =>
                  upd session (set_responseStartTimestamp
                    (Some (or_zero (latestMediaTimestamp (deref session w))))) w
              | Some _ => w
              end in
            let w := if truthy item_id
                     then upd session (set_lastAssistantItem item_id) w else w in
            let sid := default EmptyString (streamSid (deref session w)) in
            let w := jsonSend (twilioConn (deref session w)) (TwilioMedia sid delta) w in
            jsonSend (twilioConn (deref session w)) (TwilioMark sid) w
          else w
      | ResponseAudioTranscriptDelta delta =>
          if truthy delta && (5 <? String.length (default EmptyString delta))%nat then
            with_callSid session (fun sid =>
              AddConversationEvent sid "assistant_speech" "assistant"
                (default EmptyString delta) []) w
          else w
      | ResponseOutputItemDone (ItemMessage (Some content)) =>
          let textContent := text_of content in
          if truthy (Some textContent) then
            with_callSid session (fun sid =>
              AddConversationEvent sid "assistant_speech" "assistant" textContent []) w
          else w
      | ResponseOutputItemDone (ItemFunctionCall name arguments call_id) =>
          let w := with_callSid session (fun sid =>
                     AddConversationEvent sid "function_call" "system"
                       ("Function: " +:+ name)
                       [("function_name", VStr name); ("function_args", VStr arguments)]) w in
          set_promises
            (promises w ++
               [{| pc_name := name; pc_call_id := call_id; pc_userId := userId;
                   pc_session := session;
                   pc_outcome := handleFunctionCall name arguments |}]) w
      | ResponseOutputItemDone _ => w
      | OtherModelEvent _ => w
      end
  end.

(** ** The event loop *)

(** What arrives on a socket, before [parseMessage]: [None] does not parse. *)
Inductive RawData :=
  | OfTwilio (data : option TwilioMsg)
  | OfFrontend (data : option FrontendMsg)
  | OfModel (data : option ModelEvent).

Inductive Event :=
  | CallConnection (openAIApiKey : string)
  | LogsConnection (token : option string)
  | Message (ws : sock) (data : RawData)
  | Opened (ws : sock)
  | Errored (ws : sock)
  | Closed (ws : sock)
  | TimerFired
  | Settled (i : nat)
  | AssociateOutboundCall (userId callSid : string)
  | AssociateOutboundCallWithPhoneNumber (userId callSid phoneNumber : string)
  | DeleteUserSession (userId : string).

(** server.ts accepts a connection: a new socket, already open, handed to
    [handleCallConnection] or, when a token came with it, to
    [handleFrontendConnection]. *)
Definition accept (w : World) : sock * World :=
  (length (sockets w),
   set_sockets (sockets w ++ [{| readyState := OPEN; sent := []; listeners := [] |}]) w).

(** Running one listener of socket [ws].  A message listener sees the
    messages of its own link only. *)
Definition run_listener (ws : sock) (data : option RawData) (l : Listener)
    (w : World) : World :=
  match l, data with
  | OnTwilioMessage userId openAIApiKey, Some (OfTwilio d) =>
      handleTwilioMessage d userId ws openAIApiKey w
  | OnFrontendMessage userId, Some (OfFrontend d) => handleFrontendMessage d userId w
  | OnModelMessage userId, Some (OfModel d) => handleModelMessage d userId w
  | WsClose, _ => close_socket ws w
  | CallClosed _ session, _ => callClosed session w
  | FrontendClosed session, _ => frontendClosed session w
  | ModelOpened _ session, _ => modelOpened session w
  | ModelFailed userId, _ => closeModel userId w
  | ModelClosed userId, _ => closeModel userId w
  | _, _ => w
  end.

(** [ws.emit (ev, data)]: the listeners registered for [ev] when the event
    is emitted run in the order they were added. *)
Definition emit (ws : sock) (ev : EventName) (data : option RawData) (w : World) : World :=
  let ls := default [] (listeners <$> sockets w !! ws) in
  foldl (fun w p => if eqb_event (fst p) ev then run_listener ws data (snd p) w else w) w ls.

Definition step (e : Event) (w : World) : World :=
  match e with
  | CallConnection openAIApiKey =>
      let '(ws, w) := accept w in handleCallConnection ws openAIApiKey w
  | LogsConnection token =>
      let '(ws, w) := accept w in
      if negb (truthy token) then close_socket ws w
      else handleFrontendConnection ws (default EmptyString token) w
  | Message ws data => emit ws EvMessage (Some data) w
  | Opened ws =>
      match readyState <$> sockets w !! ws with
      | Some CONNECTING =>
          emit ws EvOpen None (set_sockets (alter (set_readyState OPEN) ws (sockets w)) w)
      | _ => w
      end
  | Errored ws => emit ws EvError None w
  | Closed ws =>
      match readyState <$> sockets w !! ws with
      | Some CLOSED | None => w
      | Some _ =>
          emit ws EvClose None (set_sockets (alter (set_readyState CLOSED) ws (sockets w)) w)
      end
  | TimerFired =>
      match timers w with
      | userId :: rest => handleTruncation userId (set_timers rest w)
      | [] => w
      end
  | Settled i =>
      match promises w !! i with
      | Some p => functionCallSettled p (set_promises (delete i (promises w)) w)
      | None => w
      end
  | AssociateOutboundCall userId callSid => associateOutboundCall userId callSid w
  | AssociateOutboundCallWithPhoneNumber userId callSid phoneNumber =>
      associateOutboundCallWithPhoneNumber userId callSid phoneNumber w
  | DeleteUserSession userId => deleteUserSession userId w
  end.

Definition run (es : list Event) (w : World) : World :=
  foldl (fun w e => step e w) w es.

(** The worlds the server can be in. *)
Definition reachable (w : World) : Prop := exists es, w = run es init.

End Bridge.

(** ** server.ts: accepting a connection *)

(** [s.split (" ")]: the pieces between the spaces, empty ones included. *)
Fixpoint split_on_space (s : string) : list string :=
  match s with
  | EmptyString => [EmptyString]
  | String c rest =>
      if Ascii.eqb c " "%char then EmptyString :: split_on_space rest
      else
        match split_on_space rest with
        | piece :: pieces => String c piece :: pieces
        | [] => [String c EmptyString]
        end
  end.

(** [header.split (" ")[1]], the token of a [Bearer] header. *)
Definition second_word (header : string) : option string :=
  split_on_space header !! 1%nat.

(** [a || b] on optional strings. *)
Definition or_str (a b : option string) : option string :=
  if truthy a then a else b.

Section Server.

Context `{Imports}.

(** [wss.on ("connection")].  [parts] are the non-empty segments of the
    path of the request, [queryToken] its [token] query parameter and
    [authorization] its header of that name. *)
Definition onConnection (parts : list string) (queryToken authorization : option string)
    (OPENAI_API_KEY : string) (w : World) : World :=
  let '(ws, w) := accept w in
  match parts with
  | [] => close_socket ws w
  | type :: _ =>
      if String.eqb type "call" then handleCallConnection ws OPENAI_API_KEY w
      else if String.eqb type "logs" then
        let token := or_str queryToken (authorization ≫= second_word) in
        if negb (truthy token) then close_socket ws w
        else handleFrontendConnection ws (default EmptyString token) w
      else close_socket ws w
  end.

(** ** authMiddleware.ts: the HTTP middleware *)

(** What [authenticateToken] does with the request: it answers 401 or 403,
    or sets [req.userId] to the [sub] claim and calls [next]. *)
Inductive AuthResult :=
  | Status401
  | Status403
  | Next (userId : option string).

Definition authenticateToken (authorization : option string) : AuthResult :=
  let token := if truthy authorization then authorization ≫= second_word
               else authorization in
  if negb (truthy token) then Status401
  else if negb (truthy SUPABASE_JWT_SECRET) then Status403
  else
    match jwt_verify (default EmptyString token)
            (default EmptyString SUPABASE_JWT_SECRET) with
    | Some sub => Next sub
    | None => Status403
    end.

End Server.

(** ** outboundCallService.ts *)

(** A character that [\D] does not match. *)
Definition is_digit (c : Ascii.ascii) : bool :=
  Ascii.leb "0"%char c && Ascii.leb c "9"%char.

(** [s.replace (/\D/g, '')] *)
Fixpoint digits_of (s : string) : string :=
  match s with
  | EmptyString => EmptyString
  | String c rest => if is_digit c then String c (digits_of rest) else digits_of rest
  end.

Definition formatPhoneNumber (phoneNumber : string) : string :=
  let digits := digits_of phoneNumber in
  if negb (String.prefix "+" phoneNumber) then "+" +:+ digits
  else phoneNumber.

Record OutboundCallRequest := { request_phoneNumber : string; request_userId : string }.

(** The Twilio side of [initiateOutboundCall]: the three environment
    variables it validates, whether [new URL (publicUrl)] accepts the public
    URL, and [twilio (accountSid, authToken).calls.create] as a function of
    the number called, giving the Call SID ([None] when making the client
    or creating the call throws). *)
Class Twilio := {
  TWILIO_ACCOUNT_SID : option string;
  TWILIO_AUTH_TOKEN : option string;
  PUBLIC_URL : option string;
  URL_parses : string -> bool;
  calls_create : string -> option string
}.

Section Outbound.

Context `{Twilio}.

(** The Call SID it returns, or [None] when it throws. *)
Definition initiateOutboundCall (request : OutboundCallRequest) (w : World) :
    option string * World :=
  if negb (truthy TWILIO_ACCOUNT_SID) || negb (truthy TWILIO_AUTH_TOKEN)
     || negb (truthy PUBLIC_URL)
  then (None, w)
  else if negb (URL_parses (default EmptyString PUBLIC_URL)) then (None, w)
  else
    match calls_create (request_phoneNumber request) with
    | None => (None, w)
    | Some sid =>
        (Some sid,
         associateOutboundCallWithPhoneNumber (request_userId request) sid
           (request_phoneNumber request) w)
    end.

(** The answers of [POST /outbound-call]. *)
Inductive OutboundCallReply :=
  | Reply200 (callSid : string)
  | Reply400
  | Reply500.

(** The handler of [POST /outbound-call], after [authenticateToken] has set
    [req.userId] to a string; [phoneNumber] is the field of that name in
    the body, a string or absent. *)
Definition postOutboundCall (userId : string) (phoneNumber : option string) (w : World) :
    OutboundCallReply * World :=
  if negb (truthy phoneNumber) then (Reply400, w)
  else
    let formattedNumber := formatPhoneNumber (default EmptyString phoneNumber) in
    match initiateOutboundCall
            {| request_phoneNumber := formattedNumber; request_userId := userId |} w with
    | (Some callSid, w) => (Reply200 callSid, w)
    | (None, w) => (Reply500, w)
    end.

End Outbound.

(** ** callHistoryService.ts: the statistics of [getCallHistoryStats] *)

(** The columns it selects from [call_records]. *)
Record CallRow := {
  phone_number : string;
  direction : CallType;
  duration : option Z
}.

Record CallHistoryStats := {
  totalCalls : nat;
  totalDuration : Z;
  avgDuration : Z;
  inboundCalls : nat;
  outboundCalls : nat;
  uniqueNumbers : nat
}.

(** [Math.round (a / b)] for integers [a] and [b > 0]: the quotient rounded
    to the nearest integer, a half going up.  (The division is one of
    doubles; it rounds to the same integer as long as [a] stays below
    [2^52].) *)
Definition round_div (a b : Z) : Z := ((2 * a + b) / (2 * b))%Z.

Definition is_inbound (c : CallRow) : bool :=
  match direction c with inbound => true | outbound => false end.

Definition is_outbound (c : CallRow) : bool :=
  match direction c with outbound => true | inbound => false end.

(** What [getCallHistoryStats] computes from the rows of the user. *)
Definition callHistoryStats (calls : list CallRow) : CallHistoryStats :=
  let completedCalls := List.filter (fun call => defined (duration call)) calls in
  let totalDuration :=
    foldl (fun sum call => (sum + or_zero (duration call))%Z) 0%Z completedCalls in
  let phoneNumbers : gset string := list_to_set (phone_number <$> calls) in
  {| totalCalls := length calls;
     totalDuration := totalDuration;
     avgDuration :=
       if (0 <? length completedCalls)%nat
       then round_div totalDuration (Z.of_nat (length completedCalls))
       else 0%Z;
     inboundCalls := length (List.filter is_inbound calls);
     outboundCalls := length (List.filter is_outbound calls);
     uniqueNumbers := size phoneNumbers |}.

(** ** Vocabulary of the properties *)

(** Every registry entry points to an allocated session object. *)
Definition registry_wf (w : World) : Prop :=
  forall userId l, userSessions w !! userId = Some l -> is_Some (heap w !! l).

Definition is_endCallTracking (c : HistoryCall) : bool :=
  match c with
  | EndCallTracking _ => true
  | _ => false
  end.

(** How many end-of-call notifications the history collaborator received. *)
Definition end_calls (h : list HistoryCall) : nat :=
  length (List.filter is_endCallTracking h).

(** A link of the session is live: the field holds a socket that is open
    or connecting. *)
Definition live (ws : option sock) (w : World) : bool :=
  match state_of ws (sockets w) with
  | Some OPEN | Some CONNECTING => true
  | _ => false
  end.

Definition has_live_link (s : UserSession) (w : World) : bool :=
  live (twilioConn s) w || live (modelConn s) w || live (frontendConn s) w.

Definition pending_registration (userId : string) (w : World) : Prop :=
  exists callSid, callSidToUserId w !! callSid = Some userId.

(** The invariant of the data model as the specification words it. *)
Definition sessions_have_a_reason (w : World) : Prop :=
  forall userId s, session_of userId w = Some s ->
    has_live_link s w = true \/ pending_registration userId w.

(** The values of [latestMediaTimestamp] while a list of media frames
    (timestamp, payload) is handled on the identified connection [ws]. *)
Fixpoint media_clock (frames : list (Z * string)) (userId : string)
    (ws : sock) (openAIApiKey : string) (w : World) : list (option Z) :=
  match frames with
  | [] => []
  | (timestamp, payload) :: rest =>
      let w' := handleTwilioMessage (Some (TwMedia timestamp payload)) (Some userId)
                  ws openAIApiKey w in
      (session_of userId w' ≫= latestMediaTimestamp)
        :: media_clock rest userId ws openAIApiKey w'
  end.

(** [w'] has the registrations of [w] and the sessions of [w], each still
    the same object. *)
Definition extends (w w' : World) : Prop :=
  callSidToUserId w' = callSidToUserId w /\ userSessions w ⊆ userSessions w'.

Definition is_associate (e : Event) : bool :=
  match e with
  | AssociateOutboundCall _ _ | AssociateOutboundCallWithPhoneNumber _ _ _ => true
  | _ => false
  end.

Definition is_delete (e : Event) : bool :=
  match e with
  | DeleteUserSession _ => true
  | _ => false
  end.

(** The registrations after an event, given those before it. *)
Definition registrations_after (e : Event) (m : gmap string string) : gmap string string :=
  match e with
  | AssociateOutboundCall userId callSid
  | AssociateOutboundCallWithPhoneNumber userId callSid _ => <[callSid := userId]> m
  | _ => m
  end.

(** The session object a handler gets from [getUserSession]. *)
Definition current_session (userId : string) (w : World) : UserSession :=
  let '(session, w) := getUserSession userId w in deref session w.

(** The listeners of a socket, as [emit] reads them. *)
Definition socket_listeners (ws : sock) (w : World) : option (list (EventName * Listener)) :=
  listeners <$> sockets w !! ws.

(** The socket exists and its [close] event is still to come. *)
Definition unclosed (ws : sock) (w : World) : Prop :=
  exists k, sockets w !! ws = Some k /\ readyState k <> CLOSED.

(** The listeners of a telephony socket before and after it is identified. *)
Definition anonymous_listeners (openAIApiKey : string) : list (EventName * Listener) :=
  [(EvMessage, OnTwilioMessage None openAIApiKey); (EvError, WsClose);
   (EvClose, AnonymousCallClosed)].

Definition identified_listeners (userId openAIApiKey : string) (session : loc) :
    list (EventName * Listener) :=
  [(EvError, WsClose); (EvClose, AnonymousCallClosed);
   (EvMessage, OnTwilioMessage (Some userId) openAIApiKey); (EvError, WsClose);
   (EvClose, CallClosed userId session)].

(** A string with a space in it. *)
Fixpoint has_space (s : string) : bool :=
  match s with
  | EmptyString => false
  | String c rest => Ascii.eqb c " "%char || has_space rest
  end.

(** [w'] has the session objects of [w], except possibly the one at [l],
    which is the session object of [userId]. *)
Definition only_session (l : loc) (userId : string) (w w' : World) : Prop :=
  userSessions w' !! userId = Some l
  /\ forall l', l' <> l -> heap w' !! l' = heap w !! l'.

(** Every registry entry points to a session object that carries the user
    id it is registered under. *)
Definition registry_keyed (w : World) : Prop :=
  forall u l, userSessions w !! u = Some l ->
    exists s, heap w !! l = Some s /\ userId s = u.

(** ** A small deployment, to run the handlers on

    One tool, [get_weather], whose handler rejects anything but an object;
    a parser that knows two texts; one token, [good], that verifies. *)

Definition get_weather : FunctionHandler :=
  {| schema_name := "get_weather";
     handler := fun args =>
       match args with
       | VObj _ => Fulfilled "sunny"
       | _ => Rejected "boom"
       end |}.

Definition demo : Imports :=
  {| functions := [get_weather];
     JSON_parse := fun s =>
       if String.eqb s "{}" then Some (VObj [])
       else if String.eqb s "1" then Some (VNum 1)
       else None;
     JSON_stringify := fun v =>
       match v with
       | VStr s => "s:" +:+ s
       | VObj [(k, VStr s)] => "o:" +:+ k +:+ "=" +:+ s
       | _ => "?"
       end;
     jwt_verify := fun token _ =>
       if String.eqb token "good" then Some (Some "u1") else None;
     SUPABASE_JWT_SECRET := Some "secret" |}.

(** An observer of user [u1] is connected, nothing else has happened. *)
Definition observed : World :=
  @run demo [LogsConnection (Some "good")] init.

(** An outbound call [CA123] of [u1] has been registered, the telephony
    socket 0 has connected and sent its [start]. *)
Definition started : World :=
  @run demo
    [AssociateOutboundCallWithPhoneNumber "u1" "CA123" "+15550100";
     CallConnection "key";
     Message 0 (OfTwilio (Some (TwStart "CA123" "S1" None)))] init.

(** The model socket 1 has opened, and the assistant has started to speak
    item [item_1] at media time 100. *)
Definition speaking : World :=
  @run demo
    [Opened 1;
     Message 0 (OfTwilio (Some (TwMedia 100 "b64")));
     Message 1 (OfModel (Some (ResponseAudioDelta (Some "item_1") "b64")));
     Message 0 (OfTwilio (Some (TwMedia 350 "b64")))] started.

(** The caller hangs up once the model socket 1 has opened, and calls
    again: the telephony socket 2 delivers a [start] for the same Call SID
    while the model socket 1 is still closing, and the model socket 3 is
    opened for it. *)
Definition redialled : World :=
  @run demo
    [Opened 1; Closed 0; CallConnection "key";
     Message 2 (OfTwilio (Some (TwStart "CA123" "S2" None)))] started.

(** A second telephony socket, 2, delivers a [start] for the call while the
    first one, 0, is still open and the model socket 1 still connecting. *)
Definition reconnected : World :=
  @run demo
    [CallConnection "key";
     Message 2 (OfTwilio (Some (TwStart "CA123" "S2" None)))] started.

(** Two observers of [u1] connect one after the other. *)
Definition two_observers : World :=
  @run demo [LogsConnection (Some "good"); LogsConnection (Some "good")] init.

(** An observer, socket 2, watches the call while the assistant speaks. *)
Definition watched : World := @run demo [LogsConnection (Some "good")] speaking.

(** A call of a second user, [u2], has been registered meanwhile. *)
Definition two_users : World := @run demo [AssociateOutboundCall "u2" "CA200"] speaking.

(** A Twilio account that places calls to numbers starting with [+]. *)
Definition twilio_demo : Twilio :=
  {| TWILIO_ACCOUNT_SID := Some "AC1";
     TWILIO_AUTH_TOKEN := Some "token";
     PUBLIC_URL := Some "https://bridge.example";
     URL_parses := String.prefix "https://";
     calls_create := fun to => if String.prefix "+" to then Some "CA900" else None |}.

(** Three rows of a call history, one of a call that has not ended. *)
Definition demo_rows : list CallRow :=
  [{| phone_number := "+15550100"; direction := outbound; duration := Some 30%Z |};
   {| phone_number := "+15550100"; direction := inbound; duration := Some 90%Z |};
   {| phone_number := "+15550199"; direction := inbound; duration := None |}].

(** As [speaking], but the audio deltas of the assistant carry no item id:
    the start of the response is recorded (100) and the model link is
    open, but there is no assistant item; and the user has started to
    speak, so that a barge-in timer is pending. *)
Definition speaking_without_item : World :=
  @run demo
    [Opened 1;
     Message 0 (OfTwilio (Some (TwMedia 100 "b64")));
     Message 1 (OfModel (Some (ResponseAudioDelta None "b64")));
     Message 0 (OfTwilio (Some (TwMedia 350 "b64")));
     Message 1 (OfModel (Some SpeechStarted))] started.

(** * Properties *)

Section Properties.

Context `{Imports}.

(** ** Reading a session *)

Lemma session_of_Some userId w s :
  session_of userId w = Some s ->
  exists l, userSessions w !! userId = Some l /\ heap w !! l = Some s.
Proof.
  unfold session_of. destruct (userSessions w !! userId) as [l|] eqn:E; simpl; [|done].
  intros Hs. by exists l.
Qed.

Lemma session_of_lookup userId w l s :
  userSessions w !! userId = Some l -> heap w !! l = Some s ->
  session_of userId w = Some s.
Proof. unfold session_of. by intros -> <-. Qed.

Lemma getUserSession_existing userId w l :
  userSessions w !! userId = Some l -> getUserSession userId w = (l, w).
Proof. unfold getUserSession. by intros ->. Qed.

Lemma getUserSession_sockets userId w l w0 :
  getUserSession userId w = (l, w0) -> sockets w0 = sockets w.
Proof.
  unfold getUserSession. destruct (userSessions w !! userId); by intros [= _ <-].
Qed.

Lemma deref_Some l w s : heap w !! l = Some s -> deref l w = s.
Proof. unfold deref. by intros ->. Qed.

(** ** Sending on a link *)

Lemma isOpen_jsonSend ws ws' obj w : isOpen ws (jsonSend ws' obj w) = isOpen ws w.
Proof.
  unfold isOpen, state_of, jsonSend. simpl.
  destruct ws as [c|], ws' as [c'|]; simpl; try done.
  destruct (isOpen (Some c') w); [|done].
  destruct (decide (c' = c)) as [->|Hne].
  - rewrite list_lookup_alter_eq. by destruct (sockets w !! c).
  - by rewrite list_lookup_alter_ne.
Qed.

Lemma sent_on_jsonSend ws obj w :
  sent_on ws (jsonSend ws obj w) = sent_on ws w ++ (if isOpen ws w then [obj] else []).
Proof.
  unfold sent_on, jsonSend, isOpen, state_of. destruct ws as [c|]; simpl; [|done].
  destruct (sockets w !! c) as [k|] eqn:Hk; simpl.
  - destruct (readyState k); simpl; rewrite ?Hk, ?list_lookup_alter_eq, ?Hk; simpl;
      by rewrite ?app_nil_r.
  - by rewrite Hk.
Qed.

Lemma sockets_jsonSend_other ws obj w c :
  ws <> Some c -> sockets (jsonSend ws obj w) !! c = sockets w !! c.
Proof.
  intros Hne. unfold jsonSend. simpl. destruct ws as [c'|]; [|done].
  destruct (isOpen _ _); [|done]. apply list_lookup_alter_ne. congruence.
Qed.

Lemma or_zero_Some z : or_zero (Some z) = z.
Proof. unfold or_zero. simpl. destruct (Z.eqb_spec z 0); simpl; congruence. Qed.

Lemma truthy_nonempty s : s <> EmptyString -> truthy (Some s) = true.
Proof. by destruct s. Qed.

(** ** Barge-in *)

(** C9. When the session of the user has no assistant item recorded, the
    barge-in action changes nothing at all: the world after it is the world
    before it, so no frame is sent on any link and no field of any session
    changes. *)
Theorem handleTruncation_nothing_recorded userId w s :
  session_of userId w = Some s ->
  truthy (lastAssistantItem s) = false ->
  handleTruncation userId w = w.
Proof.
  intros (l & Hl & Hs)%session_of_Some Hitem.
  unfold handleTruncation. rewrite (getUserSession_existing _ _ _ Hl).
  by rewrite (deref_Some _ _ _ Hs), Hitem.
Qed.

(** A recorded start of [0] is taken for no start: the action returns
    before it sends anything, whatever the link's state. *)
Lemma handleTruncation_zero_start userId w s :
  session_of userId w = Some s ->
  responseStartTimestamp s = Some 0%Z ->
  handleTruncation userId w = w.
Proof.
  intros (l & Hl & Hs)%session_of_Some Hrst.
  unfold handleTruncation. rewrite (getUserSession_existing _ _ _ Hl).
  rewrite (deref_Some _ _ _ Hs), Hrst. simpl. by destruct (truthy _).
Qed.

(** C1, as amended.  When the barge-in action runs with an assistant item
    recorded, a response start [T0] other than 0 and the media clock at
    [T1], the model link is sent, if it is open, a truncate instruction for
    the item at [T1 - T0], then a buffer clear, then the system notice, and
    nothing if it is not open; no other socket changes; and afterwards
    [lastAssistantItem] and [responseStartTimestamp] are both empty. *)
Theorem handleTruncation_truncates userId w s item T0 T1 :
  session_of userId w = Some s ->
  lastAssistantItem s = Some item -> item <> EmptyString ->
  responseStartTimestamp s = Some T0 -> T0 <> 0%Z ->
  latestMediaTimestamp s = Some T1 ->
  let w' := handleTruncation userId w in
  sent_on (modelConn s) w' =
    sent_on (modelConn s) w ++
      (if isOpen (modelConn s) w
       then [ConversationItemTruncate item 0 (T1 - T0);
             InputAudioBufferClear;
             ConversationItemCreateMessage "system" interruption_notice]
       else [])
  /\ (forall c, modelConn s <> Some c -> sockets w' !! c = sockets w !! c)
  /\ exists s', session_of userId w' = Some s'
       /\ lastAssistantItem s' = None /\ responseStartTimestamp s' = None.
Proof.
  intros (l & Hl & Hs)%session_of_Some Hitem Hne Hrst HT0 Hlatest w'.
  assert (Htr : truthy_num (Some T0) = true).
  { simpl. by destruct (Z.eqb_spec T0 0). }
  unfold w', handleTruncation. rewrite (getUserSession_existing _ _ _ Hl).
  rewrite (deref_Some _ _ _ Hs), Hitem, Hrst, Hlatest, (truthy_nonempty _ Hne), Htr.
  simpl negb. cbv iota. rewrite or_zero_Some.
  assert (Hd : forall a b c,
    deref l (jsonSend a b c) = deref l c) by done.
  rewrite !Hd, (deref_Some _ _ _ Hs). simpl default.
  set (m := modelConn s).
  set (f1 := ConversationItemTruncate item 0 (T1 - T0)).
  set (f3 := ConversationItemCreateMessage _ _).
  split; [|split].
  - change (sent_on m (jsonSend m f3
      (jsonSend m InputAudioBufferClear (jsonSend m f1 w))) = sent_on m w ++
      (if isOpen m w then [f1; InputAudioBufferClear; f3] else [])).
    rewrite !sent_on_jsonSend, !isOpen_jsonSend.
    destruct (isOpen m w); by rewrite <- ?app_assoc.
  - intros c Hc.
    change (sockets (jsonSend m f3
      (jsonSend m InputAudioBufferClear (jsonSend m f1 w))) !! c = sockets w !! c).
    by rewrite !sockets_jsonSend_other.
  - exists (set_responseStartTimestamp None (set_lastAssistantItem None s)).
    split; [|done]. unfold session_of. simpl. rewrite Hl. simpl.
    by rewrite !list_lookup_alter_eq, Hs.
Qed.

(** ** Identification failures *)

(** A [start] on a connection without user id whose Call SID has no
    registration only closes that connection. *)
Lemma handleTwilioMessage_unregistered_start call stream from ws key w :
  getUserIdByCallSid call w = None ->
  handleTwilioMessage (Some (TwStart call stream from)) None ws key w = close_socket ws w.
Proof. intros Hnone. unfold handleTwilioMessage, identify. by rewrite Hnone. Qed.

(** A frontend connection whose token yields no user id is only closed. *)
Lemma handleFrontendConnection_invalid_token ws token w :
  extractUserIdFromToken token = None ->
  handleFrontendConnection ws token w = close_socket ws w.
Proof. intros Hnone. unfold handleFrontendConnection. by rewrite Hnone. Qed.

(** A token that does not verify, or a missing secret, yields no user id. *)
Lemma extractUserIdFromToken_unverified token :
  jwt_verify token (default EmptyString SUPABASE_JWT_SECRET) = None ->
  extractUserIdFromToken token = None.
Proof. unfold extractUserIdFromToken. intros ->. by destruct (negb _). Qed.

(** ** Following one session object through a handler *)

Lemma set_modelConn_same s : set_modelConn (modelConn s) s = s.
Proof. by destruct s. Qed.

Lemma getUserSession_wf userId w :
  registry_wf w ->
  exists l w0, getUserSession userId w = (l, w0)
    /\ userSessions w0 !! userId = Some l
    /\ heap w0 !! l = Some (default (new_session userId) (session_of userId w))
    /\ callSidToUserId w0 = callSidToUserId w
    /\ history w0 = history w.
Proof.
  intros Hwf. unfold getUserSession, session_of.
  destruct (userSessions w !! userId) as [l|] eqn:Hu; simpl.
  - destruct (Hwf _ _ Hu) as [s Hs]. exists l, w. by rewrite Hs.
  - eexists _, _. split; [done|]. simpl. rewrite lookup_insert_eq.
    by rewrite list_lookup_middle.
Qed.

(** Evaluate the reads of the session object [l], whose content before the
    handler ran is given by [Hs]. *)
Ltac eval_session Hs :=
  unfold deref; simpl; rewrite ?list_lookup_alter_eq, ?Hs; simpl.

Lemma tryConnectModel_session userId w l s :
  userSessions w !! userId = Some l -> heap w !! l = Some s ->
  exists mc,
    heap (tryConnectModel userId w) !! l = Some (set_modelConn mc s)
    /\ userSessions (tryConnectModel userId w) = userSessions w
    /\ callSidToUserId (tryConnectModel userId w) = callSidToUserId w
    /\ history (tryConnectModel userId w) = history w.
Proof.
  intros Hl Hs. unfold tryConnectModel. rewrite (getUserSession_existing _ _ _ Hl).
  eval_session Hs.
  destruct (_ || _).
  { exists (modelConn s). by rewrite set_modelConn_same. }
  destruct (isOpen _ _).
  { exists (modelConn s). by rewrite set_modelConn_same. }
  simpl. exists (Some (length (sockets w))). by rewrite list_lookup_alter_eq, Hs.
Qed.

Lemma identify_found call stream from ws key w userId l s :
  userSessions w !! userId = Some l -> heap w !! l = Some s ->
  getUserIdByCallSid call w = Some userId -> userId <> EmptyString ->
  exists w' s',
    identify (TwStart call stream from) None ws key w = Continue (Some userId) w'
    /\ userSessions w' = userSessions w
    /\ callSidToUserId w' = callSidToUserId w
    /\ heap w' !! l = Some s'
    /\ twilioConn s' = Some ws
    /\ callType s' = callType s
    /\ callSid s' = callSid s
    /\ outboundCallStatus s' =
         match callType s with
         | Some outbound => Some connected
         | _ => outboundCallStatus s
         end
    /\ history w' =
         history w ++
           match callType s with
           | Some outbound => [UpdateCallStatus call "connected"]
           | _ => []
           end.
Proof.
  intros Hl Hs Hc Hu. unfold identify.
  destruct userId as [|a u']; [done|]. set (u := String a u') in *.
  simpl truthy. cbv iota. rewrite Hc. simpl negb. cbv iota.
  simpl default. rewrite (getUserSession_existing _ _ _ Hl).
  eval_session Hs.
  destruct (callType s) as [[]|] eqn:Hct; eexists _, _; (split; [done|]);
    eval_session Hs; rewrite ?app_nil_r; by repeat split.
Qed.

Lemma route_start call stream from w userId l s :
  userSessions w !! userId = Some l -> heap w !! l = Some s ->
  is_Some (callType s) ->
  exists s',
    heap (route (TwStart call stream from) userId w) !! l = Some s'
    /\ userSessions (route (TwStart call stream from) userId w) = userSessions w
    /\ callSidToUserId (route (TwStart call stream from) userId w) = callSidToUserId w
    /\ history (route (TwStart call stream from) userId w) = history w
    /\ streamSid s' = Some stream
    /\ latestMediaTimestamp s' = Some 0%Z
    /\ lastAssistantItem s' = None
    /\ responseStartTimestamp s' = None
    /\ twilioConn s' = twilioConn s
    /\ callType s' = callType s
    /\ callSid s' = callSid s
    /\ outboundCallStatus s' = outboundCallStatus s.
Proof.
  intros Hl Hs [ct Hct]. unfold route. rewrite (getUserSession_existing _ _ _ Hl).
  eval_session Hs. rewrite Hct.
  match goal with |- context [tryConnectModel userId ?W] =>
    edestruct (tryConnectModel_session userId W l) as (mc & Hh & -> & -> & ->);
      [done|by simpl; rewrite !list_lookup_alter_eq, Hs|]
  end.
  eexists. split; [exact Hh|]. simpl. by rewrite Hct.
Qed.

Lemma route_close w userId l s :
  userSessions w !! userId = Some l -> heap w !! l = Some s ->
  heap (route TwClose userId w) !! l =
    Some (set_outboundCallStatus (Some disconnected)
            (set_modelConn None (set_twilioConn None s)))
  /\ userSessions (route TwClose userId w) = userSessions w
  /\ history (route TwClose userId w) =
       history w ++
         (if truthy (callSid s) then [EndCallTracking (default EmptyString (callSid s))]
          else []).
Proof.
  intros Hl Hs. unfold route. rewrite (getUserSession_existing _ _ _ Hl).
  eval_session Hs. unfold tracked. by eval_session Hs.
Qed.

Lemma route_media timestamp payload w userId l s :
  userSessions w !! userId = Some l -> heap w !! l = Some s ->
  heap (route (TwMedia timestamp payload) userId w) !! l =
    Some (set_latestMediaTimestamp (Some timestamp) s)
  /\ userSessions (route (TwMedia timestamp payload) userId w) = userSessions w.
Proof.
  intros Hl Hs. unfold route. rewrite (getUserSession_existing _ _ _ Hl).
  destruct (isOpen _ _); by eval_session Hs.
Qed.

Lemma callClosed_session w l s :
  heap w !! l = Some s ->
  exists s',
    heap (callClosed l w) !! l = Some s'
    /\ userSessions (callClosed l w) = userSessions w
    /\ twilioConn s' = None /\ modelConn s' = None
    /\ streamSid s' = None /\ lastAssistantItem s' = None
    /\ responseStartTimestamp s' = None /\ latestMediaTimestamp s' = None
    /\ history (callClosed l w) =
         history w ++
           (if truthy (callSid s) then [EndCallTracking (default EmptyString (callSid s))]
            else []).
Proof.
  intros Hs. unfold callClosed. eval_session Hs.
  destruct (callType s) as [[]|]; eexists; eval_session Hs;
    repeat split; unfold tracked; by eval_session Hs.
Qed.

(** ** Following one socket through a handler *)

Lemma listeners_alter (f : WebSocket -> WebSocket) (c : sock) (ss : list WebSocket)
    (ws : sock) :
  (forall k, listeners (f k) = listeners k) ->
  listeners <$> alter f c ss !! ws = listeners <$> ss !! ws.
Proof.
  intros Hf. destruct (decide (c = ws)) as [->|Hne].
  - rewrite list_lookup_alter_eq. destruct (ss !! ws); simpl; by rewrite ?Hf.
  - by rewrite list_lookup_alter_ne.
Qed.

Lemma socket_listeners_cleanupConnection ws c w :
  socket_listeners ws (cleanupConnection c w) = socket_listeners ws w.
Proof.
  unfold socket_listeners, cleanupConnection. simpl.
  repeat case_match; try done;
    apply listeners_alter; intros k; unfold ws_close; by destruct (readyState k).
Qed.

Lemma socket_listeners_jsonSend ws c obj w :
  socket_listeners ws (jsonSend c obj w) = socket_listeners ws w.
Proof.
  unfold socket_listeners, jsonSend. simpl.
  destruct c as [c|]; [|done]. destruct (isOpen _ _); [|done].
  by apply listeners_alter.
Qed.

Lemma socket_listeners_on ws ev l w :
  socket_listeners ws (on ws ev l w) = (.++ [(ev, l)]) <$> socket_listeners ws w.
Proof.
  unfold socket_listeners, on. simpl. rewrite list_lookup_alter_eq.
  by destruct (sockets w !! ws).
Qed.

Lemma socket_listeners_on_other ws c ev l w :
  c <> ws -> socket_listeners ws (on c ev l w) = socket_listeners ws w.
Proof. intros Hne. unfold socket_listeners, on. simpl. by rewrite list_lookup_alter_ne. Qed.

Lemma socket_listeners_removeAllListeners ws ev w :
  socket_listeners ws (removeAllListeners ws ev w)
  = filter (fun p => negb (eqb_event p.1 ev)) <$> socket_listeners ws w.
Proof.
  unfold socket_listeners, removeAllListeners. simpl. rewrite list_lookup_alter_eq.
  by destruct (sockets w !! ws).
Qed.

Lemma socket_listeners_tryConnectModel ws userId w :
  is_Some (sockets w !! ws) ->
  socket_listeners ws (tryConnectModel userId w) = socket_listeners ws w.
Proof.
  intros Hws. unfold tryConnectModel.
  destruct (getUserSession userId w) as [l w0] eqn:E.
  pose proof (getUserSession_sockets _ _ _ _ E) as Hsock.
  assert (Hsame : socket_listeners ws w0 = socket_listeners ws w).
  { unfold socket_listeners. by rewrite Hsock. }
  destruct (_ || _); [done|]. destruct (isOpen _ _); [done|].
  unfold new_WebSocket. cbv beta iota zeta.
  assert (Hne : length (sockets w0) <> ws).
  { rewrite Hsock. apply lookup_lt_is_Some in Hws. lia. }
  rewrite !socket_listeners_on_other by done.
  unfold socket_listeners. simpl. rewrite Hsock.
  destruct Hws as [k Hk]. by rewrite (lookup_app_l_Some _ _ _ _ Hk), Hk.
Qed.

Lemma unclosed_alter (f : WebSocket -> WebSocket) (c ws : sock) w :
  (forall k, readyState k <> CLOSED -> readyState (f k) <> CLOSED) ->
  unclosed ws w -> unclosed ws (set_sockets (alter f c (sockets w)) w).
Proof.
  intros Hf (k & Hk & Hst). unfold unclosed. simpl.
  destruct (decide (c = ws)) as [->|Hne].
  - exists (f k). rewrite list_lookup_alter_eq, Hk. auto.
  - exists k. by rewrite list_lookup_alter_ne.
Qed.

Lemma ws_close_unclosed k : readyState k <> CLOSED -> readyState (ws_close k) <> CLOSED.
Proof. unfold ws_close. by destruct (readyState k) eqn:E; simpl; rewrite ?E. Qed.

Lemma unclosed_cleanupConnection ws c w :
  unclosed ws w -> unclosed ws (cleanupConnection c w).
Proof.
  intros Hw. unfold cleanupConnection.
  repeat case_match; try exact Hw;
    (apply unclosed_alter; [apply ws_close_unclosed|done]).
Qed.

Lemma unclosed_on ws c ev l w : unclosed ws w -> unclosed ws (on c ev l w).
Proof. by apply unclosed_alter. Qed.

Lemma unclosed_removeAllListeners ws c ev w :
  unclosed ws w -> unclosed ws (removeAllListeners c ev w).
Proof. by apply unclosed_alter. Qed.

Lemma unclosed_tryConnectModel ws userId w :
  unclosed ws w -> unclosed ws (tryConnectModel userId w).
Proof.
  intros Hw. unfold tryConnectModel.
  destruct (getUserSession userId w) as [l w0] eqn:E.
  pose proof (getUserSession_sockets _ _ _ _ E) as Hsock.
  assert (Hw0 : unclosed ws w0) by (unfold unclosed; by rewrite Hsock).
  destruct (_ || _); [done|]. destruct (isOpen _ _); [done|].
  unfold new_WebSocket. cbv beta iota zeta.
  do 4 apply unclosed_on.
  destruct Hw0 as (k & Hk & Hst). exists k. split; [|done].
  simpl. by apply lookup_app_l_Some.
Qed.

(** The [switch] of [handleTwilioMessage] adds no listener to the socket
    and does not complete its closing. *)
Lemma route_sockets ws msg userId w :
  unclosed ws w ->
  socket_listeners ws (route msg userId w) = socket_listeners ws w
  /\ unclosed ws (route msg userId w).
Proof.
  intros Hw. unfold route.
  destruct (getUserSession userId w) as [l w0] eqn:E.
  pose proof (getUserSession_sockets _ _ _ _ E) as Hsock.
  assert (Hw0 : unclosed ws w0) by (unfold unclosed; by rewrite Hsock).
  assert (Hl0 : socket_listeners ws w0 = socket_listeners ws w)
    by (unfold socket_listeners; by rewrite Hsock).
  rewrite <- Hl0. clear Hl0 Hsock E Hw.
  destruct msg as [call stream from|timestamp payload| | |].
  - match goal with |- context [tryConnectModel userId ?W] =>
      assert (HW : unclosed ws W) by (repeat case_match; exact Hw0);
      assert (HL : socket_listeners ws W = socket_listeners ws w0)
        by (by repeat case_match)
    end.
    split; [|by apply unclosed_tryConnectModel].
    rewrite socket_listeners_tryConnectModel; [done|].
    destruct HW as (k & -> & _). by eexists.
  - destruct (isOpen _ _); [|done].
    split; [by rewrite socket_listeners_jsonSend|].
    unfold jsonSend. destruct (modelConn _); [|exact Hw0].
    destruct (isOpen _ _); [|exact Hw0]. by apply unclosed_alter.
  - split.
    + change (socket_listeners ws (cleanupConnection (modelConn (deref l
        (cleanupConnection (twilioConn (deref l w0)) w0)))
        (cleanupConnection (twilioConn (deref l w0)) w0)) = socket_listeners ws w0).
      by rewrite !socket_listeners_cleanupConnection.
    + change (unclosed ws (cleanupConnection (modelConn (deref l
        (cleanupConnection (twilioConn (deref l w0)) w0)))
        (cleanupConnection (twilioConn (deref l w0)) w0))).
      by do 2 apply unclosed_cleanupConnection.
  - done.
  - done.
Qed.

(** Identification replaces the message listener of the socket and adds an
    error and a close listener. *)
Lemma identify_sockets call stream from ws key w userId l s :
  userSessions w !! userId = Some l -> heap w !! l = Some s ->
  getUserIdByCallSid call w = Some userId -> userId <> EmptyString ->
  unclosed ws w ->
  match identify (TwStart call stream from) None ws key w with
  | Continue _ w' =>
      socket_listeners ws w' =
        (fun ls => filter (fun p => negb (eqb_event p.1 EvMessage)) ls ++
           [(EvMessage, OnTwilioMessage (Some userId) key); (EvError, WsClose);
            (EvClose, CallClosed userId l)]) <$> socket_listeners ws w
      /\ unclosed ws w'
  | Return _ => False
  end.
Proof.
  intros Hl Hs Hc Hu Hw. unfold identify.
  destruct userId as [|a u']; [done|]. set (u := String a u') in *.
  simpl truthy. cbv iota. rewrite Hc. simpl negb. cbv iota.
  simpl default. rewrite (getUserSession_existing _ _ _ Hl).
  set (w0 := cleanupConnection (twilioConn (deref l w)) w).
  assert (Hw0 : unclosed ws w0) by by apply unclosed_cleanupConnection.
  assert (Hl0 : socket_listeners ws w0 = socket_listeners ws w)
    by apply socket_listeners_cleanupConnection.
  rewrite <- Hl0.
  match goal with |- context [removeAllListeners ws EvMessage ?W] =>
    assert (HW : unclosed ws W) by (repeat case_match; exact Hw0);
    assert (HL : socket_listeners ws W = socket_listeners ws w0)
      by (by repeat case_match);
    generalize dependent W
  end.
  intros W HW HL. split.
  - rewrite !socket_listeners_on, socket_listeners_removeAllListeners, HL.
    destruct (socket_listeners ws w0); simpl; [|done].
    by rewrite <- !app_assoc.
  - by do 3 apply unclosed_on; apply unclosed_removeAllListeners.
Qed.

(** ** From the event loop to the handlers *)

Lemma step_CallConnection key w :
  step (CallConnection key) w =
    set_sockets (sockets w ++
      [{| readyState := OPEN; sent := []; listeners := anonymous_listeners key |}]) w.
Proof.
  unfold step, accept, handleCallConnection, on, set_sockets. simpl. f_equal.
  rewrite <- (Nat.add_0_r (length (sockets w))). by rewrite !alter_app_r.
Qed.

Lemma emit_listeners ws ev data w ls :
  socket_listeners ws w = Some ls ->
  emit ws ev data w =
    foldl (fun w p => if eqb_event p.1 ev then run_listener ws data p.2 w else w) w ls.
Proof. unfold emit, socket_listeners. by intros ->. Qed.

Lemma close_accepted (ss : list WebSocket) (k : WebSocket) :
  alter ws_close (length ss) (ss ++ [k]) = ss ++ [ws_close k].
Proof. rewrite <- (Nat.add_0_r (length ss)). by rewrite alter_app_r. Qed.

(** C5. A telephony connection is accepted and delivers a [start] whose
    Call SID has no registration: afterwards registry, session objects,
    registrations and call history are what they were (no session is
    created or changed, no tracking is started) and the sockets are those
    of before followed by the new one, closing, with the listeners
    [handleCallConnection] gave it. *)
Theorem unregistered_start_closes call stream from key w :
  getUserIdByCallSid call w = None ->
  let w' := run [CallConnection key;
                 Message (length (sockets w))
                   (OfTwilio (Some (TwStart call stream from)))] w in
  userSessions w' = userSessions w
  /\ heap w' = heap w
  /\ callSidToUserId w' = callSidToUserId w
  /\ history w' = history w
  /\ sockets w' =
       sockets w ++
         [{| readyState := CLOSING; sent := []; listeners := anonymous_listeners key |}].
Proof.
  intros Hnone w'.
  set (ws := length (sockets w)). set (wa := step (CallConnection key) w).
  assert (Hwa : wa = set_sockets (sockets w ++
      [{| readyState := OPEN; sent := []; listeners := anonymous_listeners key |}]) w)
    by apply step_CallConnection.
  assert (Hla : socket_listeners ws wa = Some (anonymous_listeners key)).
  { rewrite Hwa. unfold socket_listeners, ws. simpl. by rewrite list_lookup_middle. }
  assert (Hw' : w' = close_socket ws wa).
  { change (emit ws EvMessage (Some (OfTwilio (Some (TwStart call stream from)))) wa
            = close_socket ws wa).
    rewrite (emit_listeners _ _ _ _ _ Hla). simpl.
    apply handleTwilioMessage_unregistered_start. by rewrite Hwa. }
  rewrite Hw', Hwa. simpl. repeat split. apply close_accepted.
Qed.

(** C10. A frontend connection is accepted with a token from which no user
    id can be extracted: afterwards registry and session objects are what
    they were and the sockets are those of before followed by the new one,
    closing, with no listener attached. *)
Theorem invalid_token_closes token w :
  extractUserIdFromToken token = None ->
  let w' := step (LogsConnection (Some token)) w in
  userSessions w' = userSessions w
  /\ heap w' = heap w
  /\ sockets w' = sockets w ++ [{| readyState := CLOSING; sent := []; listeners := [] |}].
Proof.
  intros Hnone w'.
  assert (Hw' : w' = close_socket (length (sockets w)) (accept w).2).
  { unfold w', step, accept. cbv beta iota zeta.
    destruct (negb _); [done|]. simpl default.
    by apply handleFrontendConnection_invalid_token. }
  rewrite Hw'. simpl. repeat split. apply close_accepted.
Qed.

(** ** Outbound calls *)

Lemma associateOutboundCall_session userId call w :
  registry_wf w ->
  exists l s,
    userSessions (associateOutboundCall userId call w) !! userId = Some l
    /\ heap (associateOutboundCall userId call w) !! l = Some s
    /\ callType s = Some outbound
    /\ outboundCallStatus s = Some initiating
    /\ callSid s = Some call.
Proof.
  intros Hwf. unfold associateOutboundCall.
  destruct (getUserSession_wf userId w Hwf) as (l & w0 & -> & Hl & Hs & _).
  exists l. eexists. split; [done|]. simpl. by rewrite !list_lookup_alter_eq, Hs.
Qed.

(** A [start] on a connection without user id, for a Call SID registered to
    the user of an outbound session. *)
Lemma start_on_outbound_session userId call stream from ws key w l s :
  userSessions w !! userId = Some l -> heap w !! l = Some s ->
  getUserIdByCallSid call w = Some userId -> userId <> EmptyString ->
  callType s = Some outbound ->
  let w' := handleTwilioMessage (Some (TwStart call stream from)) None ws key w in
  exists s',
    userSessions w' !! userId = Some l /\ heap w' !! l = Some s'
    /\ callType s' = Some outbound
    /\ outboundCallStatus s' = Some connected
    /\ streamSid s' = Some stream
    /\ latestMediaTimestamp s' = Some 0%Z
    /\ lastAssistantItem s' = None
    /\ responseStartTimestamp s' = None
    /\ twilioConn s' = Some ws
    /\ callSid s' = callSid s
    /\ history w' = history w ++ [UpdateCallStatus call "connected"].
Proof.
  intros Hl Hs Hc Hu Hct w'. unfold w', handleTwilioMessage.
  destruct (identify_found call stream from ws key w userId l s Hl Hs Hc Hu)
    as (w1 & s1 & -> & Hreg & _ & Hs1 & Htw & Hct1 & Hsid1 & Hst1 & Hh1).
  rewrite (truthy_nonempty _ Hu). simpl negb. cbv iota. simpl default.
  rewrite Hct in *.
  destruct (route_start call stream from w1 userId l s1) as
    (s2 & Hs2 & Hreg2 & _ & Hh2 & ? & ? & ? & ? & ? & ? & ? & ?);
    [by rewrite Hreg|done|by rewrite Hct1|].
  exists s2. rewrite Hreg2, Hreg, Hh2, Hh1. repeat split; try done; congruence.
Qed.

(** The server accepts a telephony connection and the socket delivers a
    [start] for a Call SID registered to the user of an outbound session. *)
Lemma start_event userId call stream from key w l s :
  userSessions w !! userId = Some l -> heap w !! l = Some s ->
  getUserIdByCallSid call w = Some userId -> userId <> EmptyString ->
  callType s = Some outbound ->
  let ws := length (sockets w) in
  let w1 := run [CallConnection key;
                 Message ws (OfTwilio (Some (TwStart call stream from)))] w in
  exists s1,
    userSessions w1 !! userId = Some l /\ heap w1 !! l = Some s1
    /\ callType s1 = Some outbound
    /\ outboundCallStatus s1 = Some connected
    /\ streamSid s1 = Some stream
    /\ latestMediaTimestamp s1 = Some 0%Z
    /\ callSid s1 = callSid s
    /\ history w1 = history w ++ [UpdateCallStatus call "connected"]
    /\ socket_listeners ws w1 = Some (identified_listeners userId key l)
    /\ unclosed ws w1.
Proof.
  intros Hl Hs Hc Hu Hct ws w1.
  set (wa := step (CallConnection key) w).
  assert (Hwa : wa = set_sockets (sockets w ++
      [{| readyState := OPEN; sent := []; listeners := anonymous_listeners key |}]) w)
    by apply step_CallConnection.
  assert (Hla : socket_listeners ws wa = Some (anonymous_listeners key)).
  { rewrite Hwa. unfold socket_listeners, ws. simpl. by rewrite list_lookup_middle. }
  assert (Hua : unclosed ws wa).
  { rewrite Hwa. eexists. unfold ws. simpl. by rewrite list_lookup_middle. }
  assert (Hl' : userSessions wa !! userId = Some l) by by rewrite Hwa.
  assert (Hs' : heap wa !! l = Some s) by by rewrite Hwa.
  assert (Hc' : getUserIdByCallSid call wa = Some userId) by by rewrite Hwa.
  assert (Hh' : history wa = history w) by by rewrite Hwa.
  assert (Hw1 : w1 = handleTwilioMessage (Some (TwStart call stream from)) None ws key wa).
  { change (emit ws EvMessage (Some (OfTwilio (Some (TwStart call stream from)))) wa
            = handleTwilioMessage (Some (TwStart call stream from)) None ws key wa).
    by rewrite (emit_listeners _ _ _ _ _ Hla). }
  destruct (start_on_outbound_session userId call stream from ws key wa l s
              Hl' Hs' Hc' Hu Hct)
    as (s1 & Hl1 & Hs1 & ? & ? & ? & ? & _ & _ & _ & ? & Hh1).
  rewrite <- Hw1 in Hl1, Hs1, Hh1. rewrite Hh' in Hh1.
  exists s1. do 8 (split; [done|]).
  rewrite Hw1. unfold handleTwilioMessage.
  pose proof (identify_sockets call stream from ws key wa userId l s
                Hl' Hs' Hc' Hu Hua) as Hi.
  destruct (identify_found call stream from ws key wa userId l s Hl' Hs' Hc' Hu)
    as (wi & si & Hid & _).
  rewrite Hid in Hi |- *. destruct Hi as [Hli Hui].
  rewrite (truthy_nonempty _ Hu). simpl negb. cbv iota. simpl default.
  destruct (route_sockets ws (TwStart call stream from) userId wi Hui) as [-> Hur].
  split; [|done]. by rewrite Hli, Hla.
Qed.

(** C4. Once an outbound call has been registered to a user (whose id is
    not the empty string), with or without a phone number, the Call SID
    resolves to that user; and when a telephony connection is then accepted
    and delivers a [start] carrying that Call SID, the session of that user
    has [callType = outbound], [outboundCallStatus = connected] and the
    stream id of the signal. *)
Theorem outbound_start_connects userId call phoneNumber stream from key w :
  registry_wf w -> userId <> EmptyString ->
  let w1 :=
    match phoneNumber with
    | Some number => step (AssociateOutboundCallWithPhoneNumber userId call number) w
    | None => step (AssociateOutboundCall userId call) w
    end in
  let w2 := run [CallConnection key;
                 Message (length (sockets w1))
                   (OfTwilio (Some (TwStart call stream from)))] w1 in
  getUserIdByCallSid call w1 = Some userId
  /\ exists s, session_of userId w2 = Some s
       /\ callType s = Some outbound
       /\ outboundCallStatus s = Some connected
       /\ streamSid s = Some stream.
Proof.
  intros Hwf Hu w1 w2.
  destruct (associateOutboundCall_session userId call w Hwf)
    as (l & s & Hl & Hs & Hct & _).
  assert (Hres : getUserIdByCallSid call (associateOutboundCall userId call w)
                 = Some userId).
  { unfold associateOutboundCall, getUserIdByCallSid.
    destruct (getUserSession userId w). simpl. apply lookup_insert_eq. }
  assert (H1 : getUserIdByCallSid call w1 = Some userId
               /\ userSessions w1 !! userId = Some l /\ heap w1 !! l = Some s).
  { unfold w1. by destruct phoneNumber. }
  destruct H1 as (Hres1 & Hl1 & Hs1). split; [done|].
  destruct (start_event userId call stream from key w1 l s Hl1 Hs1 Hres1 Hu Hct)
    as (s' & Hl' & Hs' & ? & ? & ? & _).
  exists s'. split; [exact (session_of_lookup _ _ _ _ Hl' Hs')|done].
Qed.

(** ** The end of a call *)

(** C3, as amended.  For a user with an outbound session whose Call SID is
    recorded: a telephony connection is accepted and delivers [start], then
    [close].  After the [close] signal the telephony and model links are
    cleared, [outboundCallStatus] is [disconnected] and one end-of-call
    notification has been sent, while [streamSid] and
    [latestMediaTimestamp] still hold the stream id and 0.  When the
    transport then closes, the [close] listener of the socket clears
    [streamSid], [lastAssistantItem], [responseStartTimestamp] and
    [latestMediaTimestamp], and sends the end-of-call notification again. *)
Theorem start_then_close userId call stream from key w s sid :
  session_of userId w = Some s ->
  getUserIdByCallSid call w = Some userId -> userId <> EmptyString ->
  callType s = Some outbound ->
  callSid s = Some sid -> sid <> EmptyString ->
  let ws := length (sockets w) in
  let w1 := run [CallConnection key;
                 Message ws (OfTwilio (Some (TwStart call stream from)))] w in
  let w2 := step (Message ws (OfTwilio (Some TwClose))) w1 in
  let w3 := step (Closed ws) w2 in
  exists s2 s3,
    session_of userId w2 = Some s2
    /\ twilioConn s2 = None /\ modelConn s2 = None
    /\ outboundCallStatus s2 = Some disconnected
    /\ streamSid s2 = Some stream
    /\ latestMediaTimestamp s2 = Some 0%Z
    /\ history w2 = history w1 ++ [EndCallTracking sid]
    /\ session_of userId w3 = Some s3
    /\ streamSid s3 = None /\ lastAssistantItem s3 = None
    /\ responseStartTimestamp s3 = None /\ latestMediaTimestamp s3 = None
    /\ history w3 = history w2 ++ [EndCallTracking sid].
Proof.
  intros (l & Hl & Hs)%session_of_Some Hc Hu Hct Hsid Hne ws w1 w2 w3.
  destruct (start_event userId call stream from key w l s Hl Hs Hc Hu Hct)
    as (s1 & Hl1 & Hs1 & _ & _ & Hstream & Hlatest & Hsid1 & _ & Hls1 & Hu1).
  fold ws w1 in Hl1, Hs1, Hls1, Hu1.
  (* the [close] signal reaches the identified listener *)
  assert (Hw2 : w2 = route TwClose userId w1).
  { unfold w2, step. rewrite (emit_listeners _ _ _ _ _ Hls1). simpl.
    by destruct userId. }
  destruct (route_close w1 userId l s1 Hl1 Hs1) as (Hs2 & Hreg2 & Hh2).
  destruct (route_sockets ws TwClose userId w1 Hu1) as [Hls2 Hu2].
  rewrite <- Hw2 in Hs2, Hreg2, Hh2, Hls2, Hu2.
  rewrite Hsid1, Hsid, (truthy_nonempty _ Hne) in Hh2. simpl in Hh2.
  (* the transport closes: the close listeners of the socket run *)
  set (wc := set_sockets (alter (set_readyState CLOSED) ws (sockets w2)) w2).
  assert (Hw3 : w3 = callClosed l wc).
  { unfold w3, step. destruct Hu2 as (k & Hk & Hst). rewrite Hk. simpl.
    assert (Hlc : socket_listeners ws wc = Some (identified_listeners userId key l)).
    { unfold socket_listeners, wc. simpl. rewrite listeners_alter by done.
      fold (socket_listeners ws w2). by rewrite Hls2, Hls1. }
    destruct (readyState k); try done; fold wc;
      by rewrite (emit_listeners _ _ _ _ _ Hlc). }
  destruct (callClosed_session wc l _ Hs2)
    as (s3 & Hs3 & Hreg3 & _ & _ & ? & ? & ? & ? & Hh3).
  simpl in Hh3. rewrite Hsid1, Hsid, (truthy_nonempty _ Hne) in Hh3.
  rewrite <- Hw3 in Hs3, Hreg3, Hh3.
  eexists _, s3. split.
  { apply (session_of_lookup _ _ l); [by rewrite Hreg2|exact Hs2]. }
  simpl. do 6 (split; [done|]). split; [|done].
  apply (session_of_lookup _ _ l); [by rewrite Hreg3; simpl; rewrite Hreg2|done].
Qed.

(** ** The media clock *)

(** C7, as amended.  Handling a media frame on an identified connection
    sets [latestMediaTimestamp] to the timestamp of the frame, whatever it
    was: over a list of frames the field takes the timestamps of the frames,
    one after the other, so it never decreases exactly when the timestamps
    of the frames never do. *)
Theorem media_clock_follows_frames frames userId ws key w s :
  session_of userId w = Some s -> userId <> EmptyString ->
  media_clock frames userId ws key w = (fun f => Some f.1) <$> frames.
Proof.
  intros Hs Hu. revert w s Hs.
  induction frames as [|[timestamp payload] rest IH]; intros w s Hs; [done|].
  destruct (session_of_Some _ _ _ Hs) as (l & Hl & Hh).
  assert (Hw : handleTwilioMessage (Some (TwMedia timestamp payload)) (Some userId)
                 ws key w = route (TwMedia timestamp payload) userId w).
  { unfold handleTwilioMessage. simpl identify. cbv iota.
    by rewrite (truthy_nonempty _ Hu). }
  destruct (route_media timestamp payload w userId l s Hl Hh) as (Hh' & Hreg).
  assert (Hs' : session_of userId (route (TwMedia timestamp payload) userId w)
                = Some (set_latestMediaTimestamp (Some timestamp) s)).
  { apply (session_of_lookup _ _ l); [by rewrite Hreg|done]. }
  cbn [media_clock]. rewrite Hw, Hs'. rewrite fmap_cons. f_equal. by apply (IH _ _ Hs').
Qed.

(** ** What no handler undoes: registrations and registry entries *)

Lemma extends_refl w : extends w w.
Proof. by split. Qed.

Lemma extends_trans w1 w2 w3 : extends w1 w2 -> extends w2 w3 -> extends w1 w3.
Proof. intros [? ?] [? ?]. split; [congruence|by etrans]. Qed.

Lemma getUserSession_extends w userId w1 l w2 :
  extends w w1 -> getUserSession userId w1 = (l, w2) -> extends w w2.
Proof.
  intros Hw. unfold getUserSession. destruct (userSessions w1 !! userId) eqn:Hu.
  - by intros [= _ <-].
  - intros [= _ <-]. apply (extends_trans _ _ _ Hw). split; [done|].
    simpl. by apply insert_subseteq.
Qed.

(** The operations on sockets, session objects, history, timers and
    promises leave registry and registrations as they are. *)
Ltac ext_frame :=
  lazymatch goal with
  | |- extends ?w (upd _ _ ?w') => change (extends w w')
  | |- extends ?w (jsonSend _ _ ?w') => change (extends w w')
  | |- extends ?w (cleanupConnection _ ?w') => change (extends w w')
  | |- extends ?w (close_socket _ ?w') => change (extends w w')
  | |- extends ?w (on _ _ _ ?w') => change (extends w w')
  | |- extends ?w (removeAllListeners _ _ ?w') => change (extends w w')
  | |- extends ?w (record _ ?w') => change (extends w w')
  | |- extends ?w (startCallTracking _ _ _ _ ?w') => change (extends w w')
  | |- extends ?w (updateCallStatus _ _ ?w') => change (extends w w')
  | |- extends ?w (with_callSid _ _ ?w') => change (extends w w')
  | |- extends ?w (setTimeout _ ?w') => change (extends w w')
  | |- extends ?w (set_sockets _ ?w') => change (extends w w')
  | |- extends ?w (set_timers _ ?w') => change (extends w w')
  | |- extends ?w (set_promises _ ?w') => change (extends w w')
  | |- extends ?w (set_heap _ ?w') => change (extends w w')
  | |- extends ?w (set_history _ ?w') => change (extends w w')
  end.

Ltac ext_with sub :=
  repeat first
    [ assumption
    | apply extends_refl
    | ext_frame
    | sub
    | lazymatch goal with
      | |- extends ?w (let '(_, _) := getUserSession ?u ?W in _) =>
          let E := fresh "E" in
          destruct (getUserSession u W) as [? ?] eqn:E;
          apply (getUserSession_extends w) in E; [|ext_with sub]
      | |- extends _ (let '(_, _) := new_WebSocket _ in _) =>
          unfold new_WebSocket; cbv beta iota zeta
      | |- extends _ (match ?x with _ => _ end) => destruct x
      end ].

Ltac ext := ext_with fail.

Lemma tryConnectModel_extends w userId w' :
  extends w w' -> extends w (tryConnectModel userId w').
Proof. intros Hw. unfold tryConnectModel. ext. Qed.

Lemma closeModel_extends w userId w' : extends w w' -> extends w (closeModel userId w').
Proof. intros Hw. unfold closeModel. ext. Qed.

Lemma handleTruncation_extends w userId w' :
  extends w w' -> extends w (handleTruncation userId w').
Proof. intros Hw. unfold handleTruncation. ext. Qed.

Lemma route_extends w msg userId w' : extends w w' -> extends w (route msg userId w').
Proof. intros Hw. unfold route. ext_with ltac:(apply tryConnectModel_extends). Qed.

Lemma identify_extends w msg uid ws key w' :
  extends w w' ->
  match identify msg uid ws key w' with
  | Return w2 | Continue _ w2 => extends w w2
  end.
Proof.
  intros Hw. unfold identify. destruct msg as [call stream from| | | |]; try done.
  destruct (truthy uid); [done|].
  destruct (negb (truthy (getUserIdByCallSid call w'))); [done|].
  destruct (getUserSession _ w') as [l w0] eqn:E.
  apply (getUserSession_extends w) in E; [|done]. ext.
Qed.

Lemma handleTwilioMessage_extends w data uid ws key w' :
  extends w w' -> extends w (handleTwilioMessage data uid ws key w').
Proof.
  intros Hw. unfold handleTwilioMessage. destruct data as [msg|]; [|done].
  pose proof (identify_extends w msg uid ws key w' Hw) as Hi.
  destruct (identify msg uid ws key w') as [w2|uid' w2]; [done|].
  destruct (negb (truthy uid')); [done|]. by apply route_extends.
Qed.

Lemma handleFrontendMessage_extends w data userId w' :
  extends w w' -> extends w (handleFrontendMessage data userId w').
Proof. intros Hw. unfold handleFrontendMessage. ext. Qed.

Lemma callClosed_extends w l w' : extends w w' -> extends w (callClosed l w').
Proof. intros Hw. unfold callClosed. ext. Qed.

Lemma frontendClosed_extends w l w' : extends w w' -> extends w (frontendClosed l w').
Proof. intros Hw. unfold frontendClosed. ext. Qed.

Lemma modelOpened_extends w l w' : extends w w' -> extends w (modelOpened l w').
Proof. intros Hw. unfold modelOpened. ext. Qed.

Lemma handleCallConnection_extends w ws key w' :
  extends w w' -> extends w (handleCallConnection ws key w').
Proof. intros Hw. unfold handleCallConnection. ext. Qed.

Lemma handleFrontendConnection_extends w ws token w' :
  extends w w' -> extends w (handleFrontendConnection ws token w').
Proof. intros Hw. unfold handleFrontendConnection. ext. Qed.

Lemma functionCallSettled_extends w p w' :
  extends w w' -> extends w (functionCallSettled p w').
Proof. intros Hw. unfold functionCallSettled. ext. Qed.

Lemma handleModelMessage_extends w data userId w' :
  extends w w' -> extends w (handleModelMessage data userId w').
Proof. intros Hw. unfold handleModelMessage. ext. Qed.

Lemma run_listener_extends w ws data l w' :
  extends w w' -> extends w (run_listener ws data l w').
Proof.
  intros Hw. unfold run_listener.
  destruct l, data as [[]|];
    first [ assumption
          | by apply handleTwilioMessage_extends
          | by apply handleFrontendMessage_extends
          | by apply handleModelMessage_extends
          | by apply callClosed_extends
          | by apply frontendClosed_extends
          | by apply modelOpened_extends
          | by apply closeModel_extends ].
Qed.

Lemma emit_extends w ws ev data w' : extends w w' -> extends w (emit ws ev data w').
Proof.
  unfold emit. generalize (default [] (listeners <$> sockets w' !! ws)).
  intros ls. revert w'. induction ls as [|p ls IH]; intros w' Hw; [done|].
  simpl. apply IH. destruct (eqb_event _ _); [|done]. by apply run_listener_extends.
Qed.

(** An event that is neither a registration nor a deletion keeps every
    registration and every registry entry. *)
Lemma step_extends e w :
  is_associate e = false -> is_delete e = false -> extends w (step e w).
Proof.
  intros Ha Hd. destruct e; try done; unfold step, accept; cbv beta iota zeta.
  - destruct (negb _); [done|]. by apply handleFrontendConnection_extends.
  - by apply emit_extends.
  - destruct (readyState <$> _) as [[]|]; try done. by apply emit_extends.
  - by apply emit_extends.
  - destruct (readyState <$> _) as [[]|]; try done; by apply emit_extends.
  - destruct (timers w); [done|]. by apply handleTruncation_extends.
  - destruct (promises w !! i); [|done]. by apply functionCallSettled_extends.
Qed.

Lemma associateOutboundCall_registry userId call w :
  callSidToUserId (associateOutboundCall userId call w)
    = <[call := userId]> (callSidToUserId w)
  /\ userSessions w ⊆ userSessions (associateOutboundCall userId call w).
Proof.
  unfold associateOutboundCall.
  destruct (getUserSession userId w) as [l w0] eqn:E.
  destruct (getUserSession_extends w userId w l w0 (extends_refl w) E) as [Hc Hu].
  simpl. by rewrite Hc.
Qed.

Lemma deleteUserSession_registry userId w :
  callSidToUserId (deleteUserSession userId w) = callSidToUserId w
  /\ userSessions (deleteUserSession userId w) = delete userId (userSessions w).
Proof.
  unfold deleteUserSession. destruct (userSessions w !! userId) eqn:Hu; simpl.
  - done.
  - by rewrite delete_id.
Qed.

(** C8. Registering a call makes its Call SID resolve to the user; no event
    removes a registration (after any event the registrations are those of
    before, plus the one the event registers, if it is a registration), so
    the Call SID resolves again to the same user; and registering the same
    Call SID for another user makes it resolve to that user from then on. *)
Theorem registration_resolves userId userId' call w :
  getUserIdByCallSid call (associateOutboundCall userId call w) = Some userId
  /\ (forall e, callSidToUserId (step e w) = registrations_after e (callSidToUserId w))
  /\ getUserIdByCallSid call
       (associateOutboundCall userId' call (associateOutboundCall userId call w))
     = Some userId'.
Proof.
  unfold getUserIdByCallSid. split; [|split].
  - destruct (associateOutboundCall_registry userId call w) as [-> _].
    apply lookup_insert_eq.
  - intros e. destruct (is_associate e) eqn:Ha; [|destruct (is_delete e) eqn:Hd].
    + destruct e as [| | | | | | | |u c|u c p|]; try done; simpl;
        [|change (callSidToUserId (associateOutboundCall u c w)
                  = <[c := u]> (callSidToUserId w))];
        apply associateOutboundCall_registry.
    + destruct e; try done. apply deleteUserSession_registry.
    + destruct (step_extends e w Ha Hd) as [-> _]. by destruct e.
  - destruct (associateOutboundCall_registry userId' call
                (associateOutboundCall userId call w)) as [-> _].
    apply lookup_insert_eq.
Qed.

(** C6, as amended.  A session is entered in the registry the first time it
    is asked for: [getUserSession] for a user without registry entry makes
    a new session object, holding the user id and nothing else, enters it
    under that id and touches no other entry, and for a user with an entry
    it returns the object of the entry and changes nothing.  And it stays
    there: an event other than [deleteUserSession] leaves every registry
    entry in place, with the same session object, whether or not a link of
    the session is live or a registration is pending; [deleteUserSession]
    removes the entry of its user and no other. *)
Theorem sessions_persist e u w :
  (userSessions (getUserSession u w).2 !! u = Some (getUserSession u w).1
   /\ match userSessions w !! u with
      | None =>
          userSessions (getUserSession u w).2 =
            <[u := (getUserSession u w).1]> (userSessions w)
          /\ heap w !! (getUserSession u w).1 = None
          /\ heap (getUserSession u w).2 !! (getUserSession u w).1 = Some (new_session u)
      | Some session => getUserSession u w = (session, w)
      end)
  /\ match e with
     | DeleteUserSession userId =>
         userSessions (step e w) = delete userId (userSessions w)
     | _ => userSessions w ⊆ userSessions (step e w)
     end.
Proof.
  split.
  - unfold getUserSession. destruct (userSessions w !! u) as [session|] eqn:Hu; simpl.
    + done.
    + split; [apply lookup_insert_eq|]. split; [done|].
      split; [by apply lookup_ge_None_2|by apply list_lookup_middle].
  - destruct (is_associate e) eqn:Ha; [|destruct (is_delete e) eqn:Hd].
    + destruct e as [| | | | | | | |u' c|u' c p|]; try done; simpl;
        [|change (userSessions w ⊆ userSessions (associateOutboundCall u' c w))];
        apply associateOutboundCall_registry.
    + destruct e; try done. apply deleteUserSession_registry.
    + destruct (step_extends e w Ha Hd) as [_ Hsub]. by destruct e.
Qed.

(** ** Every world the server reaches has a well-formed registry *)

Lemma registry_wf_upd l f w : registry_wf w -> registry_wf (upd l f w).
Proof.
  intros Hwf u l' Hl'. destruct (Hwf u l' Hl') as [s Hs]. simpl.
  rewrite list_lookup_alter. case_decide; subst; rewrite Hs; by eexists.
Qed.

Lemma getUserSession_registry_wf userId w l w' :
  registry_wf w -> getUserSession userId w = (l, w') -> registry_wf w'.
Proof.
  intros Hwf. unfold getUserSession. destruct (userSessions w !! userId) eqn:Hu.
  - by intros [= _ <-].
  - intros [= _ <-] u' l'. simpl. rewrite lookup_insert. case_decide.
    + intros [= <-]. by rewrite list_lookup_middle.
    + intros Hu'. destruct (Hwf _ _ Hu') as [s Hs]. exists s. by apply lookup_app_l_Some.
Qed.

Ltac wf_frame :=
  lazymatch goal with
  | |- registry_wf (upd _ _ _) => apply registry_wf_upd
  | |- registry_wf (jsonSend _ _ ?w') => change (registry_wf w')
  | |- registry_wf (cleanupConnection _ ?w') => change (registry_wf w')
  | |- registry_wf (close_socket _ ?w') => change (registry_wf w')
  | |- registry_wf (on _ _ _ ?w') => change (registry_wf w')
  | |- registry_wf (removeAllListeners _ _ ?w') => change (registry_wf w')
  | |- registry_wf (record _ ?w') => change (registry_wf w')
  | |- registry_wf (startCallTracking _ _ _ _ ?w') => change (registry_wf w')
  | |- registry_wf (updateCallStatus _ _ ?w') => change (registry_wf w')
  | |- registry_wf (with_callSid _ _ ?w') => change (registry_wf w')
  | |- registry_wf (setTimeout _ ?w') => change (registry_wf w')
  | |- registry_wf (set_sockets _ ?w') => change (registry_wf w')
  | |- registry_wf (set_timers _ ?w') => change (registry_wf w')
  | |- registry_wf (set_promises _ ?w') => change (registry_wf w')
  | |- registry_wf (set_history _ ?w') => change (registry_wf w')
  | |- registry_wf (set_callSidToUserId _ ?w') => change (registry_wf w')
  end.

Ltac wf_with sub :=
  repeat first
    [ assumption
    | wf_frame
    | sub
    | lazymatch goal with
      | |- registry_wf (let '(_, _) := getUserSession ?u ?W in _) =>
          let E := fresh "E" in
          destruct (getUserSession u W) as [? ?] eqn:E;
          apply getUserSession_registry_wf in E; [|wf_with sub]
      | |- registry_wf (let '(_, _) := new_WebSocket _ in _) =>
          unfold new_WebSocket; cbv beta iota zeta
      | |- registry_wf (match ?x with _ => _ end) => destruct x
      end ].

Ltac wf := wf_with fail.

Lemma tryConnectModel_wf userId w : registry_wf w -> registry_wf (tryConnectModel userId w).
Proof. intros Hw. unfold tryConnectModel. wf. Qed.

Lemma closeModel_wf userId w : registry_wf w -> registry_wf (closeModel userId w).
Proof. intros Hw. unfold closeModel. wf. Qed.

Lemma handleTruncation_wf userId w : registry_wf w -> registry_wf (handleTruncation userId w).
Proof. intros Hw. unfold handleTruncation. wf. Qed.

Lemma route_wf msg userId w : registry_wf w -> registry_wf (route msg userId w).
Proof. intros Hw. unfold route. wf_with ltac:(apply tryConnectModel_wf). Qed.

Lemma identify_wf msg uid ws key w :
  registry_wf w ->
  match identify msg uid ws key w with
  | Return w' | Continue _ w' => registry_wf w'
  end.
Proof.
  intros Hw. unfold identify. destruct msg as [call stream from| | | |]; try done.
  destruct (truthy uid); [done|].
  destruct (negb (truthy (getUserIdByCallSid call w))); [done|].
  destruct (getUserSession _ w) as [l w0] eqn:E.
  apply getUserSession_registry_wf in E; [|done]. wf.
Qed.

Lemma handleTwilioMessage_wf data uid ws key w :
  registry_wf w -> registry_wf (handleTwilioMessage data uid ws key w).
Proof.
  intros Hw. unfold handleTwilioMessage. destruct data as [msg|]; [|done].
  pose proof (identify_wf msg uid ws key w Hw) as Hi.
  destruct (identify msg uid ws key w) as [w2|uid' w2]; [done|].
  destruct (negb (truthy uid')); [done|]. by apply route_wf.
Qed.

Lemma handleFrontendMessage_wf data userId w :
  registry_wf w -> registry_wf (handleFrontendMessage data userId w).
Proof. intros Hw. unfold handleFrontendMessage. wf. Qed.

Lemma callClosed_wf l w : registry_wf w -> registry_wf (callClosed l w).
Proof. intros Hw. unfold callClosed. wf. Qed.

Lemma frontendClosed_wf l w : registry_wf w -> registry_wf (frontendClosed l w).
Proof. intros Hw. unfold frontendClosed. wf. Qed.

Lemma handleFrontendConnection_wf ws token w :
  registry_wf w -> registry_wf (handleFrontendConnection ws token w).
Proof. intros Hw. unfold handleFrontendConnection. wf. Qed.

Lemma functionCallSettled_wf p w : registry_wf w -> registry_wf (functionCallSettled p w).
Proof. intros Hw. unfold functionCallSettled. wf. Qed.

Lemma handleModelMessage_wf data userId w :
  registry_wf w -> registry_wf (handleModelMessage data userId w).
Proof. intros Hw. unfold handleModelMessage. wf. Qed.

Lemma associateOutboundCall_wf userId call w :
  registry_wf w -> registry_wf (associateOutboundCall userId call w).
Proof. intros Hw. unfold associateOutboundCall. wf. Qed.

Lemma deleteUserSession_wf userId w :
  registry_wf w -> registry_wf (deleteUserSession userId w).
Proof.
  intros Hw. unfold deleteUserSession. destruct (userSessions w !! userId); [|done].
  intros u l. simpl. rewrite lookup_delete_Some. intros [_ Hu]. exact (Hw u l Hu).
Qed.

Lemma run_listener_wf ws data l w : registry_wf w -> registry_wf (run_listener ws data l w).
Proof.
  intros Hw. unfold run_listener.
  destruct l, data as [[]|];
    first [ assumption
          | by apply handleTwilioMessage_wf
          | by apply handleFrontendMessage_wf
          | by apply handleModelMessage_wf
          | by apply callClosed_wf
          | by apply frontendClosed_wf
          | by apply closeModel_wf ].
Qed.

Lemma emit_wf ws ev data w : registry_wf w -> registry_wf (emit ws ev data w).
Proof.
  unfold emit. generalize (default [] (listeners <$> sockets w !! ws)).
  intros ls. revert w. induction ls as [|p ls IH]; intros w Hw; [done|].
  simpl. apply IH. destruct (eqb_event _ _); [|done]. by apply run_listener_wf.
Qed.

Lemma step_wf e w : registry_wf w -> registry_wf (step e w).
Proof.
  intros Hw. destruct e; unfold step, accept; cbv beta iota zeta.
  - done.
  - destruct (negb _); [done|]. by apply handleFrontendConnection_wf.
  - by apply emit_wf.
  - destruct (readyState <$> _) as [[]|]; try done. by apply emit_wf.
  - by apply emit_wf.
  - destruct (readyState <$> _) as [[]|]; try done; by apply emit_wf.
  - destruct (timers w); [done|]. by apply handleTruncation_wf.
  - destruct (promises w !! i); [|done]. by apply functionCallSettled_wf.
  - by apply associateOutboundCall_wf.
  - by apply associateOutboundCall_wf.
  - by apply deleteUserSession_wf.
Qed.

Lemma run_wf es w : registry_wf w -> registry_wf (run es w).
Proof.
  revert w. induction es as [|e es IH]; intros w Hw; [done|].
  simpl. by apply IH, step_wf.
Qed.

Lemma reachable_wf w : reachable w -> registry_wf w.
Proof.
  intros [es ->]. apply run_wf. intros u l Hl. simpl in Hl.
  by rewrite lookup_empty in Hl.
Qed.

(** ** Tool calls *)

(** A function-call item starts [handleFunctionCall] and leaves its promise
    pending, with the session object the handler was working on. *)
Lemma handleModelMessage_function_call name arguments call_id userId w :
  promises (handleModelMessage
              (Some (ResponseOutputItemDone (ItemFunctionCall name arguments call_id)))
              userId w)
  = promises w ++
      [{| pc_name := name; pc_call_id := call_id; pc_userId := userId;
          pc_session := (getUserSession userId w).1;
          pc_outcome := handleFunctionCall name arguments |}].
Proof.
  unfold handleModelMessage, getUserSession.
  by destruct (userSessions w !! userId).
Qed.

(** A fulfilled call is answered on the model link of the session, if that
    link is open, by its output and a request to go on. *)
Lemma functionCallSettled_fulfilled p output w :
  pc_outcome p = Fulfilled output ->
  let link := modelConn (current_session (pc_userId p) w) in
  sent_on link (functionCallSettled p w) =
    sent_on link w ++
      (if isOpen link w
       then [ConversationItemCreateFunctionCallOutput (pc_call_id p)
               (JSON_stringify (VStr output));
             ResponseCreate]
       else [])
  /\ (forall c, link <> Some c -> sockets (functionCallSettled p w) !! c = sockets w !! c).
Proof.
  intros Hout. unfold functionCallSettled, current_session. rewrite Hout.
  destruct (getUserSession (pc_userId p) w) as [l w0] eqn:E.
  pose proof (getUserSession_sockets _ _ _ _ E) as Hsock.
  set (w1 := with_callSid l _ w0).
  assert (Hd : forall a b W, deref l (jsonSend a b W) = deref l W) by done.
  rewrite !Hd. change (deref l w1) with (deref l w0).
  set (link := modelConn (deref l w0)).
  assert (Hsent : sent_on link w1 = sent_on link w) by (unfold sent_on; simpl; by rewrite Hsock).
  assert (Hopen : isOpen link w1 = isOpen link w) by (unfold isOpen; simpl; by rewrite Hsock).
  assert (Hw1 : sockets w1 = sockets w) by done.
  destruct link as [m|] eqn:Hlink; simpl defined; cbv iota.
  - split.
    + rewrite !sent_on_jsonSend, isOpen_jsonSend, Hsent, Hopen.
      destruct (isOpen (Some m) w); by rewrite <- ?app_assoc.
    + intros c Hc. by rewrite !sockets_jsonSend_other, Hw1.
  - split; [|by rewrite Hw1].
    by rewrite Hsent.
Qed.

(** C2, as amended.  A tool call never stops the bridge.  For a name that
    is in the tool table the promise is fulfilled, with the handler's result
    or, when the arguments do not parse or the handler throws, with an error
    result; when it settles, the model link of the session is sent exactly
    the function output followed by one [response.create] if it is open,
    and nothing if it is not, and no other socket changes.  For a name that
    is not in the table the promise is rejected; settling it sends nothing
    on any socket, changes no session, and records the rejection as a
    system event of the call, with the name of the function and the
    message, if the session that was current when the call was requested
    has a Call SID then (and records nothing if it has none). *)
Theorem tool_call_closes_the_loop name arguments call_id userId session w :
  let p := {| pc_name := name; pc_call_id := call_id; pc_userId := userId;
              pc_session := session;
              pc_outcome := handleFunctionCall name arguments |} in
  let w' := functionCallSettled p w in
  let link := modelConn (current_session userId w) in
  match List.find (fun f => String.eqb (schema_name f) name) functions with
  | None =>
      let message := "No handler found for function: " +:+ name in
      handleFunctionCall name arguments = Rejected message
      /\ sockets w' = sockets w
      /\ heap w' = heap w
      /\ history w' =
           history w ++
             (if truthy (callSid (deref session w))
              then [AddConversationEvent
                      (default EmptyString (callSid (deref session w)))
                      "system_event" "system" ("Function error: " +:+ message)
                      [("function_name", VStr name); ("function_result", VStr message)]]
              else [])
  | Some fnDef =>
      let output :=
        match JSON_parse arguments with
        | None => error_result "Invalid JSON arguments for function call."
        | Some args =>
            match handler fnDef args with
            | Fulfilled result => result
            | Rejected message =>
                error_result ("Error running function " +:+ name +:+ ": " +:+ message)
            end
        end in
      handleFunctionCall name arguments = Fulfilled output
      /\ sent_on link w' =
           sent_on link w ++
             (if isOpen link w
              then [ConversationItemCreateFunctionCallOutput call_id
                      (JSON_stringify (VStr output));
                    ResponseCreate]
              else [])
      /\ (forall c, link <> Some c -> sockets w' !! c = sockets w !! c)
  end.
Proof.
  intros p w' link.
  destruct (List.find _ functions) as [fnDef|] eqn:Hfind.
  - intros output.
    assert (Hout : handleFunctionCall name arguments = Fulfilled output).
    { unfold handleFunctionCall, output. rewrite Hfind.
      destruct (JSON_parse arguments) as [args|]; [|done].
      by destruct (handler fnDef args). }
    split; [done|].
    apply (functionCallSettled_fulfilled p output w Hout).
  - intros message.
    assert (Hout : handleFunctionCall name arguments = Rejected message).
    { unfold handleFunctionCall. by rewrite Hfind. }
    split; [done|].
    unfold w', functionCallSettled, p. simpl pc_outcome. rewrite Hout.
    unfold with_callSid, tracked. cbn [pc_session pc_name].
    by destruct (truthy (callSid (deref session w))).
Qed.

(** ** Audio in both directions *)

(** X1. A media frame on an identified telephony connection sets the media
    clock of the session to the timestamp of the frame and, if the model
    link is open, sends the model exactly one [input_audio_buffer.append]
    with the payload of the frame; if the model link is not open the audio
    is dropped (nothing is queued for later).  No other socket changes and
    nothing is recorded in the call history. *)
Theorem media_frame_relayed userId ws key timestamp payload w s :
  session_of userId w = Some s -> userId <> EmptyString ->
  let w' := handleTwilioMessage (Some (TwMedia timestamp payload)) (Some userId)
              ws key w in
  sent_on (modelConn s) w' =
    sent_on (modelConn s) w ++
      (if isOpen (modelConn s) w then [InputAudioBufferAppend payload] else [])
  /\ (forall c, modelConn s <> Some c -> sockets w' !! c = sockets w !! c)
  /\ session_of userId w' = Some (set_latestMediaTimestamp (Some timestamp) s)
  /\ history w' = history w.
Proof.
  intros (l & Hl & Hs)%session_of_Some Hu w'. unfold w', handleTwilioMessage, identify.
  rewrite (truthy_nonempty _ Hu). simpl negb. cbv iota. simpl default. unfold route.
  rewrite (getUserSession_existing _ _ _ Hl).
  set (w1 := upd l (set_latestMediaTimestamp (Some timestamp)) w).
  assert (Hd : deref l w1 = set_latestMediaTimestamp (Some timestamp) s)
    by (unfold w1; by eval_session Hs).
  assert (Hs1 : session_of userId w1 = Some (set_latestMediaTimestamp (Some timestamp) s)).
  { apply (session_of_lookup _ _ l); [done|]. simpl. by rewrite list_lookup_alter_eq, Hs. }
  rewrite Hd. change (modelConn (set_latestMediaTimestamp (Some timestamp) s))
    with (modelConn s).
  change (isOpen (modelConn s) w1) with (isOpen (modelConn s) w).
  destruct (isOpen (modelConn s) w) eqn:Ho.
  - split; [|split; [|split]].
    + rewrite sent_on_jsonSend. change (isOpen (modelConn s) w1) with (isOpen (modelConn s) w).
      by rewrite Ho.
    + intros c Hc. by rewrite sockets_jsonSend_other.
    + exact Hs1.
    + done.
  - split; [|split; [|split]]; try done. by rewrite app_nil_r.
Qed.

(** X2. On a telephony connection that has not been identified, anything
    but a [start] is ignored: a media frame, a [stop], a [close], an
    unknown event or a message that does not parse leaves the whole world
    as it is. *)
Theorem unidentified_messages_dropped ws key data w :
  socket_listeners ws w = Some (anonymous_listeners key) ->
  (forall call stream from, data <> OfTwilio (Some (TwStart call stream from))) ->
  step (Message ws data) w = w.
Proof.
  intros Hls Hd. unfold step. rewrite (emit_listeners _ _ _ _ _ Hls).
  unfold anonymous_listeners. cbn [foldl fst snd eqb_event run_listener].
  destruct data as [[msg|]| |]; try done.
  destruct msg as [call stream from| | | |]; try done.
  by destruct (Hd call stream from).
Qed.

(** X25. A telephony connection that was never identified goes away
    without a trace: its close event only marks the socket closed, and
    changes no session, registration, timer, pending tool call or history
    entry, nor any other socket. *)
Theorem unidentified_connection_goes_away ws key w :
  socket_listeners ws w = Some (anonymous_listeners key) ->
  unclosed ws w ->
  step (Closed ws) w = set_sockets (alter (set_readyState CLOSED) ws (sockets w)) w.
Proof.
  intros Hls (k & Hk & Hst). unfold step. rewrite Hk. simpl.
  rewrite (emit_listeners ws EvClose None _ (anonymous_listeners key)).
  - by destruct (readyState k).
  - unfold socket_listeners in *. simpl. rewrite <- Hls. by apply listeners_alter.
Qed.

Lemma sent_on_jsonSend_other c ws obj w :
  ws <> Some c -> sent_on (Some c) (jsonSend ws obj w) = sent_on (Some c) w.
Proof.
  intros Hne.
  change (default [] (sent <$> sockets (jsonSend ws obj w) !! c)
          = default [] (sent <$> sockets w !! c)).
  by rewrite sockets_jsonSend_other.
Qed.

(** X3. An audio delta of the model records nothing in the call history.
    When the session has a telephony link and a stream id, the telephony
    link is sent, if it is open, the audio as a [media] frame followed by a
    [mark], both with the stream id; the start of the response is stamped
    with the media clock (or 0) only if no start is recorded, so that the
    deltas after the first keep the stamp of the first; and the assistant
    item is replaced only by an item id that is not empty.  Without a
    telephony link or stream id the session stays as it is and only the
    observer link can have been sent something. *)
Theorem audio_delta_forwarded item delta userId w s :
  session_of userId w = Some s ->
  (forall c, frontendConn s = Some c -> twilioConn s <> Some c) ->
  let w' := handleModelMessage (Some (ResponseAudioDelta item delta)) userId w in
  history w' = history w
  /\ if defined (twilioConn s) && truthy (streamSid s)
     then
       sent_on (twilioConn s) w' =
         sent_on (twilioConn s) w ++
           (if isOpen (twilioConn s) w
            then [TwilioMedia (default EmptyString (streamSid s)) delta;
                  TwilioMark (default EmptyString (streamSid s))]
            else [])
       /\ exists s', session_of userId w' = Some s'
            /\ responseStartTimestamp s' =
                 Some (match responseStartTimestamp s with
                       | Some start => start
                       | None => or_zero (latestMediaTimestamp s)
                       end)
            /\ lastAssistantItem s' = (if truthy item then item else lastAssistantItem s)
     else
       session_of userId w' = Some s
       /\ (forall c, frontendConn s <> Some c -> sockets w' !! c = sockets w !! c).
Proof.
  intros (l & Hl & Hs)%session_of_Some Hft w'.
  unfold w', handleModelMessage.
  rewrite (getUserSession_existing _ _ _ Hl), (deref_Some _ _ _ Hs).
  set (w1 := jsonSend (frontendConn s) (FromModel (ResponseAudioDelta item delta)) w).
  assert (Hs1 : heap w1 !! l = Some s) by done.
  rewrite (deref_Some _ _ _ Hs1).
  destruct (defined (twilioConn s) && truthy (streamSid s)) eqn:Hc.
  2:{ split; [done|]. split; [by apply (session_of_lookup _ _ l)|].
      intros c Hf. by apply sockets_jsonSend_other. }
  destruct (twilioConn s) as [t|] eqn:Ht; [|done].
  assert (Hf : frontendConn s <> Some t) by (intros Hf; by apply (Hft t Hf)).
  assert (Hd : forall a b W, deref l (jsonSend a b W) = deref l W) by done.
  rewrite !Hd.
  match goal with |- context [jsonSend (twilioConn (deref l ?W0)) _ ?W0] =>
    set (W := W0)
  end.
  assert (exists s', heap W !! l = Some s'
            /\ twilioConn s' = Some t /\ streamSid s' = streamSid s
            /\ responseStartTimestamp s' =
                 Some (match responseStartTimestamp s with
                       | Some start => start
                       | None => or_zero (latestMediaTimestamp s)
                       end)
            /\ lastAssistantItem s' = (if truthy item then item else lastAssistantItem s))
    as (s' & Hs' & Ht' & Hsid' & Hrst' & Hitem').
  { unfold W, w1. destruct (responseStartTimestamp s) eqn:Hr, (truthy item);
      eexists; (split; [by eval_session Hs|]); simpl; auto. }
  assert (HsW : sockets W = sockets w1) by (unfold W; by repeat case_match).
  assert (HhW : history W = history w) by (unfold W; by repeat case_match).
  rewrite (deref_Some _ _ _ Hs'), Ht', Hsid'.
  split; [done|]. split.
  - rewrite !sent_on_jsonSend, isOpen_jsonSend.
    assert (sent_on (Some t) W = sent_on (Some t) w) as ->.
    { unfold sent_on at 1. rewrite HsW. by apply sent_on_jsonSend_other. }
    assert (isOpen (Some t) W = isOpen (Some t) w) as ->.
    { unfold isOpen at 1. rewrite HsW. apply isOpen_jsonSend. }
    destruct (isOpen (Some t) w); by rewrite <- ?app_assoc, ?app_nil_r.
  - exists s'. split; [|done]. apply (session_of_lookup _ _ l); [|exact Hs'].
    change (userSessions W !! userId = Some l). unfold W. by repeat case_match.
Qed.

(** X4. Every event of the model, whatever its type, is mirrored to the
    observer: the observer link is sent exactly that event if it is open
    and nothing otherwise, and apart from the observer link and the
    telephony link no socket changes (in particular nothing goes back to
    the model link). *)
Theorem model_event_mirrored event userId w s :
  session_of userId w = Some s ->
  (forall c, frontendConn s = Some c -> twilioConn s <> Some c) ->
  let w' := handleModelMessage (Some event) userId w in
  sent_on (frontendConn s) w' =
    sent_on (frontendConn s) w ++
      (if isOpen (frontendConn s) w then [FromModel event] else [])
  /\ (forall c, frontendConn s <> Some c -> twilioConn s <> Some c ->
        sockets w' !! c = sockets w !! c).
Proof.
  intros (l & Hl & Hs)%session_of_Some Hft w'.
  set (w1 := jsonSend (frontendConn s) (FromModel event) w).
  assert (Hs1 : heap w1 !! l = Some s) by done.
  assert (HA : forall c, twilioConn s <> Some c -> sockets w' !! c = sockets w1 !! c).
  { intros c Hc. unfold w', handleModelMessage.
    rewrite (getUserSession_existing _ _ _ Hl), (deref_Some _ _ _ Hs). fold w1.
    destruct event as [| | item delta | | [content| |] | ]; try done.
    - by destruct (truthy _).
    - rewrite (deref_Some _ _ _ Hs1).
      destruct (defined (twilioConn s) && truthy (streamSid s)); [|done].
      assert (Hd : forall a b W, deref l (jsonSend a b W) = deref l W) by done.
      destruct (responseStartTimestamp s), (truthy item); rewrite !Hd;
        match goal with |- context [jsonSend (twilioConn (deref l ?W0)) _ ?W0] =>
          assert (twilioConn (deref l W0) = twilioConn s) as -> by (unfold w1; by eval_session Hs)
        end; by rewrite !sockets_jsonSend_other.
    - by destruct (_ && _).
    - destruct content; [|done]. by destruct (truthy _). }
  split.
  - rewrite <- sent_on_jsonSend. fold w1.
    destruct (frontendConn s) as [f|] eqn:Hf; [|done].
    unfold sent_on. simpl. by rewrite (HA f (Hft f eq_refl)).
  - intros c Hf Ht. rewrite (HA c Ht). by apply sockets_jsonSend_other.
Qed.

(** ** Barge-in, once *)

(** After the barge-in action the session of the user is registered and has
    no assistant item, or no start the action would act upon. *)
Lemma handleTruncation_settled userId w :
  let w' := handleTruncation userId w in
  exists l, userSessions w' !! userId = Some l
    /\ (truthy (lastAssistantItem (deref l w')) = false
        \/ truthy_num (responseStartTimestamp (deref l w')) = false).
Proof.
  simpl. unfold handleTruncation.
  destruct (getUserSession userId w) as [l w0] eqn:E.
  assert (Hl : userSessions w0 !! userId = Some l).
  { revert E. unfold getUserSession. destruct (userSessions w !! userId) eqn:Hu.
    - by intros [= <- <-].
    - intros [= <- <-]. simpl. apply lookup_insert_eq. }
  destruct (truthy (lastAssistantItem (deref l w0))) eqn:Hi; simpl negb; cbv iota;
    [|exists l; auto].
  destruct (truthy_num (responseStartTimestamp (deref l w0))) eqn:Ht; simpl negb; cbv iota;
    [|exists l; auto].
  exists l. split; [done|]. left. unfold deref. simpl.
  rewrite list_lookup_alter_eq. simpl. rewrite list_lookup_alter_eq.
  by destruct (heap w0 !! l).
Qed.

(** The barge-in action neither reads nor writes the pending timers. *)
Lemma handleTruncation_set_timers userId t w :
  handleTruncation userId (set_timers t w) = set_timers t (handleTruncation userId w).
Proof.
  unfold handleTruncation, getUserSession. simpl.
  destruct (userSessions w !! userId) as [l|]; simpl.
  - change (deref l (set_timers t w)) with (deref l w).
    repeat case_match; reflexivity.
  - match goal with |- context [deref ?l (set_userSessions ?m (set_heap ?h (set_timers t w)))] =>
      change (deref l (set_userSessions m (set_heap h (set_timers t w))))
        with (deref l (set_userSessions m (set_heap h w)))
    end.
    repeat case_match; reflexivity.
Qed.

Lemma set_timers_timers w : set_timers (timers w) w = w.
Proof. by destruct w. Qed.

(** Timers that fire in a row for a user whose barge-in has run already. *)
Lemma timers_after_truncation userId n w rest :
  handleTruncation userId w = w ->
  timers w = replicate n userId ++ rest ->
  run (replicate n TimerFired) w = set_timers rest w.
Proof.
  revert w. induction n as [|n IH]; intros w Hfix Ht; simpl in *.
  - by rewrite <- Ht, set_timers_timers.
  - rewrite Ht, handleTruncation_set_timers, Hfix.
    rewrite (IH (set_timers (replicate n userId ++ rest) w)); [done| |done].
    by rewrite handleTruncation_set_timers, Hfix.
Qed.

(** X5. The barge-in action is idempotent: run again right after it has
    run, it changes nothing.  Hence timers for one user that fire in a row,
    with no other event in between, have the effect of the first alone:
    the action runs once and the timers are used up.  (Nothing is said
    about timers with other events in between: an audio delta records an
    item and a start again.) *)
Theorem handleTruncation_idempotent userId w :
  handleTruncation userId (handleTruncation userId w) = handleTruncation userId w
  /\ forall n rest,
       timers w = replicate (S n) userId ++ rest ->
       run (replicate (S n) TimerFired) w = set_timers rest (handleTruncation userId w).
Proof.
  assert (Hidem : handleTruncation userId (handleTruncation userId w)
                  = handleTruncation userId w).
  { destruct (handleTruncation_settled userId w) as (l & Hl & Hor).
    set (w' := handleTruncation userId w) in *.
    unfold handleTruncation. rewrite (getUserSession_existing _ _ _ Hl).
    destruct Hor as [-> | Hor]; [done|]. rewrite Hor. by destruct (truthy _). }
  split; [exact Hidem|]. intros n rest Ht.
  change (run (replicate (S n) TimerFired) w)
    with (run (replicate n TimerFired) (step TimerFired w)).
  assert (Hstep : step TimerFired w
                  = handleTruncation userId (set_timers (replicate n userId ++ rest) w))
    by (unfold step; by rewrite Ht).
  rewrite Hstep, handleTruncation_set_timers.
  rewrite (timers_after_truncation userId n _ rest); [done| |done].
  by rewrite handleTruncation_set_timers, Hidem.
Qed.

(** ** The model link and the saved configuration *)

Lemma on_fresh (ss : list WebSocket) (k : WebSocket) ev l :
  alter (fun k => set_listeners (listeners k ++ [(ev, l)]) k) (length ss) (ss ++ [k])
  = ss ++ [set_listeners (listeners k ++ [(ev, l)]) k].
Proof. rewrite <- (Nat.add_0_r (length ss)). by rewrite alter_app_r. Qed.

(** X6. [tryConnectModel] either does nothing or opens exactly one socket.
    With a telephony link, a stream id and an API key, and a model link
    that is not open, it appends one connecting socket with the four model
    listeners and makes it the model link; every socket that existed,
    among them a former model socket that is still connecting or closing,
    stays as it was.  In every other case the world is unchanged. *)
Theorem tryConnectModel_connects userId w s :
  session_of userId w = Some s ->
  let w' := tryConnectModel userId w in
  if defined (twilioConn s) && truthy (streamSid s) && truthy (openAIApiKey s)
     && negb (isOpen (modelConn s) w)
  then
    exists l, userSessions w !! userId = Some l
      /\ sockets w' =
           sockets w ++
             [{| readyState := CONNECTING; sent := [];
                 listeners :=
                   [(EvOpen, ModelOpened userId l); (EvMessage, OnModelMessage userId);
                    (EvError, ModelFailed userId); (EvClose, ModelClosed userId)] |}]
      /\ session_of userId w' = Some (set_modelConn (Some (length (sockets w))) s)
  else w' = w.
Proof.
  intros (l & Hl & Hs)%session_of_Some w'. unfold w', tryConnectModel.
  rewrite (getUserSession_existing _ _ _ Hl), (deref_Some _ _ _ Hs).
  destruct (defined (twilioConn s)); [|done].
  destruct (truthy (streamSid s)); [|done].
  destruct (truthy (openAIApiKey s)); [|done].
  destruct (isOpen (modelConn s) w); [done|].
  simpl. exists l. split; [done|]. split.
  - by rewrite !on_fresh.
  - apply (session_of_lookup _ _ l); [done|]. simpl. by rewrite list_lookup_alter_eq, Hs.
Qed.

(** X24. A message of the observer is forwarded as it is to the model link
    if that link is open, and dropped otherwise; no other socket changes
    and nothing is recorded in the call history.  Whether or not it was
    forwarded, a [session.update] replaces the saved configuration of the
    session by the [session] field of the message, and a message of any
    other type leaves the session as it is. *)
Theorem frontend_message_forwarded msg userId w s :
  session_of userId w = Some s ->
  let w' := handleFrontendMessage (Some msg) userId w in
  sent_on (modelConn s) w' =
    sent_on (modelConn s) w ++ (if isOpen (modelConn s) w then [FromFrontend msg] else [])
  /\ (forall c, modelConn s <> Some c -> sockets w' !! c = sockets w !! c)
  /\ session_of userId w' =
       Some (if String.eqb (msg_type msg) "session.update"
             then set_saved_config (msg_session msg) s else s)
  /\ history w' = history w.
Proof.
  intros (l & Hl & Hs)%session_of_Some w'. unfold w', handleFrontendMessage.
  rewrite (getUserSession_existing _ _ _ Hl), (deref_Some _ _ _ Hs).
  set (w1 := if isOpen (modelConn s) w
             then jsonSend (modelConn s) (FromFrontend msg) w else w).
  assert (Hsent : sent_on (modelConn s) w1 =
            sent_on (modelConn s) w
              ++ (if isOpen (modelConn s) w then [FromFrontend msg] else [])).
  { unfold w1. destruct (isOpen (modelConn s) w) eqn:Ho.
    - by rewrite sent_on_jsonSend, Ho.
    - by rewrite app_nil_r. }
  assert (Hother : forall c, modelConn s <> Some c -> sockets w1 !! c = sockets w !! c).
  { intros c Hc. unfold w1. destruct (isOpen (modelConn s) w); [|done].
    by apply sockets_jsonSend_other. }
  assert (Hh1 : heap w1 = heap w /\ userSessions w1 = userSessions w
                /\ history w1 = history w).
  { unfold w1. by destruct (isOpen (modelConn s) w). }
  destruct Hh1 as (Hheap & Hreg & Hhist).
  destruct (String.eqb (msg_type msg) "session.update").
  - split; [exact Hsent|]. split; [exact Hother|]. split; [|exact Hhist].
    apply (session_of_lookup _ _ l); [by rewrite <- Hreg in Hl|].
    simpl. by rewrite Hheap, list_lookup_alter_eq, Hs.
  - split; [exact Hsent|]. split; [exact Hother|]. split; [|exact Hhist].
    apply (session_of_lookup _ _ l); [by rewrite Hreg|by rewrite Hheap].
Qed.

(** X7. A [session.update] of the observer that arrives while the model
    link is still connecting is not forwarded, but it is saved, and when the
    model socket opens the model is sent one [session.update] in which each
    saved key overrides the default of that key and every other default is
    present. *)
Theorem saved_config_applied userId l s m cfg w :
  userSessions w !! userId = Some l -> heap w !! l = Some s ->
  modelConn s = Some m ->
  state_of (Some m) (sockets w) = Some CONNECTING ->
  socket_listeners m w =
    Some [(EvOpen, ModelOpened userId l); (EvMessage, OnModelMessage userId);
          (EvError, ModelFailed userId); (EvClose, ModelClosed userId)] ->
  let msg := {| msg_type := "session.update"; msg_session := cfg |} in
  let w1 := handleFrontendMessage (Some msg) userId w in
  let w2 := step (Opened m) w1 in
  let session := default ∅ cfg ∪ default_config in
  sent_on (Some m) w1 = sent_on (Some m) w
  /\ sent_on (Some m) w2 = sent_on (Some m) w ++ [SessionUpdate session]
  /\ (forall k v, default ∅ cfg !! k = Some v -> session !! k = Some v)
  /\ (forall k, default ∅ cfg !! k = None -> session !! k = default_config !! k).
Proof.
  intros Hl Hs Hm Hst Hls msg w1 w2 session.
  assert (Hopen : isOpen (Some m) w = false) by (unfold isOpen; by rewrite Hst).
  assert (Hw1 : w1 = upd l (set_saved_config cfg) w).
  { unfold w1, handleFrontendMessage. rewrite (getUserSession_existing _ _ _ Hl).
    by rewrite (deref_Some _ _ _ Hs), Hm, Hopen. }
  split; [by rewrite Hw1|]. split; [|split].
  - unfold w2, step. rewrite Hw1.
    change (sockets (upd l (set_saved_config cfg) w)) with (sockets w).
    unfold state_of in Hst. simpl in Hst. rewrite Hst.
    set (W := set_sockets _ _).
    assert (HlsW : socket_listeners m W = socket_listeners m w).
    { unfold socket_listeners, W. simpl. by apply listeners_alter. }
    rewrite (emit_listeners m EvOpen None W _ (eq_trans HlsW Hls)).
    cbn [foldl fst snd eqb_event run_listener]. unfold modelOpened.
    assert (Hd : deref l W = set_saved_config cfg s) by (unfold W; by eval_session Hs).
    rewrite Hd. simpl saved_config. simpl modelConn. rewrite Hm, sent_on_jsonSend.
    assert (isOpen (Some m) W = true) as ->.
    { unfold isOpen, state_of, W. simpl. rewrite list_lookup_alter_eq.
      by destruct (sockets w !! m). }
    f_equal. unfold sent_on, W. simpl. rewrite list_lookup_alter_eq.
    by destruct (sockets w !! m).
  - intros k v Hk. by apply lookup_union_Some_l.
  - intros k Hk. by apply lookup_union_r.
Qed.

(** ** Links that are live, closing or replaced *)

Lemma live_cleanupConnection c w : live c (cleanupConnection c w) = false.
Proof.
  unfold live, cleanupConnection, state_of. destruct c as [c|]; simpl; [|done].
  destruct (sockets w !! c) as [k|] eqn:Hk; simpl; [|by rewrite Hk].
  destruct (readyState k) eqn:Hr; simpl;
    rewrite ?list_lookup_alter_eq, Hk; simpl; unfold ws_close; by rewrite Hr.
Qed.

Lemma live_cleanupConnection_mono c c' w :
  live c w = false -> live c (cleanupConnection c' w) = false.
Proof.
  intros Hc. unfold cleanupConnection.
  assert (Ha : forall n, live c (set_sockets (alter ws_close n (sockets w)) w) = false).
  { intros n. revert Hc. unfold live, state_of. destruct c as [c|]; simpl; [|done].
    rewrite list_lookup_alter. case_decide; [subst n|done].
    destruct (sockets w !! c) as [k|]; simpl; [|done].
    unfold ws_close. by destruct (readyState k) eqn:Hr; simpl; rewrite ?Hr. }
  destruct c' as [c'|]; [|done].
  destruct (state_of (Some c') (sockets w)) as [[]|]; try done; apply Ha.
Qed.

Lemma state_of_cleanupConnection_live c w :
  live (Some c) w = true ->
  state_of (Some c) (sockets (cleanupConnection (Some c) w)) = Some CLOSING.
Proof.
  unfold live, cleanupConnection, state_of. simpl.
  destruct (sockets w !! c) as [k|] eqn:Hk; simpl; [|done].
  destruct (readyState k) eqn:Hr; simpl; try done;
    rewrite list_lookup_alter_eq, Hk; simpl; unfold ws_close; by rewrite Hr.
Qed.

Lemma state_of_cleanupConnection_other c c' w :
  c' <> Some c ->
  state_of (Some c) (sockets (cleanupConnection c' w)) = state_of (Some c) (sockets w).
Proof.
  intros Hne. unfold cleanupConnection. destruct c' as [c'|]; [|done].
  destruct (state_of (Some c') (sockets w)) as [[]|]; try done;
    unfold state_of; simpl; rewrite list_lookup_alter_ne; congruence.
Qed.

Lemma live_set_readyState_other c ws r w :
  ws <> c ->
  live (Some c) (set_sockets (alter (set_readyState r) ws (sockets w)) w) = live (Some c) w.
Proof. intros Hne. unfold live, state_of. simpl. by rewrite list_lookup_alter_ne. Qed.

Lemma state_of_on c ws ev l w :
  state_of c (sockets (on ws ev l w)) = state_of c (sockets w).
Proof.
  unfold state_of, on. destruct c as [c|]; simpl; [|done].
  rewrite list_lookup_alter. case_decide; [subst|done]. by destruct (sockets w !! c).
Qed.

Lemma closing_cleanupConnection c c' w :
  state_of (Some c) (sockets w) = Some CLOSING ->
  state_of (Some c) (sockets (cleanupConnection c' w)) = Some CLOSING.
Proof.
  intros Hc. unfold cleanupConnection.
  destruct c' as [c'|]; [|done].
  destruct (state_of (Some c') (sockets w)) as [[]|]; try done; simpl;
    revert Hc; unfold state_of; simpl; rewrite list_lookup_alter;
    (case_decide; [subst c'|done]);
    (destruct (sockets w !! c) as [k|]; simpl; [|done]);
    intros [= Hr]; unfold ws_close; rewrite Hr; simpl; by rewrite Hr.
Qed.

Lemma live_or_closing_cleanupConnection c c' w :
  live (Some c) w = true ->
  live (Some c) (cleanupConnection c' w) = true
  \/ state_of (Some c) (sockets (cleanupConnection c' w)) = Some CLOSING.
Proof.
  intros Hc. destruct (decide (c' = Some c)) as [->|Hne].
  - right. by apply state_of_cleanupConnection_live.
  - left. revert Hc. unfold cleanupConnection.
    destruct c' as [c'|]; [|done].
    destruct (state_of (Some c') (sockets w)) as [[]|]; try done;
      unfold live, state_of; simpl; rewrite list_lookup_alter_ne; congruence.
Qed.

(** The close event of a socket that is not closed yet: the socket becomes
    closed and its close listeners run. *)
Lemma step_Closed ws w ls :
  unclosed ws w -> socket_listeners ws w = Some ls ->
  step (Closed ws) w =
    foldl (fun w p => if eqb_event p.1 EvClose then run_listener ws None p.2 w else w)
      (set_sockets (alter (set_readyState CLOSED) ws (sockets w)) w) ls.
Proof.
  intros (k & Hk & Hst) Hls. unfold step. rewrite Hk. simpl.
  rewrite <- (emit_listeners ws EvClose None _ ls).
  - by destruct (readyState k).
  - unfold socket_listeners in *. simpl. rewrite <- Hls. by apply listeners_alter.
Qed.

Lemma callClosed_sockets l s w :
  heap w !! l = Some s ->
  sockets (callClosed l w) =
    sockets (cleanupConnection (twilioConn s) (cleanupConnection (modelConn s) w)).
Proof.
  intros Hs. unfold callClosed. eval_session Hs. by destruct (callType s) as [[]|].
Qed.

(** X8. A connection whose token yields a user id becomes the observer link
    of that user's session: the link the session had before is no longer
    live, the socket gets a message listener for the user and a close
    listener that captured the session object, its state is untouched
    (unless it already was the observer link), and no other field of the
    session changes. *)
Theorem observer_takes_over ws token userId w s :
  extractUserIdFromToken token = Some userId -> userId <> EmptyString ->
  session_of userId w = Some s ->
  let w' := handleFrontendConnection ws token w in
  exists l, userSessions w !! userId = Some l
    /\ session_of userId w' = Some (set_frontendConn (Some ws) s)
    /\ live (frontendConn s) w' = false
    /\ socket_listeners ws w' =
         (.++ [(EvMessage, OnFrontendMessage userId); (EvClose, FrontendClosed l)])
           <$> socket_listeners ws w
    /\ (frontendConn s <> Some ws ->
        state_of (Some ws) (sockets w') = state_of (Some ws) (sockets w)).
Proof.
  intros Hex Hu (l & Hl & Hs)%session_of_Some w'. exists l. split; [done|].
  unfold w', handleFrontendConnection. rewrite Hex, (truthy_nonempty _ Hu).
  simpl negb. cbv iota. simpl default.
  rewrite (getUserSession_existing _ _ _ Hl), (deref_Some _ _ _ Hs).
  set (W := cleanupConnection (frontendConn s) w).
  split; [|split; [|split]].
  - apply (session_of_lookup _ _ l); [done|]. simpl. by rewrite list_lookup_alter_eq, Hs.
  - unfold live. rewrite !state_of_on.
    change (live (frontendConn s) W = false). apply live_cleanupConnection.
  - rewrite socket_listeners_on, socket_listeners_on.
    change (socket_listeners ws (upd l (set_frontendConn (Some ws)) W))
      with (socket_listeners ws W).
    unfold W. rewrite socket_listeners_cleanupConnection.
    destruct (socket_listeners ws w); simpl; [|done]. by rewrite <- app_assoc.
  - intros Hne. rewrite !state_of_on.
    change (state_of (Some ws) (sockets W) = state_of (Some ws) (sockets w)).
    by apply state_of_cleanupConnection_other.
Qed.

(** X9. The close listener of an observer socket acts on whatever the
    observer link of the session is when it runs.  So when an observer that
    has been replaced finally closes, its successor, a different and live
    socket, is closed and the session is left without observer link. *)
Theorem replaced_observer_closes_successor ws userId l s f w :
  heap w !! l = Some s ->
  frontendConn s = Some f -> ws <> f -> live (Some f) w = true ->
  socket_listeners ws w =
    Some [(EvMessage, OnFrontendMessage userId); (EvClose, FrontendClosed l)] ->
  unclosed ws w ->
  let w' := step (Closed ws) w in
  state_of (Some f) (sockets w') = Some CLOSING
  /\ heap w' !! l = Some (set_frontendConn None s).
Proof.
  intros Hs Hf Hne Hlive Hls Hu w'. unfold w'. rewrite (step_Closed _ _ _ Hu Hls).
  simpl. unfold frontendClosed.
  set (W := set_sockets _ w).
  assert (HsW : heap W !! l = Some s) by done.
  rewrite (deref_Some _ _ _ HsW), Hf. split.
  - change (state_of (Some f) (sockets (cleanupConnection (Some f) W)) = Some CLOSING).
    apply state_of_cleanupConnection_live. unfold W. by rewrite live_set_readyState_other.
  - simpl. by rewrite list_lookup_alter_eq, Hs.
Qed.

(** X10. The error and close listeners of a model socket act on the model
    link the session has when they run, not on their own socket.  So when a
    former model socket errors or closes while the session has another,
    live model link, that link is closed and the session is left without
    model link. *)
Theorem stale_model_socket_closes_current_link ws userId l s m w e :
  userSessions w !! userId = Some l -> heap w !! l = Some s ->
  modelConn s = Some m -> ws <> m -> live (Some m) w = true ->
  socket_listeners ws w =
    Some [(EvOpen, ModelOpened userId l); (EvMessage, OnModelMessage userId);
          (EvError, ModelFailed userId); (EvClose, ModelClosed userId)] ->
  unclosed ws w ->
  e = Closed ws \/ e = Errored ws ->
  let w' := step e w in
  state_of (Some m) (sockets w') = Some CLOSING
  /\ session_of userId w' = Some (set_modelConn None s).
Proof.
  intros Hl Hs Hm Hne Hlive Hls Hu He w'.
  assert (exists W, w' = closeModel userId W /\ userSessions W = userSessions w
            /\ heap W = heap w /\ live (Some m) W = true) as (W & -> & HlW & HsW & HliveW).
  { destruct He as [-> | ->].
    - exists (set_sockets (alter (set_readyState CLOSED) ws (sockets w)) w).
      split; [unfold w'; by rewrite (step_Closed _ _ _ Hu Hls)|].
      split; [done|]. split; [done|]. by rewrite live_set_readyState_other.
    - exists w. split; [|done]. unfold w', step. by rewrite (emit_listeners _ _ _ _ _ Hls). }
  rewrite <- HlW in Hl. rewrite <- HsW in Hs.
  unfold closeModel. rewrite (getUserSession_existing _ _ _ Hl).
  rewrite (deref_Some _ _ _ Hs), Hm. split.
  - change (state_of (Some m) (sockets (cleanupConnection (Some m) W)) = Some CLOSING).
    by apply state_of_cleanupConnection_live.
  - apply (session_of_lookup _ _ l); [done|]. simpl. by rewrite list_lookup_alter_eq, Hs.
Qed.

(** X11. The close listener of an identified telephony socket acts on the
    session object it captured.  So when the socket of an earlier call
    closes while the session has another, live telephony link, that link
    and the model link are closed, the stream of the session is forgotten
    and the end of the call of the session is recorded. *)
Theorem stale_call_socket_ends_current_call ws userId key l s t w :
  heap w !! l = Some s ->
  twilioConn s = Some t -> ws <> t -> live (Some t) w = true ->
  socket_listeners ws w = Some (identified_listeners userId key l) ->
  unclosed ws w ->
  let w' := step (Closed ws) w in
  state_of (Some t) (sockets w') = Some CLOSING
  /\ live (modelConn s) w' = false
  /\ (exists s', heap w' !! l = Some s'
        /\ twilioConn s' = None /\ modelConn s' = None /\ streamSid s' = None)
  /\ history w' =
       history w ++
         (if truthy (callSid s) then [EndCallTracking (default EmptyString (callSid s))]
          else []).
Proof.
  intros Hs Ht Hne Hlive Hls Hu w'. unfold w'. rewrite (step_Closed _ _ _ Hu Hls).
  unfold identified_listeners. cbn [foldl fst snd eqb_event run_listener].
  set (W := set_sockets _ w).
  assert (HsW : heap W !! l = Some s) by done.
  assert (HliveW : live (Some t) W = true) by (unfold W; by rewrite live_set_readyState_other).
  destruct (callClosed_session W l s HsW)
    as (s' & Hs' & _ & ? & ? & ? & _ & _ & _ & Hh).
  split; [|split; [|split]].
  - rewrite (callClosed_sockets l s W HsW), Ht.
    destruct (live_or_closing_cleanupConnection t (modelConn s) W HliveW) as [Hl1|Hc1].
    + by apply state_of_cleanupConnection_live.
    + by apply closing_cleanupConnection.
  - unfold live. rewrite (callClosed_sockets l s W HsW).
    apply (live_cleanupConnection_mono (modelConn s) (twilioConn s)
             (cleanupConnection (modelConn s) W)), live_cleanupConnection.
  - by exists s'.
  - exact Hh.
Qed.

(** ** Deleting a session *)

(** X12. [deleteUserSession] leaves none of the three links of the session
    live and removes the session of that user from the registry, and that
    is all: the sessions of other users, the Call SID registrations (also
    those of the deleted user), the call history and the listeners of every
    socket are as before. *)
Theorem deleteUserSession_closes_links userId w s :
  session_of userId w = Some s ->
  let w' := deleteUserSession userId w in
  session_of userId w' = None
  /\ has_live_link s w' = false
  /\ (forall u, u <> userId -> session_of u w' = session_of u w)
  /\ callSidToUserId w' = callSidToUserId w
  /\ history w' = history w
  /\ (forall ws, socket_listeners ws w' = socket_listeners ws w).
Proof.
  intros (l & Hl & Hs)%session_of_Some w'. unfold w', deleteUserSession. rewrite Hl.
  assert (Hd : forall c W, deref l (cleanupConnection c W) = deref l W) by done.
  rewrite !Hd, (deref_Some _ _ _ Hs).
  split; [|split; [|split; [|split; [|split]]]]; try done.
  - unfold session_of. simpl. by rewrite lookup_delete_eq.
  - unfold has_live_link.
    match goal with |- context [live _ (set_userSessions ?m ?W)] =>
      change (live (twilioConn s) W || live (modelConn s) W || live (frontendConn s) W = false)
    end.
    rewrite live_cleanupConnection.
    rewrite (live_cleanupConnection_mono (frontendConn s)) by apply live_cleanupConnection.
    rewrite (live_cleanupConnection_mono (twilioConn s)); [done|].
    apply live_cleanupConnection_mono, live_cleanupConnection.
  - intros u Hu. unfold session_of. simpl. by rewrite lookup_delete_ne.
  - intros ws. 
    match goal with |- socket_listeners ws (set_userSessions ?m ?W) = _ =>
      change (socket_listeners ws W = socket_listeners ws w)
    end.
    by rewrite !socket_listeners_cleanupConnection.
Qed.

Lemma route_start_untyped call stream from w userId l s :
  userSessions w !! userId = Some l -> heap w !! l = Some s ->
  callType s = None -> call <> EmptyString ->
  exists s',
    heap (route (TwStart call stream from) userId w) !! l = Some s'
    /\ userSessions (route (TwStart call stream from) userId w) = userSessions w
    /\ history (route (TwStart call stream from) userId w) =
         history w ++ [StartCallTracking call userId (or_else from "unknown") inbound]
    /\ streamSid s' = Some stream
    /\ twilioConn s' = twilioConn s
    /\ callType s' = Some inbound
    /\ callSid s' = Some call
    /\ outboundCallStatus s' = outboundCallStatus s.
Proof.
  intros Hl Hs Hct Hcall. unfold route. rewrite (getUserSession_existing _ _ _ Hl).
  rewrite (truthy_nonempty _ Hcall). eval_session Hs. rewrite Hct.
  match goal with |- context [tryConnectModel userId ?W] =>
    edestruct (tryConnectModel_session userId W l) as (mc & Hh & -> & _ & ->);
      [done|by simpl; rewrite !list_lookup_alter_eq, Hs|]
  end.
  eexists. split; [exact Hh|]. by simpl.
Qed.

Lemma start_without_session userId call stream from ws key w :
  getUserIdByCallSid call w = Some userId ->
  userId <> EmptyString -> call <> EmptyString ->
  userSessions w !! userId = None ->
  let w' := handleTwilioMessage (Some (TwStart call stream from)) None ws key w in
  exists s', session_of userId w' = Some s'
    /\ callType s' = Some inbound
    /\ callSid s' = Some call
    /\ outboundCallStatus s' = None
    /\ twilioConn s' = Some ws
    /\ streamSid s' = Some stream
    /\ history w' =
         history w ++ [StartCallTracking call userId (or_else from "unknown") inbound].
Proof.
  intros Hc Hu Hcall Hnone w'.
  set (l := length (heap w)).
  set (w0 := set_userSessions (<[userId := l]> (userSessions w))
               (set_heap (heap w ++ [new_session userId]) w)).
  assert (Hl0 : userSessions w0 !! userId = Some l) by apply lookup_insert_eq.
  assert (Hs0 : heap w0 !! l = Some (new_session userId)) by apply list_lookup_middle, eq_refl.
  assert (Hid : identify (TwStart call stream from) None ws key w
                = identify (TwStart call stream from) None ws key w0).
  { unfold identify. simpl truthy. cbv iota.
    change (getUserIdByCallSid call w0) with (getUserIdByCallSid call w).
    rewrite Hc, (truthy_nonempty _ Hu). simpl negb. cbv iota. simpl default.
    rewrite (getUserSession_existing _ _ _ Hl0).
    unfold getUserSession. by rewrite Hnone. }
  unfold w', handleTwilioMessage. rewrite Hid.
  destruct (identify_found call stream from ws key w0 userId l (new_session userId)
              Hl0 Hs0 Hc Hu)
    as (w1 & s1 & -> & Hreg & _ & Hs1 & Htw & Hct1 & Hsid1 & Hst1 & Hh1).
  rewrite (truthy_nonempty _ Hu). simpl negb. cbv iota. simpl default.
  destruct (route_start_untyped call stream from w1 userId l s1) as
    (s2 & Hs2 & Hreg2 & Hh2 & ? & ? & ? & ? & ?);
    [by rewrite Hreg|done|done|done|].
  exists s2. split; [apply (session_of_lookup _ _ l); [by rewrite Hreg2, Hreg|done]|].
  rewrite Hh2, Hh1. simpl in *. rewrite app_nil_r. repeat split; try done; congruence.
Qed.

(** X13. A registration outlives the session.  When the session of a user
    is deleted and a [start] then arrives for a Call SID registered to that
    user, a new session is made and the call is taken for an inbound one:
    it gets [callType = inbound] and no outbound status, and call tracking
    is started a second time, as inbound, even if the Call SID was
    registered for an outbound call. *)
Theorem start_after_delete_is_inbound userId call stream from ws key w :
  getUserIdByCallSid call w = Some userId ->
  userId <> EmptyString -> call <> EmptyString ->
  let w' := handleTwilioMessage (Some (TwStart call stream from)) None ws key
              (deleteUserSession userId w) in
  exists s', session_of userId w' = Some s'
    /\ callType s' = Some inbound
    /\ callSid s' = Some call
    /\ outboundCallStatus s' = None
    /\ twilioConn s' = Some ws
    /\ streamSid s' = Some stream
    /\ history w' =
         history w ++ [StartCallTracking call userId (or_else from "unknown") inbound].
Proof.
  intros Hc Hu Hcall.
  destruct (deleteUserSession_registry userId w) as [Hregs Hsess].
  assert (Hh : history (deleteUserSession userId w) = history w).
  { unfold deleteUserSession. by destruct (userSessions w !! userId). }
  rewrite <- Hh. apply start_without_session; try done.
  - unfold getUserIdByCallSid. by rewrite Hregs.
  - rewrite Hsess. apply lookup_delete_eq.
Qed.

(** ** One user, one session object *)

Lemma getUserSession_only_session userId w :
  only_session (getUserSession userId w).1 userId w (getUserSession userId w).2.
Proof.
  unfold getUserSession. destruct (userSessions w !! userId) as [l|] eqn:Hu; simpl.
  - by split.
  - split; [apply lookup_insert_eq|]. intros l' Hl'.
    destruct (decide (l' < length (heap w))%nat).
    + by apply lookup_app_l.
    + simpl in Hl'. rewrite (lookup_ge_None_2 (heap w)) by lia.
      apply lookup_ge_None_2. simpl. rewrite length_app. simpl. lia.
Qed.

Lemma only_session_upd l userId w w' f :
  only_session l userId w w' -> only_session l userId w (upd l f w').
Proof.
  intros [Hu Hh]. split; [done|]. intros l' Hl'. simpl.
  rewrite list_lookup_alter_ne by done. by apply Hh.
Qed.

Lemma only_session_getUserSession l userId w w' l2 w2 :
  only_session l userId w w' -> getUserSession userId w' = (l2, w2) -> l2 = l /\ w2 = w'.
Proof. intros [Hu _]. rewrite (getUserSession_existing _ _ _ Hu). by intros [= <- <-]. Qed.

Ltac only_frame :=
  lazymatch goal with
  | |- only_session ?l _ _ (upd ?l _ _) => apply only_session_upd
  | |- only_session ?l ?u ?w (jsonSend _ _ ?w') => change (only_session l u w w')
  | |- only_session ?l ?u ?w (cleanupConnection _ ?w') => change (only_session l u w w')
  | |- only_session ?l ?u ?w (on _ _ _ ?w') => change (only_session l u w w')
  | |- only_session ?l ?u ?w (startCallTracking _ _ _ _ ?w') => change (only_session l u w w')
  | |- only_session ?l ?u ?w (with_callSid _ _ ?w') => change (only_session l u w w')
  | |- only_session ?l ?u ?w (setTimeout _ ?w') => change (only_session l u w w')
  | |- only_session ?l ?u ?w (set_sockets _ ?w') => change (only_session l u w w')
  | |- only_session ?l ?u ?w (set_promises _ ?w') => change (only_session l u w w')
  end.

Ltac only_with sub :=
  repeat first
    [ assumption
    | only_frame
    | sub
    | lazymatch goal with
      | |- only_session ?l ?u ?w (let '(_, _) := getUserSession ?u ?W in _) =>
          let E := fresh "E" in
          destruct (getUserSession u W) as [? ?] eqn:E;
          apply (only_session_getUserSession l u w) in E;
          [destruct E as [-> ->]|only_with sub]
      | |- only_session _ _ _ (let '(_, _) := new_WebSocket _ in _) =>
          unfold new_WebSocket; cbv beta iota zeta
      | |- only_session _ _ _ (match ?x with _ => _ end) => destruct x
      end ].

Lemma tryConnectModel_only_session l userId w w' :
  only_session l userId w w' -> only_session l userId w (tryConnectModel userId w').
Proof. intros Hw. unfold tryConnectModel. only_with fail. Qed.

(** X14. The handlers that run for one user change the session object of
    that user only: every other session object is the same before and
    after a telephony message on a connection identified for the user, an
    observer message, a model event, the barge-in action and
    [closeModel]. *)
Theorem handlers_touch_one_session userId w l' :
  userId <> EmptyString ->
  l' <> (getUserSession userId w).1 ->
  (forall data ws key,
     heap (handleTwilioMessage data (Some userId) ws key w) !! l' = heap w !! l')
  /\ (forall data, heap (handleFrontendMessage data userId w) !! l' = heap w !! l')
  /\ (forall data, heap (handleModelMessage data userId w) !! l' = heap w !! l')
  /\ heap (handleTruncation userId w) !! l' = heap w !! l'
  /\ heap (closeModel userId w) !! l' = heap w !! l'.
Proof.
  intros Hu Hl'. pose proof (getUserSession_only_session userId w) as Hg.
  destruct (getUserSession userId w) as [l w0] eqn:E. simpl in Hg, Hl'.
  assert (Hend : forall w', only_session l userId w w' -> heap w' !! l' = heap w !! l')
    by (intros w' [_ Hh]; by apply Hh).
  split; [|split; [|split; [|split]]].
  - intros data ws key. destruct data as [msg|]; [|done]. apply Hend.
    unfold handleTwilioMessage.
    assert (identify msg (Some userId) ws key w = Continue (Some userId) w) as ->.
    { unfold identify. destruct msg; try done. by rewrite (truthy_nonempty _ Hu). }
    rewrite (truthy_nonempty _ Hu). simpl negb. cbv iota. simpl default.
    unfold route. rewrite E.
    only_with ltac:(apply tryConnectModel_only_session).
  - intros data. apply Hend. unfold handleFrontendMessage. rewrite E. only_with fail.
  - intros data. apply Hend. unfold handleModelMessage. rewrite E. only_with fail.
  - apply Hend. unfold handleTruncation. rewrite E. only_with fail.
  - apply Hend. unfold closeModel. rewrite E. only_with fail.
Qed.

Lemma registry_keyed_upd l f w :
  (forall s, userId (f s) = userId s) ->
  registry_keyed w -> registry_keyed (upd l f w).
Proof.
  intros Hf Hk u l' Hl'. destruct (Hk u l' Hl') as (s & Hs & Hu). simpl.
  rewrite list_lookup_alter. case_decide; subst; rewrite Hs; simpl; eexists; split; try done.
Qed.

Lemma getUserSession_registry_keyed userId w l w' :
  registry_keyed w -> getUserSession userId w = (l, w') -> registry_keyed w'.
Proof.
  intros Hk. unfold getUserSession. destruct (userSessions w !! userId) eqn:Hu.
  - by intros [= _ <-].
  - intros [= _ <-] u' l'. simpl. rewrite lookup_insert. case_decide.
    + intros [= <-]. subst u'. rewrite list_lookup_middle by done. by eexists.
    + intros Hu'. destruct (Hk _ _ Hu') as (s & Hs & Hid). exists s.
      split; [by apply lookup_app_l_Some|done].
Qed.

Ltac keyed_frame :=
  lazymatch goal with
  | |- registry_keyed (upd _ _ _) => apply registry_keyed_upd; [done|]
  | |- registry_keyed (jsonSend _ _ ?w') => change (registry_keyed w')
  | |- registry_keyed (cleanupConnection _ ?w') => change (registry_keyed w')
  | |- registry_keyed (close_socket _ ?w') => change (registry_keyed w')
  | |- registry_keyed (on _ _ _ ?w') => change (registry_keyed w')
  | |- registry_keyed (removeAllListeners _ _ ?w') => change (registry_keyed w')
  | |- registry_keyed (record _ ?w') => change (registry_keyed w')
  | |- registry_keyed (startCallTracking _ _ _ _ ?w') => change (registry_keyed w')
  | |- registry_keyed (updateCallStatus _ _ ?w') => change (registry_keyed w')
  | |- registry_keyed (with_callSid _ _ ?w') => change (registry_keyed w')
  | |- registry_keyed (setTimeout _ ?w') => change (registry_keyed w')
  | |- registry_keyed (set_sockets _ ?w') => change (registry_keyed w')
  | |- registry_keyed (set_timers _ ?w') => change (registry_keyed w')
  | |- registry_keyed (set_promises _ ?w') => change (registry_keyed w')
  | |- registry_keyed (set_history _ ?w') => change (registry_keyed w')
  | |- registry_keyed (set_callSidToUserId _ ?w') => change (registry_keyed w')
  end.

Ltac keyed_with sub :=
  repeat first
    [ assumption
    | keyed_frame
    | sub
    | lazymatch goal with
      | |- registry_keyed (let '(_, _) := getUserSession ?u ?W in _) =>
          let E := fresh "E" in
          destruct (getUserSession u W) as [? ?] eqn:E;
          apply getUserSession_registry_keyed in E; [|keyed_with sub]
      | |- registry_keyed (let '(_, _) := new_WebSocket _ in _) =>
          unfold new_WebSocket; cbv beta iota zeta
      | |- registry_keyed (match ?x with _ => _ end) => destruct x
      end ].

Ltac keyed := keyed_with fail.

Lemma tryConnectModel_keyed userId w :
  registry_keyed w -> registry_keyed (tryConnectModel userId w).
Proof. intros Hw. unfold tryConnectModel. keyed. Qed.

Lemma handleTwilioMessage_keyed data uid ws key w :
  registry_keyed w -> registry_keyed (handleTwilioMessage data uid ws key w).
Proof.
  intros Hw. unfold handleTwilioMessage. destruct data as [msg|]; [|done].
  assert (Hi : match identify msg uid ws key w with
               | Return w' | Continue _ w' => registry_keyed w'
               end).
  { unfold identify. destruct msg as [call stream from| | | |]; try done.
    destruct (truthy uid); [done|].
    destruct (negb (truthy (getUserIdByCallSid call w))); [done|].
    destruct (getUserSession _ w) as [l w0] eqn:E.
    apply getUserSession_registry_keyed in E; [|done]. keyed. }
  destruct (identify msg uid ws key w) as [w2|uid' w2]; [done|].
  destruct (negb (truthy uid')); [done|].
  unfold route. keyed_with ltac:(apply tryConnectModel_keyed).
Qed.

Lemma run_listener_keyed ws data l w :
  registry_keyed w -> registry_keyed (run_listener ws data l w).
Proof.
  intros Hw. unfold run_listener.
  destruct l, data as [[]|];
    first [ assumption
          | by apply handleTwilioMessage_keyed
          | unfold handleFrontendMessage; by keyed
          | unfold handleModelMessage; by keyed
          | unfold callClosed; by keyed
          | unfold frontendClosed; by keyed
          | unfold modelOpened; by keyed
          | unfold closeModel; by keyed ].
Qed.

Lemma emit_keyed ws ev data w : registry_keyed w -> registry_keyed (emit ws ev data w).
Proof.
  unfold emit. generalize (default [] (listeners <$> sockets w !! ws)).
  intros ls. revert w. induction ls as [|p ls IH]; intros w Hw; [done|].
  simpl. apply IH. destruct (eqb_event _ _); [|done]. by apply run_listener_keyed.
Qed.

Lemma step_keyed e w : registry_keyed w -> registry_keyed (step e w).
Proof.
  intros Hw. destruct e as [| | | | | | |i|u c|u c p|u]; unfold step, accept;
    cbv beta iota zeta.
  - done.
  - destruct (negb _); [done|]. unfold handleFrontendConnection. keyed.
  - by apply emit_keyed.
  - destruct (readyState <$> _) as [[]|]; try done. by apply emit_keyed.
  - by apply emit_keyed.
  - destruct (readyState <$> _) as [[]|]; try done; by apply emit_keyed.
  - destruct (timers w); [done|]. unfold handleTruncation. keyed.
  - destruct (promises w !! i); [|done]. unfold functionCallSettled. keyed.
  - unfold associateOutboundCall. keyed.
  - unfold associateOutboundCallWithPhoneNumber, associateOutboundCall. keyed.
  - unfold deleteUserSession. destruct (userSessions w !! u); [|done].
    intros u' l. simpl. rewrite lookup_delete_Some. intros [_ Hu]. exact (Hw u' l Hu).
Qed.

(** X15. In every world the server reaches, a registered session object
    carries the user id it is registered under; hence no two users share a
    session object. *)
Theorem sessions_are_keyed_by_user w :
  reachable w ->
  (forall u s, session_of u w = Some s -> userId s = u)
  /\ (forall u1 u2 l,
        userSessions w !! u1 = Some l -> userSessions w !! u2 = Some l -> u1 = u2).
Proof.
  intros [es ->].
  assert (Hk : registry_keyed (run es init)).
  { assert (Hinit : registry_keyed init)
      by (intros u l Hl; simpl in Hl; by rewrite lookup_empty in Hl).
    revert Hinit. generalize init. induction es as [|e es IH]; intros w Hw; [done|].
    simpl. by apply IH, step_keyed. }
  split.
  - intros u s (l & Hl & Hs)%session_of_Some.
    destruct (Hk u l Hl) as (s' & Hs' & Hu). congruence.
  - intros u1 u2 l H1 H2.
    destruct (Hk u1 l H1) as (s1 & Hs1 & <-), (Hk u2 l H2) as (s2 & Hs2 & <-). congruence.
Qed.

(** ** The server: connections and tokens *)

Lemma accept_close w :
  close_socket (accept w).1 (accept w).2 =
    set_sockets (sockets w ++ [{| readyState := CLOSING; sent := []; listeners := [] |}]) w.
Proof.
  unfold close_socket, accept, set_sockets. simpl. f_equal. apply close_accepted.
Qed.

(** X16. A connection is refused by closing its socket, and nothing else
    happens, when the path is empty, when its first segment is neither
    [call] nor [logs], and when it is [logs] and the token (absent ones
    included) yields no user id: the socket is left closing, without any
    listener, and no session, registration or history entry is made. *)
Theorem onConnection_rejects parts queryToken authorization key w :
  match parts with
  | [] => True
  | type :: _ =>
      type <> "call"
      /\ (type = "logs" ->
          let token := or_str queryToken (authorization ≫= second_word) in
          truthy token = false
          \/ extractUserIdFromToken (default EmptyString token) = None)
  end ->
  onConnection parts queryToken authorization key w =
    set_sockets (sockets w ++ [{| readyState := CLOSING; sent := []; listeners := [] |}]) w.
Proof.
  intros Hp. rewrite <- accept_close. unfold onConnection.
  destruct (accept w) as [ws w0]. simpl.
  destruct parts as [|type rest]; [done|]. destruct Hp as [Hcall Hlogs].
  destruct (String.eqb_spec type "call") as [|_]; [done|].
  destruct (String.eqb_spec type "logs") as [Hl|_]; [|done].
  destruct (Hlogs Hl) as [-> | Hnone]; [done|].
  destruct (negb _); [done|].
  by apply handleFrontendConnection_invalid_token.
Qed.

Lemma split_on_space_word a b :
  has_space a = false ->
  split_on_space (a +:+ String " "%char b) = a :: split_on_space b.
Proof.
  induction a as [|c a IH]; simpl; [done|].
  destruct (Ascii.eqb c " ") eqn:E; simpl; [done|]. intros Ha. by rewrite IH.
Qed.

Lemma split_on_space_one a : has_space a = false -> split_on_space a = [a].
Proof.
  induction a as [|c a IH]; simpl; [done|].
  destruct (Ascii.eqb c " ") eqn:E; simpl; [done|]. intros Ha. by rewrite IH.
Qed.

Lemma second_word_bearer scheme token :
  has_space scheme = false -> has_space token = false ->
  second_word (scheme +:+ " " +:+ token) = Some token.
Proof.
  intros Hs Ht. unfold second_word. change (" " +:+ token) with (String " "%char token).
  rewrite split_on_space_word by done. by rewrite split_on_space_one.
Qed.

(** X17. The token of an observer connection is the [token] query
    parameter if there is a non-empty one, and otherwise the second word of
    the authorization header; a telephony connection needs neither.  With
    these the server does what the events [CallConnection] and
    [LogsConnection] of the event loop do. *)
Theorem onConnection_token_source rest queryToken scheme token key w :
  has_space scheme = false -> has_space token = false ->
  onConnection ("call" :: rest) queryToken (Some (scheme +:+ " " +:+ token)) key w
    = step (CallConnection key) w
  /\ onConnection ("logs" :: rest) queryToken (Some (scheme +:+ " " +:+ token)) key w
    = step (LogsConnection (if truthy queryToken then queryToken else Some token)) w
  /\ onConnection ("logs" :: rest) queryToken None key w
    = step (LogsConnection (if truthy queryToken then queryToken else None)) w.
Proof.
  intros Hs Ht. unfold onConnection, step, or_str. simpl.
  rewrite (second_word_bearer _ _ Hs Ht). by destruct (accept w), (truthy queryToken).
Qed.

(** X18. The three outcomes of the HTTP middleware.  It answers 401 exactly
    when the authorization header has no non-empty second word.  It
    answers 403 only for a token from which [extractUserIdFromToken] gets
    no user id.  It calls [next] only for a token that verifies, with
    [req.userId] set to the [sub] claim, which is what
    [extractUserIdFromToken] returns for that token (also when the claim is
    missing). *)
Theorem authenticateToken_outcomes authorization :
  match authenticateToken authorization with
  | Status401 => truthy (authorization ≫= second_word) = false
  | Status403 =>
      exists token, authorization ≫= second_word = Some token /\ token <> EmptyString
        /\ extractUserIdFromToken token = None
  | Next sub =>
      exists token, authorization ≫= second_word = Some token /\ token <> EmptyString
        /\ jwt_verify token (default EmptyString SUPABASE_JWT_SECRET) = Some sub
        /\ extractUserIdFromToken token = sub
  end.
Proof.
  unfold authenticateToken, extractUserIdFromToken.
  destruct authorization as [[|a h]|]; simpl; try done.
  destruct (second_word (String a h)) as [[|b t]|] eqn:Ew; simpl; try done.
  destruct (truthy SUPABASE_JWT_SECRET); simpl.
  - destruct (jwt_verify _ _) as [sub|] eqn:Ev; exists (String b t); by rewrite Ev.
  - by exists (String b t).
Qed.

(** ** Outbound calls over HTTP *)

Lemma digits_of_idemp s : digits_of (digits_of s) = digits_of s.
Proof.
  induction s as [|c s IH]; simpl; [done|].
  destruct (is_digit c) eqn:E; simpl; by rewrite ?E, IH.
Qed.

Lemma prefix_plus s :
  String.prefix "+" s = true <-> exists rest, s = String "+"%char rest.
Proof.
  destruct s as [|c s].
  - split; [discriminate|]. intros [? ?]; discriminate.
  - change (String.prefix "+" (String c s))
      with (if ascii_dec "+" c then String.prefix EmptyString s else false).
    destruct (ascii_dec "+" c) as [<-|Hne].
    + split; [by eexists|by destruct s].
    + split; [discriminate|]. intros [rest [= Hc _]]. by destruct Hne.
Qed.

(** X19. [formatPhoneNumber] returns a number that already starts with [+]
    as it is, punctuation included, and any other number as [+] followed
    by its digits, in order, and by nothing else.  So the result always
    starts with [+], has the digits of the number, and formatting it again
    changes nothing. *)
Theorem formatPhoneNumber_normal_form phoneNumber :
  let formatted := formatPhoneNumber phoneNumber in
  (String.prefix "+" phoneNumber = true -> formatted = phoneNumber)
  /\ (String.prefix "+" phoneNumber = false ->
      formatted = String "+"%char (digits_of phoneNumber))
  /\ (exists rest, formatted = String "+"%char rest
        /\ (String.prefix "+" phoneNumber = false -> digits_of rest = rest))
  /\ formatPhoneNumber formatted = formatted
  /\ digits_of formatted = digits_of phoneNumber.
Proof.
  unfold formatPhoneNumber. destruct (String.prefix "+" phoneNumber) eqn:E; simpl.
  - rewrite E. simpl. split; [done|]. split; [done|].
    apply prefix_plus in E as [rest ->]. split; [|done]. by eexists.
  - split; [done|]. split; [done|]. split; [|split].
    + eexists. split; [done|]. intros _. apply digits_of_idemp.
    + by destruct (digits_of phoneNumber).
    + apply digits_of_idemp.
Qed.

Section Outbound_properties.

Context `{Twilio}.

(** X20. The three answers of [POST /outbound-call].  It answers 400
    exactly when no phone number was given, and then, as with a 500,
    nothing has changed: a failed request leaves no registration, session
    or history entry.  It answers 200 with a Call SID only when Twilio
    created the call to the formatted number; then the Call SID resolves to
    the user and the start of an outbound call to the formatted number has
    been recorded. *)
Theorem postOutboundCall_registers userId phoneNumber w :
  match postOutboundCall userId phoneNumber w with
  | (Reply200 callSid, w') =>
      exists number, phoneNumber = Some number /\ number <> EmptyString
        /\ calls_create (formatPhoneNumber number) = Some callSid
        /\ w' = associateOutboundCallWithPhoneNumber userId callSid
                  (formatPhoneNumber number) w
        /\ getUserIdByCallSid callSid w' = Some userId
        /\ history w' =
             history w ++ [StartCallTracking callSid userId (formatPhoneNumber number) outbound]
  | (Reply400, w') => truthy phoneNumber = false /\ w' = w
  | (Reply500, w') => truthy phoneNumber = true /\ w' = w
  end.
Proof.
  unfold postOutboundCall, initiateOutboundCall.
  destruct phoneNumber as [[|a p]|]; simpl; try done.
  destruct (_ || _); [done|]. destruct (negb (URL_parses _)); [done|].
  destruct (calls_create _) as [sid|] eqn:Ec; [|done].
  exists (String a p). split; [done|]. split; [done|]. split; [done|]. split; [done|].
  unfold associateOutboundCallWithPhoneNumber, startCallTracking, record, getUserIdByCallSid.
  simpl. destruct (associateOutboundCall_registry userId sid w) as [-> _].
  split; [apply lookup_insert_eq|].
  unfold associateOutboundCall, getUserSession. by destruct (userSessions w !! userId).
Qed.

End Outbound_properties.

(** ** Call statistics *)

Lemma size_list_to_set_le (l : list string) :
  (size (list_to_set l : gset string) <= length l)%nat.
Proof.
  induction l as [|x l IH]; simpl; [done|].
  rewrite size_union_alt, size_singleton.
  assert (Hsub : (list_to_set l : gset string) ∖ {[x]} ⊆ list_to_set l)
    by (intros y Hy; apply elem_of_difference in Hy; tauto).
  apply subseteq_size in Hsub. lia.
Qed.

(** The sum [reduce] computes, started from [z]. *)
Lemma sum_durations_from (calls : list CallRow) (z : Z) :
  foldl (fun sum call => (sum + or_zero (duration call))%Z) z calls
  = (z + foldl (fun sum call => (sum + or_zero (duration call))%Z) 0 calls)%Z.
Proof.
  revert z. induction calls as [|c calls IH]; intros z; simpl; [lia|].
  rewrite (IH (z + _)%Z), (IH (0 + _)%Z). lia.
Qed.

Lemma sum_durations_bounds (calls : list CallRow) (lo hi : Z) :
  (forall c d, c ∈ calls -> duration c = Some d -> lo <= d <= hi)%Z ->
  let completed := List.filter (fun call => defined (duration call)) calls in
  (Z.of_nat (length completed) * lo
   <= foldl (fun sum call => (sum + or_zero (duration call))%Z) 0 completed
   <= Z.of_nat (length completed) * hi)%Z.
Proof.
  induction calls as [|c calls IH]; intros Hb; simpl; [lia|].
  assert (IH' := IH (fun c' d Hc => Hb c' d (list_elem_of_further _ _ _ Hc))).
  simpl in IH'.
  destruct (duration c) as [d|] eqn:Ed; simpl; [|exact IH'].
  rewrite sum_durations_from, Ed, or_zero_Some.
  pose proof (Hb c d (list_elem_of_here _ _) Ed). lia.
Qed.

(** X21. In the statistics of a call history the inbound and the outbound
    calls add up to the total, the count of distinct numbers is at most the
    total, and it is zero only if there are no calls. *)
Theorem callHistoryStats_counts calls :
  let stats := callHistoryStats calls in
  (inboundCalls stats + outboundCalls stats = totalCalls stats)%nat
  /\ (uniqueNumbers stats <= totalCalls stats)%nat
  /\ (uniqueNumbers stats = 0%nat <-> calls = []).
Proof.
  simpl. split; [|split].
  - induction calls as [|c calls IH]; simpl; [done|].
    unfold is_inbound at 1, is_outbound at 1. destruct (direction c); simpl; lia.
  - etrans; [apply size_list_to_set_le|]. by rewrite length_fmap.
  - rewrite size_empty_iff. split.
    + destruct calls as [|c calls]; [done|]. simpl. intros Hempty.
      assert (phone_number c ∈ (∅ : gset string)) by (rewrite <- Hempty; set_solver).
      set_solver.
    + by intros ->.
Qed.

(** X22. Only calls with a duration count for the average duration.  With
    no such call the average and the total duration are 0; otherwise the
    average lies between any two bounds of the durations, in particular
    between the shortest and the longest. *)
Theorem callHistoryStats_average calls :
  let completed := List.filter (fun call => defined (duration call)) calls in
  let stats := callHistoryStats calls in
  (completed = [] -> avgDuration stats = 0%Z /\ totalDuration stats = 0%Z)
  /\ (forall lo hi,
        (forall c d, c ∈ calls -> duration c = Some d -> lo <= d <= hi)%Z ->
        completed <> [] ->
        (lo <= avgDuration stats <= hi)%Z).
Proof.
  intros completed stats. split.
  - unfold stats, callHistoryStats. simpl. fold completed. by intros ->.
  - intros lo hi Hb Hne. pose proof (sum_durations_bounds calls lo hi Hb) as Hs.
    unfold stats, callHistoryStats. simpl in *. fold completed in Hs |- *.
    destruct completed as [|c rest] eqn:Ec; [done|]. clear Hne.
    change (0 <? length (c :: rest))%nat with true. cbv iota.
    set (total := foldl _ 0%Z (c :: rest)) in *.
    set (n := Z.of_nat (length (c :: rest))) in *.
    assert (0 < n)%Z by (unfold n; simpl; lia).
    unfold round_div. split.
    + apply Z.div_le_lower_bound; lia.
    + apply Z.lt_succ_r, Z.div_lt_upper_bound; lia.
Qed.

(** X23. The statistics do not depend on the order in which the rows of
    the user come back from the database. *)
Theorem callHistoryStats_order calls calls' :
  calls ≡ₚ calls' -> callHistoryStats calls = callHistoryStats calls'.
Proof.
  intros Hp. unfold callHistoryStats.
  assert (Hf : forall f : CallRow -> bool,
            length (List.filter f calls) = length (List.filter f calls')).
  { intros f. induction Hp; simpl; try done.
    - destruct (f x); cbn [length]; congruence.
    - by destruct (f x), (f y).
    - congruence. }
  assert (Hsum : forall z,
    foldl (fun sum call => (sum + or_zero (duration call))%Z) z
      (List.filter (fun call => defined (duration call)) calls)
    = foldl (fun sum call => (sum + or_zero (duration call))%Z) z
      (List.filter (fun call => defined (duration call)) calls')).
  { clear Hf. induction Hp; intros z; simpl; try done.
    - destruct (defined (duration x)); simpl; apply IHHp.
    - destruct (defined (duration x)), (defined (duration y)); simpl; try done.
      f_equal. lia.
    - by rewrite IHHp1. }
  rewrite !Hf, Hsum, (Permutation_length Hp).
  f_equal. f_equal. apply list_to_set_perm_L. by apply fmap_Permutation.
Qed.

End Properties.

(** * The properties on the small deployment *)

Lemma registry_wf_init : registry_wf init.
Proof. intros userId l Hl. simpl in Hl. by rewrite lookup_empty in Hl. Qed.

(** ** Barge-in *)

Lemma handleTruncation_nothing_recorded_witness :
  isOpen (Some 1%nat) speaking_without_item = true
  /\ (session_of "u1" speaking_without_item ≫= responseStartTimestamp) = Some 100%Z
  /\ (session_of "u1" speaking_without_item ≫= latestMediaTimestamp) = Some 350%Z
  /\ timers speaking_without_item = ["u1"]
  /\ handleTruncation "u1" speaking_without_item = speaking_without_item
  /\ @step demo TimerFired speaking_without_item = set_timers [] speaking_without_item.
Proof.
  assert (Hs : exists s, session_of "u1" speaking_without_item = Some s
                 /\ lastAssistantItem s = None).
  { eexists. split; [vm_compute; reflexivity|reflexivity]. }
  destruct Hs as (s & Hs & Hitem).
  assert (Hs0 : session_of "u1" (set_timers [] speaking_without_item) = Some s)
    by exact Hs.
  split; [vm_compute; reflexivity|]. split; [vm_compute; reflexivity|].
  split; [vm_compute; reflexivity|]. split; [vm_compute; reflexivity|]. split.
  - apply (handleTruncation_nothing_recorded "u1" speaking_without_item s Hs).
    by rewrite Hitem.
  - assert (Ht : timers speaking_without_item = ["u1"]) by (vm_compute; reflexivity).
    unfold step. rewrite Ht.
    apply (handleTruncation_nothing_recorded "u1" _ s Hs0). by rewrite Hitem.
Defined.

Lemma handleTruncation_truncates_witness :
  sent_on (Some 1%nat) (handleTruncation "u1" speaking) =
    sent_on (Some 1%nat) speaking ++
      [ConversationItemTruncate "item_1" 0 250; InputAudioBufferClear;
       ConversationItemCreateMessage "system" interruption_notice].
Proof.
  assert (Hs : exists s, session_of "u1" speaking = Some s
                 /\ lastAssistantItem s = Some "item_1"
                 /\ responseStartTimestamp s = Some 100%Z
                 /\ latestMediaTimestamp s = Some 350%Z
                 /\ modelConn s = Some 1%nat).
  { eexists. split; [vm_compute; reflexivity|]. repeat split. }
  destruct Hs as (s & Hs & Hitem & Hrst & Hlatest & Hlink).
  destruct (handleTruncation_truncates "u1" speaking s "item_1" 100 350
              Hs Hitem ltac:(discriminate) Hrst ltac:(discriminate) Hlatest)
    as [Hsent _].
  rewrite Hlink in Hsent. exact Hsent.
Defined.

(** The user speaks, the model link closes, and then the timer fires: an
    item, a start [100] and a clock [350] are recorded, and no socket is
    sent anything. *)
Lemma truncation_without_model_link :
  let w := @run demo [Message 1 (OfModel (Some SpeechStarted)); Closed 1] speaking in
  (exists s, session_of "u1" w = Some s
     /\ lastAssistantItem s = Some "item_1"
     /\ responseStartTimestamp s = Some 100%Z
     /\ latestMediaTimestamp s = Some 350%Z)
  /\ timers w = ["u1"]
  /\ sockets (@step demo TimerFired w) = sockets w.
Proof.
  split; [|split].
  - eexists. split; [vm_compute; reflexivity|]. repeat split.
  - vm_compute. reflexivity.
  - vm_compute. reflexivity.
Qed.

(** The assistant starts to speak before any media frame has moved the
    clock, so that the start recorded is 0; the user speaks at 350 and the
    timer fires with the model link open: nothing is truncated, and the
    item and the start stay recorded. *)
Lemma truncation_with_start_at_zero :
  let w := @run demo
    [Opened 1;
     Message 1 (OfModel (Some (ResponseAudioDelta (Some "item_1") "b64")));
     Message 0 (OfTwilio (Some (TwMedia 350 "b64")));
     Message 1 (OfModel (Some SpeechStarted))] started in
  isOpen (Some 1%nat) w = true
  /\ (responseStartTimestamp <$> session_of "u1" w) = Some (Some 0%Z)
  /\ @step demo TimerFired w = set_timers [] w.
Proof. split; [|split]; vm_compute; reflexivity. Qed.

(** ** Tool calls *)

Lemma tool_call_closes_the_loop_witness :
  let p := {| pc_name := "get_weather"; pc_call_id := Some "call_1";
              pc_userId := "u1"; pc_session := 0%nat;
              pc_outcome := Fulfilled "sunny" |} in
  sent_on (Some 1%nat) (@functionCallSettled demo p speaking) =
    sent_on (Some 1%nat) speaking ++
      [ConversationItemCreateFunctionCallOutput (Some "call_1") "s:sunny";
       ResponseCreate].
Proof.
  exact (proj1 (proj2
    (@tool_call_closes_the_loop demo "get_weather" "{}" (Some "call_1") "u1" 0%nat
       speaking))).
Defined.

(** The model asks for a tool that is not in the table while its link is
    open: the promise is rejected, and settling it sends nothing. *)
Lemma unknown_tool_gets_no_output :
  let w := @run demo
    [Message 1 (OfModel (Some (ResponseOutputItemDone
       (ItemFunctionCall "nope" "{}" (Some "call_1")))))] speaking in
  (pc_outcome <$> promises w) = [Rejected "No handler found for function: nope"]
  /\ isOpen (Some 1%nat) w = true
  /\ sockets (@step demo (Settled 0) w) = sockets w
  /\ promises (@step demo (Settled 0) w) = [].
Proof. split; [|split; [|split]]; vm_compute; reflexivity. Qed.

(** ** Identification *)

Lemma unregistered_start_closes_witness :
  let w' := @run demo
    [CallConnection "key"; Message 0 (OfTwilio (Some (TwStart "CA999" "S1" None)))] init in
  userSessions w' = ∅ /\ history w' = []
  /\ sockets w' =
       [{| readyState := CLOSING; sent := []; listeners := anonymous_listeners "key" |}].
Proof.
  destruct (@unregistered_start_closes demo "CA999" "S1" None "key" init)
    as (Hu & _ & _ & Hh & Hs); [vm_compute; reflexivity|].
  exact (conj Hu (conj Hh Hs)).
Defined.

Lemma invalid_token_closes_witness :
  let w' := @step demo (LogsConnection (Some "forged")) init in
  userSessions w' = ∅
  /\ sockets w' = [{| readyState := CLOSING; sent := []; listeners := [] |}].
Proof.
  destruct (@invalid_token_closes demo "forged" init)
    as (Hu & _ & Hs); [vm_compute; reflexivity|].
  exact (conj Hu Hs).
Defined.

Lemma outbound_start_connects_witness :
  let w2 := @run demo
    [AssociateOutboundCallWithPhoneNumber "u1" "CA123" "+15550100";
     CallConnection "key";
     Message 0 (OfTwilio (Some (TwStart "CA123" "S1" None)))] init in
  exists s, session_of "u1" w2 = Some s
    /\ callType s = Some outbound
    /\ outboundCallStatus s = Some connected
    /\ streamSid s = Some "S1".
Proof.
  exact (proj2 (@outbound_start_connects demo "u1" "CA123" (Some "+15550100") "S1"
                  None "key" init registry_wf_init ltac:(discriminate))).
Defined.

(** ** The end of a call *)

Lemma start_then_close_witness :
  let w := @run demo [AssociateOutboundCallWithPhoneNumber "u1" "CA123" "+15550100"] init in
  let w1 := @run demo [CallConnection "key";
                       Message 0 (OfTwilio (Some (TwStart "CA123" "S1" None)))] w in
  let w2 := @step demo (Message 0 (OfTwilio (Some TwClose))) w1 in
  let w3 := @step demo (Closed 0) w2 in
  exists s2 s3,
    session_of "u1" w2 = Some s2
    /\ twilioConn s2 = None /\ modelConn s2 = None
    /\ outboundCallStatus s2 = Some disconnected
    /\ streamSid s2 = Some "S1"
    /\ latestMediaTimestamp s2 = Some 0%Z
    /\ history w2 = history w1 ++ [EndCallTracking "CA123"]
    /\ session_of "u1" w3 = Some s3
    /\ streamSid s3 = None /\ lastAssistantItem s3 = None
    /\ responseStartTimestamp s3 = None /\ latestMediaTimestamp s3 = None
    /\ history w3 = history w2 ++ [EndCallTracking "CA123"].
Proof.
  intros w.
  assert (Hs : exists s, session_of "u1" w = Some s
                 /\ callType s = Some outbound /\ callSid s = Some "CA123").
  { eexists. split; [vm_compute; reflexivity|]. split; reflexivity. }
  destruct Hs as (s & Hs & Hct & Hsid).
  apply (@start_then_close demo "u1" "CA123" "S1" None "key" w s "CA123" Hs);
    [vm_compute; reflexivity|discriminate|exact Hct|exact Hsid|discriminate].
Defined.

(** After [start] and [close] the stream fields are still set and one
    notification has gone out; once the transport has closed they are
    cleared and two notifications have gone out. *)
Lemma close_signal_leaves_stream_fields :
  let w2 := @step demo (Message 0 (OfTwilio (Some TwClose))) started in
  let w3 := @step demo (Closed 0) w2 in
  (streamSid <$> session_of "u1" w2) = Some (Some "S1")
  /\ (latestMediaTimestamp <$> session_of "u1" w2) = Some (Some 0%Z)
  /\ end_calls (history w2) = 1%nat
  /\ (streamSid <$> session_of "u1" w3) = Some None
  /\ (latestMediaTimestamp <$> session_of "u1" w3) = Some None
  /\ end_calls (history w3) = 2%nat.
Proof. split; [|split; [|split; [|split; [|split]]]]; vm_compute; reflexivity. Qed.

(** ** The media clock *)

Lemma media_clock_follows_frames_witness :
  media_clock [(20%Z, "a"); (40%Z, "b"); (10%Z, "c")] "u1" 0 "key" started
  = [Some 20%Z; Some 40%Z; Some 10%Z].
Proof.
  assert (Hs : exists s, session_of "u1" started = Some s).
  { eexists. vm_compute. reflexivity. }
  destruct Hs as (s & Hs).
  apply (media_clock_follows_frames [(20%Z, "a"); (40%Z, "b"); (10%Z, "c")]
           "u1" 0%nat "key" started s Hs).
  discriminate.
Defined.

(** The clock stands at 350 and a frame stamped 20 arrives: it stands at 20. *)
Lemma media_clock_goes_back :
  let w' := @step demo (Message 0 (OfTwilio (Some (TwMedia 20 "b64")))) speaking in
  (latestMediaTimestamp <$> session_of "u1" speaking) = Some (Some 350%Z)
  /\ (latestMediaTimestamp <$> session_of "u1" w') = Some (Some 20%Z).
Proof. split; vm_compute; reflexivity. Qed.

(** ** The registry *)

(** The observer of [u1] connects and disconnects: the session of [u1] is
    in the registry, none of its links is live and no registration is
    pending. *)
Lemma session_without_a_reason :
  let w := @run demo [LogsConnection (Some "good"); Closed 0] init in
  @reachable demo w /\ ~ sessions_have_a_reason w.
Proof.
  intros w. split; [by eexists|].
  intros Hinv.
  assert (Hs : exists s, session_of "u1" w = Some s /\ has_live_link s w = false).
  { eexists. split; vm_compute; reflexivity. }
  destruct Hs as (s & Hs & Hdead).
  destruct (Hinv "u1" s Hs) as [Hlive|[call Hcall]].
  - congruence.
  - assert (Hnone : callSidToUserId w = ∅) by (vm_compute; reflexivity).
    rewrite Hnone, lookup_empty in Hcall. discriminate.
Qed.

(** * The further properties on the small deployment *)

Lemma media_frame_relayed_witness :
  sent_on (Some 1%nat)
    (handleTwilioMessage (Some (TwMedia 400 "b64")) (Some "u1") 0%nat "key" speaking)
  = sent_on (Some 1%nat) speaking ++ [InputAudioBufferAppend "b64"].
Proof.
  assert (Hs : exists s, session_of "u1" speaking = Some s /\ modelConn s = Some 1%nat).
  { eexists. split; [vm_compute; reflexivity|reflexivity]. }
  destruct Hs as (s & Hs & Hm).
  destruct (media_frame_relayed "u1" 0%nat "key" 400 "b64" speaking s Hs
              ltac:(discriminate)) as [Hsent _].
  rewrite Hm in Hsent. exact Hsent.
Defined.

Lemma unidentified_messages_dropped_witness :
  @step demo (Message 0 (OfTwilio (Some (TwMedia 20 "b64"))))
    (@step demo (CallConnection "key") init)
  = @step demo (CallConnection "key") init.
Proof.
  apply (@unidentified_messages_dropped demo 0%nat "key"); [reflexivity|discriminate].
Defined.

Lemma audio_delta_forwarded_witness :
  sent_on (Some 0%nat)
    (@handleModelMessage demo (Some (ResponseAudioDelta (Some "item_2") "b64")) "u1" speaking)
  = sent_on (Some 0%nat) speaking ++ [TwilioMedia "S1" "b64"; TwilioMark "S1"].
Proof.
  assert (Hs : exists s, session_of "u1" speaking = Some s
                 /\ twilioConn s = Some 0%nat /\ streamSid s = Some "S1"
                 /\ frontendConn s = None).
  { eexists. split; [vm_compute; reflexivity|]. repeat split. }
  destruct Hs as (s & Hs & Htw & Hsid & Hf).
  assert (Hft : forall c, frontendConn s = Some c -> twilioConn s <> Some c)
    by (intros c Hc; rewrite Hf in Hc; discriminate).
  destruct (@audio_delta_forwarded demo (Some "item_2") "b64" "u1" speaking s Hs Hft)
    as [_ Hrest].
  rewrite Htw, Hsid in Hrest. destruct Hrest as [Hsent _]. exact Hsent.
Defined.

Lemma model_event_mirrored_witness :
  sent_on (Some 2%nat) (@handleModelMessage demo (Some SpeechStarted) "u1" watched)
  = sent_on (Some 2%nat) watched ++ [FromModel SpeechStarted].
Proof.
  assert (Hs : exists s, session_of "u1" watched = Some s
                 /\ twilioConn s = Some 0%nat /\ frontendConn s = Some 2%nat).
  { eexists. split; [vm_compute; reflexivity|]. repeat split. }
  destruct Hs as (s & Hs & Htw & Hf).
  assert (Hft : forall c, frontendConn s = Some c -> twilioConn s <> Some c)
    by (intros c Hc; rewrite Hf in Hc; rewrite Htw; congruence).
  destruct (@model_event_mirrored demo SpeechStarted "u1" watched s Hs Hft) as [Hsent _].
  rewrite Hf in Hsent. exact Hsent.
Defined.

Lemma tryConnectModel_connects_witness :
  (session_of "u1" (tryConnectModel "u1" started) ≫= modelConn) = Some 2%nat.
Proof.
  assert (Hs : exists s, session_of "u1" started = Some s
                 /\ twilioConn s = Some 0%nat /\ streamSid s = Some "S1"
                 /\ openAIApiKey s = Some "key" /\ modelConn s = Some 1%nat).
  { eexists. split; [vm_compute; reflexivity|]. repeat split. }
  destruct Hs as (s & Hs & Htw & Hsid & Hkey & Hm).
  pose proof (tryConnectModel_connects "u1" started s Hs) as Hc.
  rewrite Htw, Hsid, Hkey, Hm in Hc.
  destruct Hc as (l & _ & _ & Hc). by rewrite Hc.
Defined.

Lemma saved_config_applied_witness :
  let cfg : gmap string Value := {[ "voice" := VStr "alloy" ]} in
  sent_on (Some 1%nat)
    (@step demo (Opened 1)
       (handleFrontendMessage
          (Some {| msg_type := "session.update"; msg_session := Some cfg |}) "u1" started))
  = sent_on (Some 1%nat) started ++ [SessionUpdate (cfg ∪ default_config)].
Proof.
  assert (Hs : exists s, heap started !! 0%nat = Some s /\ modelConn s = Some 1%nat).
  { eexists. split; [vm_compute; reflexivity|reflexivity]. }
  destruct Hs as (s & Hs & Hm).
  exact (proj1 (proj2 (@saved_config_applied demo "u1" 0%nat s 1%nat
    (Some {[ "voice" := VStr "alloy" ]}) started eq_refl Hs Hm eq_refl eq_refl))).
Defined.

Lemma observer_takes_over_witness :
  (frontendConn <$>
     session_of "u1" (@handleFrontendConnection demo 2%nat "good" (accept speaking).2))
  = Some (Some 2%nat).
Proof.
  assert (Hs : exists s, session_of "u1" (accept speaking).2 = Some s).
  { eexists. vm_compute. reflexivity. }
  destruct Hs as (s & Hs).
  destruct (@observer_takes_over demo 2%nat "good" "u1" (accept speaking).2 s
              eq_refl ltac:(discriminate) Hs) as (l & _ & Hs' & _).
  by rewrite Hs'.
Defined.

Lemma replaced_observer_closes_successor_witness :
  state_of (Some 1%nat) (sockets (@step demo (Closed 0) two_observers)) = Some CLOSING.
Proof.
  assert (Hs : exists s, heap two_observers !! 0%nat = Some s /\ frontendConn s = Some 1%nat).
  { eexists. split; [vm_compute; reflexivity|reflexivity]. }
  destruct Hs as (s & Hs & Hf).
  assert (Hu : unclosed 0%nat two_observers).
  { eexists. split; [vm_compute; reflexivity|discriminate]. }
  exact (proj1 (@replaced_observer_closes_successor demo 0%nat "u1" 0%nat s 1%nat
    two_observers Hs Hf ltac:(discriminate) eq_refl eq_refl Hu)).
Defined.

Lemma stale_model_socket_closes_current_link_witness :
  state_of (Some 3%nat) (sockets (@step demo (Closed 1) redialled)) = Some CLOSING.
Proof.
  assert (Hs : exists s, heap redialled !! 0%nat = Some s /\ modelConn s = Some 3%nat).
  { eexists. split; [vm_compute; reflexivity|reflexivity]. }
  destruct Hs as (s & Hs & Hm).
  assert (Hu : unclosed 1%nat redialled).
  { eexists. split; [vm_compute; reflexivity|discriminate]. }
  exact (proj1 (@stale_model_socket_closes_current_link demo 1%nat "u1" 0%nat s 3%nat
    redialled (Closed 1) eq_refl Hs Hm ltac:(discriminate) eq_refl eq_refl Hu
    (or_introl eq_refl))).
Defined.

Lemma stale_call_socket_ends_current_call_witness :
  state_of (Some 2%nat) (sockets (@step demo (Closed 0) reconnected)) = Some CLOSING.
Proof.
  assert (Hs : exists s, heap reconnected !! 0%nat = Some s /\ twilioConn s = Some 2%nat).
  { eexists. split; [vm_compute; reflexivity|reflexivity]. }
  destruct Hs as (s & Hs & Ht).
  assert (Hu : unclosed 0%nat reconnected).
  { eexists. split; [vm_compute; reflexivity|discriminate]. }
  exact (proj1 (@stale_call_socket_ends_current_call demo 0%nat "u1" "key" 0%nat s 2%nat
    reconnected Hs Ht ltac:(discriminate) eq_refl eq_refl Hu)).
Defined.

Lemma deleteUserSession_closes_links_witness :
  session_of "u1" (deleteUserSession "u1" speaking) = None
  /\ callSidToUserId (deleteUserSession "u1" speaking) !! "CA123" = Some "u1".
Proof.
  assert (Hs : exists s, session_of "u1" speaking = Some s).
  { eexists. vm_compute. reflexivity. }
  destruct Hs as (s & Hs).
  destruct (deleteUserSession_closes_links "u1" speaking s Hs) as (Hnone & _ & _ & Hreg & _).
  split; [exact Hnone|]. rewrite Hreg. vm_compute. reflexivity.
Defined.

Lemma start_after_delete_is_inbound_witness :
  exists s',
    session_of "u1"
      (handleTwilioMessage (Some (TwStart "CA123" "S2" None)) None 0%nat "key"
         (deleteUserSession "u1" started)) = Some s'
    /\ callType s' = Some inbound
    /\ callSid s' = Some "CA123"
    /\ outboundCallStatus s' = None
    /\ twilioConn s' = Some 0%nat
    /\ streamSid s' = Some "S2"
    /\ history
         (handleTwilioMessage (Some (TwStart "CA123" "S2" None)) None 0%nat "key"
            (deleteUserSession "u1" started))
       = history started ++ [StartCallTracking "CA123" "u1" "unknown" inbound].
Proof.
  apply (start_after_delete_is_inbound "u1" "CA123" "S2" None 0%nat "key" started);
    [vm_compute; reflexivity|discriminate|discriminate].
Defined.

Lemma handlers_touch_one_session_witness :
  heap (handleTruncation "u1" two_users) !! 1%nat = heap two_users !! 1%nat.
Proof.
  assert (Hl : 1%nat <> (getUserSession "u1" two_users).1).
  { intros Heq. vm_compute in Heq. discriminate. }
  exact (proj1 (proj2 (proj2 (proj2
    (@handlers_touch_one_session demo "u1" two_users 1%nat ltac:(discriminate) Hl))))).
Defined.

Lemma sessions_are_keyed_by_user_witness :
  (forall u s, session_of u speaking = Some s -> userId s = u)
  /\ (forall u1 u2 l,
        userSessions speaking !! u1 = Some l -> userSessions speaking !! u2 = Some l ->
        u1 = u2).
Proof.
  apply (@sessions_are_keyed_by_user demo speaking).
  exists [AssociateOutboundCallWithPhoneNumber "u1" "CA123" "+15550100";
          CallConnection "key";
          Message 0 (OfTwilio (Some (TwStart "CA123" "S1" None)));
          Opened 1;
          Message 0 (OfTwilio (Some (TwMedia 100 "b64")));
          Message 1 (OfModel (Some (ResponseAudioDelta (Some "item_1") "b64")));
          Message 0 (OfTwilio (Some (TwMedia 350 "b64")))].
  vm_compute. reflexivity.
Defined.

Lemma onConnection_rejects_witness :
  @onConnection demo ["logs"] (Some "expired") None "key" init
  = set_sockets
      (sockets init ++ [{| readyState := CLOSING; sent := []; listeners := [] |}]) init.
Proof.
  apply (@onConnection_rejects demo ["logs"] (Some "expired") None "key" init).
  split; [discriminate|]. intros _. right. vm_compute. reflexivity.
Defined.

Lemma onConnection_token_source_witness :
  @onConnection demo ["logs"] None (Some "Bearer good") "key" init
  = @step demo (LogsConnection (Some "good")) init.
Proof.
  exact (proj1 (proj2 (@onConnection_token_source demo [] None "Bearer" "good" "key" init
    eq_refl eq_refl))).
Defined.

Lemma postOutboundCall_registers_witness :
  (@postOutboundCall twilio_demo "u1" (Some "(555) 010-0199") init).1 = Reply200 "CA900"
  /\ getUserIdByCallSid "CA900"
       (@postOutboundCall twilio_demo "u1" (Some "(555) 010-0199") init).2 = Some "u1".
Proof.
  pose proof (@postOutboundCall_registers twilio_demo "u1" (Some "(555) 010-0199") init) as Hp.
  change (@postOutboundCall twilio_demo "u1" (Some "(555) 010-0199") init)
    with (Reply200 "CA900",
          associateOutboundCallWithPhoneNumber "u1" "CA900" "+5550100199" init) in Hp |- *.
  destruct Hp as (number & _ & _ & _ & _ & Hreg & _). by split.
Defined.

Lemma callHistoryStats_average_witness :
  (30 <= avgDuration (callHistoryStats demo_rows) <= 90)%Z.
Proof.
  apply (proj2 (callHistoryStats_average demo_rows) 30 90)%Z; [|discriminate].
  intros c d Hc Hd. unfold demo_rows in Hc.
  repeat (apply elem_of_cons in Hc as [->|Hc]); simpl in Hd;
    try (injection Hd as <-; lia); try discriminate.
  by apply elem_of_nil in Hc.
Defined.

Lemma callHistoryStats_order_witness :
  callHistoryStats demo_rows = callHistoryStats (reverse demo_rows).
Proof. apply callHistoryStats_order. symmetry. apply reverse_Permutation. Defined.

Lemma frontend_message_forwarded_witness :
  let msg := {| msg_type := "response.create"; msg_session := None |} in
  sent_on (Some 1%nat) (handleFrontendMessage (Some msg) "u1" watched)
  = sent_on (Some 1%nat) watched ++ [FromFrontend msg].
Proof.
  assert (Hs : exists s, session_of "u1" watched = Some s /\ modelConn s = Some 1%nat).
  { eexists. split; [vm_compute; reflexivity|reflexivity]. }
  destruct Hs as (s & Hs & Hm).
  destruct (frontend_message_forwarded
              {| msg_type := "response.create"; msg_session := None |} "u1" watched s Hs)
    as [Hsent _].
  rewrite Hm in Hsent. exact Hsent.
Defined.

Lemma unidentified_connection_goes_away_witness :
  @step demo (Closed 0) (@step demo (CallConnection "key") init)
  = set_sockets
      [{| readyState := CLOSED; sent := []; listeners := anonymous_listeners "key" |}] init.
Proof.
  assert (Hu : unclosed 0%nat (@step demo (CallConnection "key") init)).
  { eexists. split; [vm_compute; reflexivity|discriminate]. }
  exact (@unidentified_connection_goes_away demo 0%nat "key"
           (@step demo (CallConnection "key") init) eq_refl Hu).
Defined.

Lemma handleTruncation_idempotent_witness :
  let w := @step demo (Message 1 (OfModel (Some SpeechStarted)))
             (@step demo (Message 1 (OfModel (Some SpeechStarted))) speaking) in
  timers w = ["u1"; "u1"]
  /\ sent_on (Some 1%nat) (@run demo [TimerFired; TimerFired] w)
     = sent_on (Some 1%nat) w ++
         [ConversationItemTruncate "item_1" 0 250; InputAudioBufferClear;
          ConversationItemCreateMessage "system" interruption_notice].
Proof.
  intros w.
  assert (Ht : timers w = replicate 2 "u1" ++ []) by (vm_compute; reflexivity).
  split; [exact Ht|].
  change [TimerFired; TimerFired] with (replicate 2 TimerFired).
  rewrite (proj2 (@handleTruncation_idempotent demo "u1" w) 1%nat [] Ht).
  vm_compute. reflexivity.
Defined.

(** With an audio delta between two timers the item and a start are
    recorded again, and the second timer truncates a second time. *)
Lemma truncation_rearmed_by_a_delta :
  let w := @run demo
    [Message 1 (OfModel (Some SpeechStarted)); TimerFired;
     Message 1 (OfModel (Some (ResponseAudioDelta (Some "item_1") "b64")));
     Message 0 (OfTwilio (Some (TwMedia 500 "b64")));
     Message 1 (OfModel (Some SpeechStarted)); TimerFired] speaking in
  sent_on (Some 1%nat) w
  = sent_on (Some 1%nat) speaking ++
      [ConversationItemTruncate "item_1" 0 250; InputAudioBufferClear;
       ConversationItemCreateMessage "system" interruption_notice;
       InputAudioBufferAppend "b64";
       ConversationItemTruncate "item_1" 0 150; InputAudioBufferClear;
       ConversationItemCreateMessage "system" interruption_notice].
Proof. vm_compute. reflexivity. Qed.
